(** * DomainAssembly: the incremental assembly-loading engine

    A shallow embedding of [src/coreclr/vm/domainassembly.cpp] (the build
    without [DACCESS_COMPILE]) and the properties of it that the
    specification states: decoding of the debuggable-attribute blob, the
    captured-error protocol, the level checks, and the notifications sent to
    the tracing, profiler and debugger sinks.

    How the C++ is read:
    - a member function is a function on the unit's fields, the globals it
      consults and the log of the calls it has made on its collaborators; it
      returns, throws, or reaches a point the code declares impossible;
    - a collaborator answers a call by returning or by throwing, as a function
      of the calls made so far; it does not call back into the unit;
    - contracts ([PRECONDITION], [_ASSERTE]) are checks of debug builds: a
      precondition is a predicate beside the function, not a branch of it;
    - locks, reference counts, the GC mode and logging change none of the
      fields and are left out; allocation does not fail. *)

From Stdlib Require Import ZArith List Bool Lia.
Import ListNotations.
Local Open Scope Z_scope.

(** ** Machine types *)

(** [HRESULT] is a signed 32-bit integer, [DWORD] and [ULONG] unsigned 32-bit
    integers, [BYTE] an unsigned 8-bit integer. *)
Definition HRESULT := Z.
Definition DWORD := Z.
Definition ULONG := Z.
Definition BYTE := Z.

(** The value of an [int] expression once stored into a [DWORD]. *)
Definition to_DWORD (x : Z) : DWORD := x mod 2 ^ 32.

(** [*p |= mask] on a [DWORD]. *)
Definition or_assign (flags : DWORD) (mask : Z) : DWORD :=
  Z.lor flags (to_DWORD mask).

(** [*p &= (~mask)] on a [DWORD]: the complement is taken on [int], then
    converted. *)
Definition and_not_assign (flags : DWORD) (mask : Z) : DWORD :=
  Z.land flags (to_DWORD (Z.lnot mask)).

(** A C integer used as a condition. *)
Definition truthy (x : Z) : bool := negb (x =? 0).

(** [blob[i]]. *)
Definition at_index (blob : list BYTE) (i : nat) : BYTE := nth i blob 0.

(** ** Names declared in headers

    The file uses constants and macros of [corerror.h], [winerror.h],
    [cordbpriv.h] and [dbginterface.h].  Their values are parameters of the
    development; a theorem that needs a property of one of them states it. *)
Class Headers := {
  S_OK : HRESULT;
  S_FALSE : HRESULT;
  FAILED : HRESULT -> bool;
  COR_E_BADIMAGEFORMAT : HRESULT;
  MSEE_E_ASSEMBLYLOADINPROGRESS : HRESULT;
  DACF_NONE : DWORD;
  DACF_ALLOW_JIT_OPTS : Z;
  DACF_OBSOLETE_TRACK_JIT_INFO : Z;
  DACF_IGNORE_PDBS : Z;
  ATTACH_ASSEMBLY_LOAD : Z;
  ATTACH_MODULE_LOAD : Z;
  (* the default of [CheckLoadLevel]'s second argument, [deadlockOK] *)
  deadlockOK_default : bool
}.

(** The conditional-compilation symbols the file tests. *)
Class Build := {
  PROFILING_SUPPORTED : bool;
  DEBUGGING_SUPPORTED : bool;
  FEATURE_READYTORUN : bool;
  FEATURE_MULTICOREJIT : bool;
  _DEBUG : bool
}.

(** What [IMDInternalImport::GetCustomAttributeByName] hands back for the
    debuggable attribute: its result code and, when found, the blob and its
    size. *)
Record CustomAttribute := {
  ca_hr : HRESULT;
  ca_blob : list BYTE;
  ca_size : ULONG
}.

(** What a function leaves behind: a value, a C++ exception, or a point the
    code declares impossible ([UNREACHABLE()], a null [GetModule()]). *)
Inductive Thrown (Exception : Type) :=
| HRException (hr : HRESULT)      (* ThrowHR(hr) *)
| Rethrown (ex : Exception).      (* an exception object, thrown as it is *)
Arguments HRException {Exception} hr.
Arguments Rethrown {Exception} ex.

Inductive Result (Exception A : Type) :=
| Returns (a : A)
| Throws (t : Thrown Exception)
| Fault.
Arguments Returns {Exception A} a.
Arguments Throws {Exception A} t.
Arguments Fault {Exception A}.

(** A bit mask [mask] is set, or clear, in [flags]. *)
Definition flag_set (mask flags : Z) : Prop := Z.land flags mask = mask.
Definition flag_clear (mask flags : Z) : Prop := Z.land flags mask = 0.

Section DebuggingConfig.
Context {H : Headers} {B : Build}.

(** The three [if] statements of [GetDebuggingCustomAttributes] that
    update [*pdwFlags] from [blob[2]] and [blob[3]]. *)
Definition decoded_flags (b2 b3 : BYTE) (dwFlags : DWORD) : DWORD :=
  let f1 :=
    if truthy (Z.land b2 1)
    then or_assign dwFlags DACF_OBSOLETE_TRACK_JIT_INFO
    else and_not_assign dwFlags DACF_OBSOLETE_TRACK_JIT_INFO in
  let f2 :=
    if truthy (Z.land b2 2)
    then or_assign f1 DACF_IGNORE_PDBS
    else and_not_assign f1 DACF_IGNORE_PDBS in
  if (Z.land b2 1 =? 0) || (b3 =? 0)
  then or_assign f2 DACF_ALLOW_JIT_OPTS
  else and_not_assign f2 DACF_ALLOW_JIT_OPTS.

(** [DomainAssembly::GetDebuggingCustomAttributes]: the result code and the
    new value of [*pdwFlags]. *)
Definition GetDebuggingCustomAttributes (md : CustomAttribute) (dwFlags : DWORD)
  : HRESULT * DWORD :=
  let hr := ca_hr md in
  let blob := ca_blob md in
  let size := ca_size md in
  if negb (FAILED hr || (hr =? S_FALSE)) then
    if (size =? 6) || (size =? 8) then
      if negb ((at_index blob 0 =? 1) && (at_index blob 1 =? 0)) then
        (COR_E_BADIMAGEFORMAT, dwFlags)
      else
        (hr, decoded_flags (at_index blob 2) (at_index blob 3) dwFlags)
    else (hr, dwFlags)
  else (hr, dwFlags).

(** [IfFailThrow(hr)] followed by [k]. *)
Definition IfFailThrow {Exception A : Type} (hr : HRESULT)
           (k : Result Exception A) : Result Exception A :=
  if FAILED hr then Throws (HRException hr) else k.

(** [DomainAssembly::ComputeDebuggingConfig]. *)
Definition ComputeDebuggingConfig {Exception : Type} (md : CustomAttribute)
  : Result Exception DWORD :=
  if DEBUGGING_SUPPORTED then
    let dacfFlags := to_DWORD DACF_ALLOW_JIT_OPTS in
    let '(hr, dacfFlags) := GetDebuggingCustomAttributes md dacfFlags in
    IfFailThrow hr (Returns dacfFlags)
  else Returns 0.

End DebuggingConfig.

(** ** The load unit and its collaborators *)

(** [FileLoadLevel] is a C++ enumeration: the code compares levels with [<]
    and [>=] and computes [targetLevel-1], so a level is kept as its integer
    value. *)
Definition FileLoadLevel := Z.

(** Modelled from the spec: the enumeration is declared in domainassembly.h,
    outside domainassembly.cpp; section 4.1 lists its eight stages in strictly
    increasing order, and the file names the same eight. *)
Definition FILE_LOAD_CREATE : FileLoadLevel := 0.
Definition FILE_LOAD_BEGIN : FileLoadLevel := 1.
Definition FILE_LOAD_BEFORE_TYPE_LOAD : FileLoadLevel := 2.
Definition FILE_LOAD_EAGER_FIXUPS : FileLoadLevel := 3.
Definition FILE_LOAD_DELIVER_EVENTS : FileLoadLevel := 4.
Definition FILE_LOAD_VTABLE_FIXUPS : FileLoadLevel := 5.
Definition FILE_LOADED : FileLoadLevel := 6.
Definition FILE_ACTIVE : FileLoadLevel := 7.

(** The global method table of a module, when it has one. *)
Inductive MethodTable := GlobalMethodTable.

(** The decoded module, as far as domainassembly.cpp asks it questions. *)
Record Module := {
  Module_IsReadyToRun : bool;
  Module_GetGlobalMethodTable : option MethodTable
}.

Record Assembly := {
  Assembly_GetModule : Module
}.

(** The image handle, as far as domainassembly.cpp asks it questions. *)
Record PEAssembly := {
  PE_IsLoaded : bool;
  PE_IsSystem : bool;
  PE_HasHostAssembly : bool;
  PE_DebuggableAttribute : CustomAttribute
}.

(** Modelled from the spec: [m_notifyflags] and its accessors are declared in
    domainassembly.h; section 3 describes independent one-shot bits:
    profiler-notified, debugger-notified, should-notify-debugger. *)
Record NotificationStatus := {
  PROFILER_NOTIFIED : bool;
  DEBUGGER_NOTIFIED : bool;
  DEBUGGER_NEEDNOTIFICATION : bool
}.

Definition NOT_NOTIFIED : NotificationStatus :=
  {| PROFILER_NOTIFIED := false;
     DEBUGGER_NOTIFIED := false;
     DEBUGGER_NEEDNOTIFICATION := false |}.

(** Every call the unit makes on a collaborator. *)
Inductive Event :=
| PEAssembly_AddRef
| PEAssembly_ValidateForExecution
| Assembly_Create
| Assembly_SetDomainAssembly
| AppDomain_AddAssembly
| HostAssembly_SetDomainAssembly
| Module_NotifyEtwLoadFinished (hr : HRESULT)
| Module_NotifyProfilerLoadFinished (hr : HRESULT)
| Module_RunEagerFixups
| Module_FixupVTables
| DACNotify_DoModuleLoadNotification
| Module_IsRuntimeWrapExceptions
| MethodTable_CheckRestore
| MethodTable_CheckRunClassInitThrowing
| Module_ExpandAll
| ReadyToRunInfo_RegisterUnrelatedR2RModule
| MulticoreJitManager_RecordModuleLoad (level : FileLoadLevel)
| DebugInterface_LoadAssembly
| Module_NotifyDebuggerLoad (flags : Z) (attaching : bool).

Section LoadUnit.
Context {H : Headers} {B : Build}.

(** The exception objects of the runtime, with the two operations
    [SetError] applies to one. *)
Variable Exception : Type.
Variable GetHR : Exception -> HRESULT.
Variable DomainBoundClone : Exception -> Exception.

(** The fields of [DomainAssembly] that the file reads or writes. *)
Record DomainAssembly := {
  m_pAssembly : option Assembly;
  m_pPEAssembly : PEAssembly;
  m_pModule : option Module;
  m_fCollectible : bool;
  m_level : FileLoadLevel;
  m_loading : bool;
  m_pError : option Exception;
  m_bDisableActivationCheck : bool;
  m_fHostAssemblyPublished : bool;
  m_debuggerFlags : DWORD;
  m_notifyflags : NotificationStatus;
  m_fDebuggerUnloadStarted : bool
}.

(** The unit together with the globals the file consults and the calls
    made so far on collaborators, oldest first. *)
Record World := {
  this : DomainAssembly;
  g_pDebugInterface : bool;        (* the pointer is not NULL *)
  CORDebuggerAttached : bool;
  ExpandModulesOnLoad : bool;      (* g_pConfig->ExpandModulesOnLoad() *)
  calls : list Event
}.

(** How a collaborator answers a call: it returns (a [BOOL] where the
    callee has one) or it throws. *)
Inductive Answer :=
| Yields (b : bool)
| Raises (ex : Exception).

(** The collaborators: the answer to a call may depend on the calls made
    before it. *)
Variable ext : list Event -> Event -> Answer.

(** ** Field updates *)

Definition set_assembly (a : Assembly) (d : DomainAssembly) : DomainAssembly :=
  {| m_pAssembly := Some a;
     m_pPEAssembly := m_pPEAssembly d;
     m_pModule := Some (Assembly_GetModule a);
     m_fCollectible := m_fCollectible d;
     m_level := m_level d;
     m_loading := m_loading d;
     m_pError := m_pError d;
     m_bDisableActivationCheck := m_bDisableActivationCheck d;
     m_fHostAssemblyPublished := m_fHostAssemblyPublished d;
     m_debuggerFlags := m_debuggerFlags d;
     m_notifyflags := m_notifyflags d;
     m_fDebuggerUnloadStarted := m_fDebuggerUnloadStarted d |}.

Definition set_level (l : FileLoadLevel) (d : DomainAssembly) : DomainAssembly :=
  {| m_pAssembly := m_pAssembly d;
     m_pPEAssembly := m_pPEAssembly d;
     m_pModule := m_pModule d;
     m_fCollectible := m_fCollectible d;
     m_level := l;
     m_loading := m_loading d;
     m_pError := m_pError d;
     m_bDisableActivationCheck := m_bDisableActivationCheck d;
     m_fHostAssemblyPublished := m_fHostAssemblyPublished d;
     m_debuggerFlags := m_debuggerFlags d;
     m_notifyflags := m_notifyflags d;
     m_fDebuggerUnloadStarted := m_fDebuggerUnloadStarted d |}.

Definition set_error (e : Exception) (d : DomainAssembly) : DomainAssembly :=
  {| m_pAssembly := m_pAssembly d;
     m_pPEAssembly := m_pPEAssembly d;
     m_pModule := m_pModule d;
     m_fCollectible := m_fCollectible d;
     m_level := m_level d;
     m_loading := m_loading d;
     m_pError := Some e;
     m_bDisableActivationCheck := m_bDisableActivationCheck d;
     m_fHostAssemblyPublished := m_fHostAssemblyPublished d;
     m_debuggerFlags := m_debuggerFlags d;
     m_notifyflags := m_notifyflags d;
     m_fDebuggerUnloadStarted := m_fDebuggerUnloadStarted d |}.

Definition set_disable_activation_check (b : bool) (d : DomainAssembly)
  : DomainAssembly :=
  {| m_pAssembly := m_pAssembly d;
     m_pPEAssembly := m_pPEAssembly d;
     m_pModule := m_pModule d;
     m_fCollectible := m_fCollectible d;
     m_level := m_level d;
     m_loading := m_loading d;
     m_pError := m_pError d;
     m_bDisableActivationCheck := b;
     m_fHostAssemblyPublished := m_fHostAssemblyPublished d;
     m_debuggerFlags := m_debuggerFlags d;
     m_notifyflags := m_notifyflags d;
     m_fDebuggerUnloadStarted := m_fDebuggerUnloadStarted d |}.

Definition set_host_assembly_published (b : bool) (d : DomainAssembly)
  : DomainAssembly :=
  {| m_pAssembly := m_pAssembly d;
     m_pPEAssembly := m_pPEAssembly d;
     m_pModule := m_pModule d;
     m_fCollectible := m_fCollectible d;
     m_level := m_level d;
     m_loading := m_loading d;
     m_pError := m_pError d;
     m_bDisableActivationCheck := m_bDisableActivationCheck d;
     m_fHostAssemblyPublished := b;
     m_debuggerFlags := m_debuggerFlags d;
     m_notifyflags := m_notifyflags d;
     m_fDebuggerUnloadStarted := m_fDebuggerUnloadStarted d |}.

Definition set_debugger_flags (f : DWORD) (d : DomainAssembly) : DomainAssembly :=
  {| m_pAssembly := m_pAssembly d;
     m_pPEAssembly := m_pPEAssembly d;
     m_pModule := m_pModule d;
     m_fCollectible := m_fCollectible d;
     m_level := m_level d;
     m_loading := m_loading d;
     m_pError := m_pError d;
     m_bDisableActivationCheck := m_bDisableActivationCheck d;
     m_fHostAssemblyPublished := m_fHostAssemblyPublished d;
     m_debuggerFlags := f;
     m_notifyflags := m_notifyflags d;
     m_fDebuggerUnloadStarted := m_fDebuggerUnloadStarted d |}.

Definition set_notifyflags (n : NotificationStatus) (d : DomainAssembly)
  : DomainAssembly :=
  {| m_pAssembly := m_pAssembly d;
     m_pPEAssembly := m_pPEAssembly d;
     m_pModule := m_pModule d;
     m_fCollectible := m_fCollectible d;
     m_level := m_level d;
     m_loading := m_loading d;
     m_pError := m_pError d;
     m_bDisableActivationCheck := m_bDisableActivationCheck d;
     m_fHostAssemblyPublished := m_fHostAssemblyPublished d;
     m_debuggerFlags := m_debuggerFlags d;
     m_notifyflags := n;
     m_fDebuggerUnloadStarted := m_fDebuggerUnloadStarted d |}.

Definition with_this (d : DomainAssembly) (w : World) : World :=
  {| this := d;
     g_pDebugInterface := g_pDebugInterface w;
     CORDebuggerAttached := CORDebuggerAttached w;
     ExpandModulesOnLoad := ExpandModulesOnLoad w;
     calls := calls w |}.

Definition record (e : Event) (w : World) : World :=
  {| this := this w;
     g_pDebugInterface := g_pDebugInterface w;
     CORDebuggerAttached := CORDebuggerAttached w;
     ExpandModulesOnLoad := ExpandModulesOnLoad w;
     calls := calls w ++ [e] |}.

(** ** Running the code: state, exceptions, calls *)

Definition M (A : Type) : Type := World -> World * Result Exception A.

Definition ret {A : Type} (a : A) : M A := fun w => (w, Returns a).

Definition bind {A C : Type} (m : M A) (k : A -> M C) : M C :=
  fun w =>
    match m w with
    | (w', Returns a) => k a w'
    | (w', Throws t) => (w', Throws t)
    | (w', Fault) => (w', Fault)
    end.

Notation "x <- m ;; k" := (bind m (fun x => k))
  (at level 61, m at next level, right associativity).
Notation "m ;; k" := (bind m (fun _ => k))
  (at level 61, right associativity).

Definition throw {A : Type} (t : Thrown Exception) : M A :=
  fun w => (w, Throws t).

Definition fault {A : Type} : M A := fun w => (w, Fault).

Definition get : M DomainAssembly := fun w => (w, Returns (this w)).

Definition globals : M World := fun w => (w, Returns w).

Definition modify (f : DomainAssembly -> DomainAssembly) : M unit :=
  fun w => (with_this (f (this w)) w, Returns tt).

(** A call on a collaborator that may throw. *)
Definition call (e : Event) : M bool :=
  fun w =>
    match ext (calls w) e with
    | Yields b => (record e w, Returns b)
    | Raises ex => (record e w, Throws (Rethrown ex))
    end.

Definition call_void (e : Event) : M unit := _ <- call e ;; ret tt.

(** A call inside a function whose contract is [NOTHROW]. *)
Definition call_nothrow (e : Event) : M unit :=
  fun w => (record e w, Returns tt).

(** [GetModule()->...] and [m_pModule->...]: the pointer is dereferenced. *)
Definition GetModule {A : Type} (k : Module -> M A) : M A :=
  fun w =>
    match m_pModule (this w) with
    | Some m => k m w
    | None => (w, Fault)
    end.

(** ** Accessors declared in domainassembly.h *)

(** Modelled from the spec: the accessors below are inline members of the
    class declaration in domainassembly.h, outside domainassembly.cpp.
    Section 3 gives the fields they read: [level], [loading], the optional
    captured [error] and the one-shot notification bits; [SetError]'s
    postcondition [IsError()] after it stores [m_pError] agrees. *)
Definition GetLoadLevel (d : DomainAssembly) : FileLoadLevel := m_level d.
Definition IsLoading (d : DomainAssembly) : bool := m_loading d.
Definition IsError (d : DomainAssembly) : bool :=
  match m_pError d with Some _ => true | None => false end.

(** Modelled from the spec: [IsActive()] is declared in domainassembly.h;
    section 4.1 makes ACTIVE the stage of the execution-verified
    guarantee. *)
Definition IsActive (d : DomainAssembly) : bool := FILE_ACTIVE <=? m_level d.

(** [IsLoaded()] is declared in domainassembly.h and the specification does
    not say from which level on it answers true: it is a parameter. *)
Variable IsLoaded : DomainAssembly -> bool.

(** Modelled from the spec: the accessors of the one-shot bits, declared in
    domainassembly.h (section 3, notification flags). *)
Definition IsProfilerNotified (d : DomainAssembly) : bool :=
  PROFILER_NOTIFIED (m_notifyflags d).
Definition IsDebuggerNotified (d : DomainAssembly) : bool :=
  DEBUGGER_NOTIFIED (m_notifyflags d).
Definition ShouldNotifyDebugger (d : DomainAssembly) : bool :=
  DEBUGGER_NEEDNOTIFICATION (m_notifyflags d).

Definition SetProfilerNotified : M unit :=
  modify (fun d =>
    set_notifyflags
      {| PROFILER_NOTIFIED := true;
         DEBUGGER_NOTIFIED := DEBUGGER_NOTIFIED (m_notifyflags d);
         DEBUGGER_NEEDNOTIFICATION := DEBUGGER_NEEDNOTIFICATION (m_notifyflags d) |}
      d).

Definition SetDebuggerNotified : M unit :=
  modify (fun d =>
    set_notifyflags
      {| PROFILER_NOTIFIED := PROFILER_NOTIFIED (m_notifyflags d);
         DEBUGGER_NOTIFIED := true;
         DEBUGGER_NEEDNOTIFICATION := DEBUGGER_NEEDNOTIFICATION (m_notifyflags d) |}
      d).

(** Modelled from the spec: [SetShouldNotifyDebugger()] is declared in
    domainassembly.h; section 4.3: at DELIVER_EVENTS, if a debugger is
    present, the unit is marked should-notify. *)
Definition SetShouldNotifyDebugger : M unit :=
  w <- globals ;;
  if CORDebuggerAttached w then
    modify (fun d =>
      set_notifyflags
        {| PROFILER_NOTIFIED := PROFILER_NOTIFIED (m_notifyflags d);
           DEBUGGER_NOTIFIED := DEBUGGER_NOTIFIED (m_notifyflags d);
           DEBUGGER_NEEDNOTIFICATION := true |}
        d)
  else ret tt.

(** Modelled from the spec: [ExInfo::Throw()] is defined outside
    domainassembly.cpp; section 7
    has the captured failure re-raised verbatim, as the same clone. *)
Definition ExInfo_Throw {A : Type} (pError : Exception) : M A :=
  throw (Rethrown pError).

(** [SetDebuggerInfoBits], declared in domainassembly.h next to the field
    it stores into. *)
Definition SetDebuggerInfoBits (f : DWORD) : M unit :=
  modify (set_debugger_flags f).

(** ** The functions of domainassembly.cpp *)

(** The member initialisers of the constructor. *)
Definition DomainAssembly_initializers (pPEAssembly : PEAssembly)
           (IsCollectible : bool) : DomainAssembly :=
  {| m_pAssembly := None;
     m_pPEAssembly := pPEAssembly;
     m_pModule := None;
     m_fCollectible := IsCollectible;
     m_level := FILE_LOAD_CREATE;
     m_loading := true;
     m_pError := None;
     m_bDisableActivationCheck := false;
     m_fHostAssemblyPublished := false;
     m_debuggerFlags := DACF_NONE;
     m_notifyflags := NOT_NOTIFIED;
     m_fDebuggerUnloadStarted := false |}.

(** [DomainAssembly::SetupDebuggingConfig]. *)
Definition SetupDebuggingConfig : M unit :=
  if DEBUGGING_SUPPORTED then
    d <- get ;;
    match ComputeDebuggingConfig (PE_DebuggableAttribute (m_pPEAssembly d)) with
    | Returns dacfFlags => SetDebuggerInfoBits dacfFlags
    | Throws t => throw t
    | Fault => fault
    end
  else ret tt.

(** The body of the constructor; [assembly] is what [Assembly::Create]
    returns when it returns. *)
Definition DomainAssembly_constructor (assembly : Assembly) : M unit :=
  call_nothrow PEAssembly_AddRef ;;
  call_void PEAssembly_ValidateForExecution ;;
  SetupDebuggingConfig ;;
  call_void Assembly_Create ;;
  modify (set_assembly assembly) ;;
  call_void Assembly_SetDomainAssembly.

(** [DomainAssembly::ThrowIfError]. *)
Definition ThrowIfError (targetLevel : FileLoadLevel) : M unit :=
  d <- get ;;
  if m_level d <? targetLevel then
    match m_pError d with
    | Some pError => ExInfo_Throw pError
    | None => ret tt
    end
  else ret tt.

(** [DomainAssembly::RequireLoadLevel]. *)
Definition RequireLoadLevel (targetLevel : FileLoadLevel) : M unit :=
  d <- get ;;
  if GetLoadLevel d <? targetLevel then
    ThrowIfError targetLevel ;;
    throw (HRException MSEE_E_ASSEMBLYLOADINPROGRESS)
  else ret tt.

(** [AppDomain::LoadDomainAssembly(this, targetLevel)]: the Domain Loader,
    defined outside domainassembly.cpp, drives the unit. *)
Variable LoadDomainAssembly : FileLoadLevel -> M unit.

(** [DomainAssembly::EnsureLoadLevel]. *)
Definition EnsureLoadLevel (targetLevel : FileLoadLevel) : M unit :=
  d <- get ;;
  if IsLoading d then
    LoadDomainAssembly targetLevel ;;
    RequireLoadLevel (targetLevel - 1)
  else ThrowIfError targetLevel.

(** [AppDomain::CheckLoading(this, requiredLevel)], the Domain Loader's
    deadlock-aware check. *)
Variable CheckLoading : DomainAssembly -> FileLoadLevel -> bool.

(** [DomainAssembly::CheckLoadLevel]; a [CHECK] function is modelled by
    whether it passes. *)
Definition CheckLoadLevel (requiredLevel : FileLoadLevel) (deadlockOK : bool)
           (d : DomainAssembly) : bool :=
  if deadlockOK then CheckLoading d requiredLevel
  else requiredLevel <=? m_level d.

(** [DomainAssembly::CheckNoError]. *)
Definition CheckNoError (targetLevel : FileLoadLevel) (d : DomainAssembly) : bool :=
  (targetLevel <=? m_level d) || negb (IsError d).

(** [DomainAssembly::CheckLoaded]. *)
Definition CheckLoaded (d : DomainAssembly) : bool :=
  if negb (CheckNoError FILE_LOADED d) then false
  else if IsLoaded d then true
  else if PE_IsSystem (m_pPEAssembly d) then true
  else if negb (PE_IsLoaded (m_pPEAssembly d)) then false
  else true.

(** [DomainAssembly::CheckActivated]. *)
Definition CheckActivated (d : DomainAssembly) : bool :=
  if negb (CheckNoError FILE_ACTIVE d) then false
  else if IsActive d then true
  else if PE_IsSystem (m_pPEAssembly d) then true
  else if negb (PE_IsLoaded (m_pPEAssembly d)) then false
  else if negb (IsLoaded d) then false
  else if negb (m_bDisableActivationCheck d
                || CheckLoadLevel FILE_ACTIVE deadlockOK_default d) then false
  else true.

(** [DomainAssembly::IsVisibleToDebugger]. *)
Definition IsVisibleToDebugger (d : DomainAssembly) : bool :=
  match m_pAssembly d with Some _ => true | None => false end.

(** [DomainAssembly::SetError]; its contract asks for [!IsError()]. *)
Definition SetError_precondition (d : DomainAssembly) : bool := negb (IsError d).

Definition SetError (ex : Exception) : M unit :=
  modify (set_error (DomainBoundClone ex)) ;;
  d <- get ;;
  match m_pModule d with
  | Some _ =>
      call_void (Module_NotifyEtwLoadFinished (GetHR ex)) ;;
      d <- get ;;
      if negb (IsProfilerNotified d) then
        SetProfilerNotified ;;
        if PROFILING_SUPPORTED
        then call_void (Module_NotifyProfilerLoadFinished (GetHR ex))
        else ret tt
      else ret tt
  | None => ret tt
  end.

(** [DomainAssembly::RegisterWithHostAssembly], a [NOTHROW] function. *)
Definition RegisterWithHostAssembly : M unit :=
  d <- get ;;
  if PE_HasHostAssembly (m_pPEAssembly d)
  then call_nothrow HostAssembly_SetDomainAssembly
  else ret tt.

(** [DomainAssembly::Begin]; the load lock is held around [AddAssembly]. *)
Definition Begin : M unit :=
  call_void AppDomain_AddAssembly ;;
  RegisterWithHostAssembly ;;
  modify (set_host_assembly_published true).

(** [DomainAssembly::BeforeTypeLoad]; its contract asks for
    [GetPEAssembly()->IsLoaded()]. *)
Definition BeforeTypeLoad_precondition (d : DomainAssembly) : bool :=
  PE_IsLoaded (m_pPEAssembly d).

Definition BeforeTypeLoad : M unit :=
  if PROFILING_SUPPORTED then
    d <- get ;;
    if negb (IsProfilerNotified d) then
      SetProfilerNotified ;;
      GetModule (fun _ => call_void (Module_NotifyProfilerLoadFinished S_OK))
    else ret tt
  else ret tt.

(** [DomainAssembly::EagerFixups]. *)
Definition EagerFixups : M unit :=
  if FEATURE_READYTORUN then
    GetModule (fun m =>
      if Module_IsReadyToRun m
      then call_void Module_RunEagerFixups
      else ret tt)
  else ret tt.

(** [DomainAssembly::VtableFixups]. *)
Definition VtableFixups : M unit :=
  GetModule (fun _ => call_void Module_FixupVTables).

(** [DomainAssembly::FinishLoad]. *)
Definition FinishLoad : M unit :=
  modify (set_level FILE_LOADED) ;;
  call_void DACNotify_DoModuleLoadNotification.

(** [DomainAssembly::Activate]; its contract asks for [IsLoaded()]. *)
Definition Activate_precondition (d : DomainAssembly) : bool := IsLoaded d.

Definition Activate : M unit :=
  GetModule (fun _ => call_void Module_IsRuntimeWrapExceptions) ;;
  pMT <- GetModule (fun m => ret (Module_GetGlobalMethodTable m)) ;;
  match pMT with
  | Some _ =>
      call_void MethodTable_CheckRestore ;;
      modify (set_disable_activation_check true) ;;
      call_void MethodTable_CheckRunClassInitThrowing
  | None => ret tt
  end ;;
  (if _DEBUG then
     w <- globals ;;
     if ExpandModulesOnLoad w
     then GetModule (fun _ => call_void Module_ExpandAll)
     else ret tt
   else ret tt) ;;
  (if FEATURE_READYTORUN then
     GetModule (fun m =>
       if Module_IsReadyToRun m
       then call_void ReadyToRunInfo_RegisterUnrelatedR2RModule
       else ret tt)
   else ret tt).

(** [DomainAssembly::NotifyDebuggerLoad]. *)
Definition NotifyDebuggerLoad (flags : Z) (attaching : bool) : M bool :=
  d <- get ;;
  if negb (IsVisibleToDebugger d) then ret false else
  w <- globals ;;
  if negb (g_pDebugInterface w) then ret false else
  result <-
    (if truthy (Z.land flags ATTACH_ASSEMBLY_LOAD) then
       d <- get ;;
       (if ShouldNotifyDebugger d
        then call_void DebugInterface_LoadAssembly
        else ret tt) ;;
       ret true
     else ret false) ;;
  result <-
    (d <- get ;;
     if ShouldNotifyDebugger d then
       if result then ret true
       else GetModule (fun _ => call (Module_NotifyDebuggerLoad flags attaching))
     else ret result) ;;
  d <- get ;;
  if ShouldNotifyDebugger d then
    r <- GetModule (fun _ =>
           call (Module_NotifyDebuggerLoad ATTACH_MODULE_LOAD attaching)) ;;
    SetDebuggerNotified ;;
    ret (result || r)
  else ret result.

(** [DomainAssembly::DeliverSyncEvents]; the debugger part runs in
    cooperative mode ([GCX_COOP]), which changes no field. *)
Definition DeliverSyncEvents : M unit :=
  GetModule (fun _ => call_void (Module_NotifyEtwLoadFinished S_OK)) ;;
  (if PROFILING_SUPPORTED then
     d <- get ;;
     if negb (IsProfilerNotified d) then
       SetProfilerNotified ;;
       GetModule (fun _ => call_void (Module_NotifyProfilerLoadFinished S_OK))
     else ret tt
   else ret tt) ;;
  (if DEBUGGING_SUPPORTED then
     d <- get ;;
     if negb (IsDebuggerNotified d) then
       SetShouldNotifyDebugger ;;
       _ <- NotifyDebuggerLoad ATTACH_ASSEMBLY_LOAD false ;;
       ret tt
     else ret tt
   else ret tt).

(** The [switch] of [DoIncrementalLoad]. *)
Definition dispatch (level : FileLoadLevel) : M unit :=
  if level =? FILE_LOAD_BEGIN then Begin
  else if level =? FILE_LOAD_BEFORE_TYPE_LOAD then BeforeTypeLoad
  else if level =? FILE_LOAD_EAGER_FIXUPS then EagerFixups
  else if level =? FILE_LOAD_DELIVER_EVENTS then DeliverSyncEvents
  else if level =? FILE_LOAD_VTABLE_FIXUPS then VtableFixups
  else if level =? FILE_LOADED then FinishLoad
  else if level =? FILE_ACTIVE then Activate
  else fault.                                        (* UNREACHABLE() *)

(** [DomainAssembly::DoIncrementalLoad]. *)
Definition DoIncrementalLoad (level : FileLoadLevel) : M bool :=
  d <- get ;;
  if IsError d then ret false else
  dispatch level ;;
  (if FEATURE_MULTICOREJIT then
     d <- get ;;
     match m_pModule d with
     | Some _ => call_void (MulticoreJitManager_RecordModuleLoad level)
     | None => ret tt
     end
   else ret tt) ;;
  ret true.

(** ** Sequences of calls on a unit *)

(** The two entry points through which the Domain Loader makes a unit
    progress or fail. *)
Inductive Call :=
| Call_DoIncrementalLoad (level : FileLoadLevel)
| Call_SetError (ex : Exception).

(** The world after one call, whatever it returned or threw. *)
Definition step (c : Call) (w : World) : World :=
  match c with
  | Call_DoIncrementalLoad level => fst (DoIncrementalLoad level w)
  | Call_SetError ex => fst (SetError ex w)
  end.

Fixpoint run (cs : list Call) (w : World) : World :=
  match cs with
  | [] => w
  | c :: cs' => run cs' (step c w)
  end.

(** Every [SetError] of the sequence is made with its precondition. *)
Fixpoint respects_contract (cs : list Call) (w : World) : bool :=
  match cs with
  | [] => true
  | c :: cs' =>
      match c with
      | Call_SetError _ => SetError_precondition (this w)
      | Call_DoIncrementalLoad _ => true
      end && respects_contract cs' (step c w)
  end.

(** The result codes passed to the tracing sink, and to the profiler sink,
    in the order of the calls. *)
Fixpoint etw_notifications (es : list Event) : list HRESULT :=
  match es with
  | [] => []
  | Module_NotifyEtwLoadFinished hr :: es' => hr :: etw_notifications es'
  | _ :: es' => etw_notifications es'
  end.

Fixpoint profiler_notifications (es : list Event) : list HRESULT :=
  match es with
  | [] => []
  | Module_NotifyProfilerLoadFinished hr :: es' => hr :: profiler_notifications es'
  | _ :: es' => profiler_notifications es'
  end.

End LoadUnit.

Arguments DomainAssembly_initializers {H} Exception pPEAssembly IsCollectible.
Arguments this {Exception} w.
Arguments calls {Exception} w.
Arguments g_pDebugInterface {Exception} w.
Arguments CORDebuggerAttached {Exception} w.
Arguments ExpandModulesOnLoad {Exception} w.
Arguments m_level {Exception} d.
Arguments m_loading {Exception} d.
Arguments m_pError {Exception} d.
Arguments m_pModule {Exception} d.
Arguments m_pAssembly {Exception} d.
Arguments m_pPEAssembly {Exception} d.
Arguments m_notifyflags {Exception} d.
Arguments m_bDisableActivationCheck {Exception} d.
Arguments m_debuggerFlags {Exception} d.
Arguments Yields {Exception} b.
Arguments Raises {Exception} ex.
Arguments Call_DoIncrementalLoad {Exception} level.
Arguments Call_SetError {Exception} ex.
Arguments IsError {Exception} d.
Arguments IsLoading {Exception} d.
Arguments IsActive {Exception} d.
Arguments GetLoadLevel {Exception} d.
Arguments IsProfilerNotified {Exception} d.
Arguments IsDebuggerNotified {Exception} d.
Arguments ShouldNotifyDebugger {Exception} d.
Arguments SetError_precondition {Exception} d.
Arguments CheckNoError {Exception} targetLevel d.
Arguments CheckLoadLevel {Exception} CheckLoading requiredLevel deadlockOK d.
Arguments CheckLoaded {Exception} IsLoaded d.
Arguments CheckActivated {H Exception} IsLoaded CheckLoading d.
Arguments ThrowIfError {Exception} targetLevel w.
Arguments RequireLoadLevel {H Exception} targetLevel w.
Arguments EnsureLoadLevel {H Exception} LoadDomainAssembly targetLevel w.
Arguments SetError {B Exception} GetHR DomainBoundClone ext ex w.
Arguments DoIncrementalLoad {H B Exception} ext level w.
Arguments dispatch {H B Exception} ext level w.
Arguments Begin {Exception} ext w.
Arguments BeforeTypeLoad {H B Exception} ext w.
Arguments EagerFixups {B Exception} ext w.
Arguments DeliverSyncEvents {H B Exception} ext w.
Arguments VtableFixups {Exception} ext w.
Arguments FinishLoad {Exception} ext w.
Arguments Activate {B Exception} ext w.
Arguments NotifyDebuggerLoad {H Exception} ext flags attaching w.
Arguments DomainAssembly_constructor {H B Exception} ext assembly w.
Arguments step {H B Exception} GetHR DomainBoundClone ext c w.
Arguments run {H B Exception} GetHR DomainBoundClone ext cs w.
Arguments respects_contract {H B Exception} GetHR DomainBoundClone ext cs w.

(** The calls of a sequence that reach [DeliverSyncEvents] before the first
    [SetError], and the exception of that first [SetError]. *)
Fixpoint deliveries {Exception : Type} (cs : list (Call Exception)) : nat :=
  match cs with
  | [] => 0%nat
  | Call_SetError _ :: _ => 0%nat
  | Call_DoIncrementalLoad level :: cs' =>
      ((if Z.eqb level FILE_LOAD_DELIVER_EVENTS then 1 else 0) + deliveries cs')%nat
  end.

Fixpoint first_error {Exception : Type} (cs : list (Call Exception))
  : option Exception :=
  match cs with
  | [] => None
  | Call_SetError ex :: _ => Some ex
  | Call_DoIncrementalLoad _ :: cs' => first_error cs'
  end.

(** The debugger-control masks are distinct bits of a [DWORD]. *)
Definition dacf_masks_disjoint (H : Headers) : Prop :=
  (0 <= DACF_ALLOW_JIT_OPTS < 2 ^ 32 /\
   0 <= DACF_OBSOLETE_TRACK_JIT_INFO < 2 ^ 32 /\
   0 <= DACF_IGNORE_PDBS < 2 ^ 32) /\
  Z.land DACF_ALLOW_JIT_OPTS DACF_OBSOLETE_TRACK_JIT_INFO = 0 /\
  Z.land DACF_ALLOW_JIT_OPTS DACF_IGNORE_PDBS = 0 /\
  Z.land DACF_OBSOLETE_TRACK_JIT_INFO DACF_IGNORE_PDBS = 0.

(** The lookup found the attribute: neither a failure nor [S_FALSE]. *)
Definition attribute_found {H : Headers} (hr : HRESULT) : Prop :=
  FAILED hr = false /\ hr <> S_FALSE.

(** ** Notions used to state and prove the properties *)

(** A call is silent when it is made on neither the tracing nor the profiler
    sink. *)
Definition silent (e : Event) : bool :=
  match e with
  | Module_NotifyEtwLoadFinished _ => false
  | Module_NotifyProfilerLoadFinished _ => false
  | _ => true
  end.

Section Notions.
Context {H : Headers} {B : Build} {Exception : Type}.
Variable GetHR : Exception -> HRESULT.
Variable ext : list Event -> Event -> Answer Exception.

(** [w'] differs from [w] in nothing the two sinks, the profiler flag, the
    captured error or the module pointer can tell. *)
Definition sinks_untouched (w w' : World Exception) : Prop :=
  etw_notifications (calls w') = etw_notifications (calls w) /\
  profiler_notifications (calls w') = profiler_notifications (calls w) /\
  IsProfilerNotified (this w') = IsProfilerNotified (this w) /\
  m_pError (this w') = m_pError (this w) /\
  m_pModule (this w') = m_pModule (this w).

Definition quiet {A : Type} (m : M Exception A) : Prop :=
  forall w, sinks_untouched w (fst (m w)).

(** An update of the unit that keeps the profiler flag, the error and the
    module pointer. *)
Definition harmless (f : DomainAssembly Exception -> DomainAssembly Exception)
  : Prop :=
  forall d,
    IsProfilerNotified (f d) = IsProfilerNotified d /\
    m_pError (f d) = m_pError d /\
    m_pModule (f d) = m_pModule d.

(** What one call can do to the profiler flag and the profiler sink:
    nothing; set the flag and notify once; or set the flag without
    notifying, which takes a build without profiling or a null module. *)
Definition profiler_effect (w w' : World Exception) : Prop :=
  (IsProfilerNotified (this w') = IsProfilerNotified (this w) /\
   profiler_notifications (calls w') = profiler_notifications (calls w)) \/
  (IsProfilerNotified (this w) = false /\
   IsProfilerNotified (this w') = true /\
   ((exists hr, profiler_notifications (calls w')
                = profiler_notifications (calls w) ++ [hr]) \/
    (profiler_notifications (calls w') = profiler_notifications (calls w) /\
     (PROFILING_SUPPORTED = false \/ m_pModule (this w) = None)))).

(** [w'] is [w] after tracing notifications [sent], with the profiler
    treated as above and the module pointer kept. *)
Definition effect (sent : list HRESULT) (w w' : World Exception) : Prop :=
  etw_notifications (calls w') = etw_notifications (calls w) ++ sent /\
  m_pModule (this w') = m_pModule (this w) /\
  profiler_effect w w'.

(** [effect], together with the captured error being kept. *)
Definition effect_keep (sent : list HRESULT) (w w' : World Exception) : Prop :=
  effect sent w w' /\ m_pError (this w') = m_pError (this w).

(** The world once [SetProfilerNotified()] has run. *)
Definition profiler_marked (w : World Exception) : World Exception :=
  fst (SetProfilerNotified Exception w).

(** The tracing notification a function sends on a unit with this module
    pointer. *)
Definition sent_if_module (w : World Exception) (hr : HRESULT) : list HRESULT :=
  match m_pModule (this w) with Some _ => [hr] | None => [] end.

(** The call on the tracing sink, made in world [w], returns. *)
Definition tracing_call_returns (w : World Exception) (hr : HRESULT) : bool :=
  match ext (calls w) (Module_NotifyEtwLoadFinished hr) with
  | Yields _ => true
  | Raises _ => false
  end.

(** Call [c], made in world [w], gets as far as one of the three places
    that test the profiler flag, on a unit whose module is present: the
    BEFORE_TYPE_LOAD step, the DELIVER_EVENTS step once its tracing call has
    returned, or [SetError] once its tracing call has returned. *)
Definition reaches_profiler_site (c : Call Exception) (w : World Exception) : bool :=
  match m_pModule (this w) with
  | None => false
  | Some _ =>
      match c with
      | Call_DoIncrementalLoad level =>
          negb (IsError (this w)) &&
          ((level =? FILE_LOAD_BEFORE_TYPE_LOAD) ||
           ((level =? FILE_LOAD_DELIVER_EVENTS) && tracing_call_returns w S_OK))
      | Call_SetError ex => tracing_call_returns w (GetHR ex)
      end
  end.

(** The profiler sink has been notified at most once, and only if the flag
    is set. *)
Definition at_most_flag (w : World Exception) : Prop :=
  (length (profiler_notifications (calls w))
   <= if IsProfilerNotified (this w) then 1 else 0)%nat.

(** In a build with profiling, on a unit with a module, the sink has been
    notified exactly when the flag is set. *)
Definition exactly_flag (w : World Exception) : Prop :=
  length (profiler_notifications (calls w))
  = if IsProfilerNotified (this w) then 1%nat else 0%nat.

(** Running [m] in a world where [P] holds leaves a world where [Q] holds,
    whether [m] returns or throws. *)
Definition establishes {A : Type} (P Q : World Exception -> Prop)
           (m : M Exception A) : Prop :=
  forall w, P w -> Q (fst (m w)).

(** The global initializer has not been called yet; the activation check
    is disabled. *)
Definition initializer_not_run (w : World Exception) : Prop :=
  ~ In MethodTable_CheckRunClassInitThrowing (calls w).

Definition activation_check_disabled (w : World Exception) : Prop :=
  m_bDisableActivationCheck (this w) = true.

(** Either the initializer has not been called, or the check is disabled. *)
Definition guarded (w : World Exception) : Prop :=
  initializer_not_run w \/ activation_check_disabled w.

(** Nothing has been sent to either sink, the profiler flag is unset and no
    error is captured. *)
Definition fresh (w : World Exception) : Prop :=
  IsProfilerNotified (this w) = false /\
  profiler_notifications (calls w) = [] /\
  etw_notifications (calls w) = [] /\
  m_pError (this w) = None.

End Notions.

Arguments sinks_untouched {Exception} w w'.
Arguments harmless {Exception} f.
Arguments profiler_marked {Exception} w.
Arguments sent_if_module {Exception} w hr.
Arguments at_most_flag {Exception} w.
Arguments exactly_flag {Exception} w.
Arguments initializer_not_run {Exception} w.
Arguments activation_check_disabled {Exception} w.
Arguments guarded {Exception} w.
Arguments fresh {Exception} w.

(** ** A concrete configuration

    The values these names have in the runtime's headers, a build with every
    feature compiled in, exceptions reduced to their result code, and
    collaborators that always return. *)
Definition clr_headers : Headers :=
  {| S_OK := 0;
     S_FALSE := 1;
     FAILED := fun hr => hr <? 0;
     COR_E_BADIMAGEFORMAT := -2147024885;            (* 0x8007000B *)
     MSEE_E_ASSEMBLYLOADINPROGRESS := -2146234346;   (* 0x80131016 *)
     DACF_NONE := 0;
     DACF_ALLOW_JIT_OPTS := 2;
     DACF_OBSOLETE_TRACK_JIT_INFO := 4;
     DACF_IGNORE_PDBS := 32;
     ATTACH_ASSEMBLY_LOAD := 1;
     ATTACH_MODULE_LOAD := 2;
     deadlockOK_default := true |}.

Definition full_build : Build :=
  {| PROFILING_SUPPORTED := true;
     DEBUGGING_SUPPORTED := true;
     FEATURE_READYTORUN := true;
     FEATURE_MULTICOREJIT := true;
     _DEBUG := false |}.

Definition E_FAIL : HRESULT := -2147467259.           (* 0x80004005 *)

Definition hr_GetHR (ex : HRESULT) : HRESULT := ex.
Definition hr_DomainBoundClone (ex : HRESULT) : HRESULT := ex.

Definition obliging : list Event -> Event -> Answer HRESULT :=
  fun _ _ => Yields true.

Definition no_attribute : CustomAttribute :=
  {| ca_hr := 1; ca_blob := []; ca_size := 0 |}.

Definition an_image : PEAssembly :=
  {| PE_IsLoaded := true;
     PE_IsSystem := false;
     PE_HasHostAssembly := true;
     PE_DebuggableAttribute := no_attribute |}.

Definition an_assembly : Assembly :=
  {| Assembly_GetModule :=
       {| Module_IsReadyToRun := false;
          Module_GetGlobalMethodTable := Some GlobalMethodTable |} |}.

(** The world in which a unit is being constructed, and the unit once its
    constructor has returned. *)
Definition before_construction : World HRESULT :=
  {| this := @DomainAssembly_initializers clr_headers HRESULT an_image false;
     g_pDebugInterface := true;
     CORDebuggerAttached := false;
     ExpandModulesOnLoad := false;
     calls := [] |}.

Definition a_unit : World HRESULT :=
  Eval cbv in
    fst (@DomainAssembly_constructor clr_headers full_build HRESULT obliging
           an_assembly before_construction).

(** Collaborators among which patching the virtual tables throws. *)
Definition fixups_throw : list Event -> Event -> Answer HRESULT :=
  fun _ e =>
    match e with
    | Module_FixupVTables => Raises E_FAIL
    | _ => Yields true
    end.

(** Collaborators among which the debugger throws when it is told of an
    assembly, and a unit constructed while a debugger is attached. *)
Definition debugger_throws : list Event -> Event -> Answer HRESULT :=
  fun _ e =>
    match e with
    | DebugInterface_LoadAssembly => Raises E_FAIL
    | _ => Yields true
    end.

Definition a_debugged_unit : World HRESULT :=
  {| this := this a_unit;
     g_pDebugInterface := true;
     CORDebuggerAttached := true;
     ExpandModulesOnLoad := false;
     calls := calls a_unit |}.

(** The stages in the order the Domain Loader asks for them. *)
Definition every_stage : list (Call HRESULT) :=
  [Call_DoIncrementalLoad FILE_LOAD_BEGIN;
   Call_DoIncrementalLoad FILE_LOAD_BEFORE_TYPE_LOAD;
   Call_DoIncrementalLoad FILE_LOAD_EAGER_FIXUPS;
   Call_DoIncrementalLoad FILE_LOAD_DELIVER_EVENTS;
   Call_DoIncrementalLoad FILE_LOAD_VTABLE_FIXUPS;
   Call_DoIncrementalLoad FILE_LOADED;
   Call_DoIncrementalLoad FILE_ACTIVE].

(** The unit after every stage has run. *)
Definition an_activated_unit : World HRESULT :=
  Eval cbv in
    @run clr_headers full_build HRESULT hr_GetHR hr_DomainBoundClone obliging
         every_stage a_unit.

(** The unit after a failure has been captured, and the same once the Domain
    Loader has marked it as no longer loading. *)
Definition a_failed_unit : World HRESULT :=
  Eval cbv in
    fst (@SetError full_build HRESULT hr_GetHR hr_DomainBoundClone obliging
           E_FAIL a_unit).

Definition a_frozen_unit : World HRESULT :=
  {| this :=
       {| m_pAssembly := m_pAssembly (this a_failed_unit);
          m_pPEAssembly := m_pPEAssembly (this a_failed_unit);
          m_pModule := m_pModule (this a_failed_unit);
          m_fCollectible := false;
          m_level := m_level (this a_failed_unit);
          m_loading := false;
          m_pError := m_pError (this a_failed_unit);
          m_bDisableActivationCheck := false;
          m_fHostAssemblyPublished := false;
          m_debuggerFlags := m_debuggerFlags (this a_failed_unit);
          m_notifyflags := m_notifyflags (this a_failed_unit);
          m_fDebuggerUnloadStarted := false |};
     g_pDebugInterface := true;
     CORDebuggerAttached := false;
     ExpandModulesOnLoad := false;
     calls := calls a_failed_unit |}.

(** A Domain Loader that does nothing, a reading of [IsLoaded()], and a
    deadlock-aware check that never passes. *)
Definition idle_loader : FileLoadLevel -> M HRESULT unit :=
  fun _ => ret HRESULT tt.

Definition loaded_from_LOADED (d : DomainAssembly HRESULT) : bool :=
  FILE_LOADED <=? m_level d.

Definition never_passes (d : DomainAssembly HRESULT) (l : FileLoadLevel) : bool :=
  false.

(** ** Further notions: frames, outcomes, teardown *)

Arguments m_fHostAssemblyPublished {Exception} d.
Arguments m_fCollectible {Exception} d.
Arguments m_fDebuggerUnloadStarted {Exception} d.

(** The value fits a [DWORD]. *)
Definition in_DWORD (x : Z) : Prop := 0 <= x < 2 ^ 32.

(** The levels [DoIncrementalLoad]'s [switch] has a case for. *)
Definition recognized (level : FileLoadLevel) : bool :=
  (FILE_LOAD_BEGIN <=? level) && (level <=? FILE_ACTIVE).

(** The calls made on the debugger: [g_pDebugInterface->LoadAssembly] and
    [Module::NotifyDebuggerLoad]. *)
Definition is_debugger_call (e : Event) : bool :=
  match e with
  | DebugInterface_LoadAssembly => true
  | Module_NotifyDebuggerLoad _ _ => true
  | _ => false
  end.

Definition debugger_calls (es : list Event) : list Event :=
  filter is_debugger_call es.

(** The calls on the host assembly that publish the unit. *)
Definition is_host_registration (e : Event) : bool :=
  match e with
  | HostAssembly_SetDomainAssembly => true
  | _ => false
  end.

(** What the destructor does to its collaborators, in order. *)
Inductive TeardownCall :=
| PEAssembly_Release
| delete_ExInfo
| HostAssembly_SetDomainAssembly_nullptr
| delete_Assembly.

Section FurtherNotions.
Context {H : Headers} {B : Build} {Exception : Type}.
Variable ext : list Event -> Event -> Answer Exception.

(** [DomainAssembly::UnregisterFromHostAssembly], a [NOTHROW] function. *)
Definition UnregisterFromHostAssembly (d : DomainAssembly Exception)
  : list TeardownCall :=
  if PE_HasHostAssembly (m_pPEAssembly d)
  then [HostAssembly_SetDomainAssembly_nullptr]
  else [].

(** [DomainAssembly::~DomainAssembly], a [NOTHROW] function: the calls it
    makes; [delete] of a null pointer does nothing. *)
Definition DomainAssembly_destructor (d : DomainAssembly Exception)
  : list TeardownCall :=
  [PEAssembly_Release]
  ++ match m_pError d with Some _ => [delete_ExInfo] | None => [] end
  ++ (if m_fHostAssemblyPublished d then UnregisterFromHostAssembly d else [])
  ++ match m_pAssembly d with Some _ => [delete_Assembly] | None => [] end.

(** The operand of [_ASSERTE(GetModule() == GetAssembly()->GetModule())] at
    the head of [Activate]: a build with [_DEBUG] evaluates it before
    [Activate] makes its first call, and it dereferences [m_pAssembly].  The
    comparison is of two pointers and writes nothing. *)
Definition Activate_assertion : M Exception unit :=
  if _DEBUG then
    bind Exception (get Exception) (fun d =>
      match m_pAssembly d with
      | Some _ => ret Exception tt
      | None => fault Exception
      end)
  else ret Exception tt.

(** Every unit that running [m] leaves behind is related by [R] to the unit
    it started from. *)
Definition related {A : Type}
           (R : DomainAssembly Exception -> DomainAssembly Exception -> Prop)
           (m : M Exception A) : Prop :=
  forall w, R (this w) (this (fst (m w))).

(** The module pointer is not null. *)
Definition module_present (w : World Exception) : Prop :=
  m_pModule (this w) <> None.

(** No collaborator ever throws. *)
Definition never_raises : Prop :=
  forall l e, exists b, ext l e = Yields b.

(** A result that is not a fault, and not an exception either unless
    exceptions are allowed. *)
Definition tolerated {A : Type} (allow_throw : bool) (r : Result Exception A)
  : Prop :=
  match r with
  | Returns _ => True
  | Throws _ => allow_throw = true
  | Fault => False
  end.

(** From a world where [I] holds, [m] leaves a world where [I] holds and a
    tolerated result. *)
Definition sound {A : Type} (I : World Exception -> Prop) (allow_throw : bool)
           (m : M Exception A) : Prop :=
  forall w, I w -> I (fst (m w)) /\ tolerated allow_throw (snd (m w)).

(** The fields no function of the file writes after construction. *)
Definition same_fixed_fields (d d' : DomainAssembly Exception) : Prop :=
  m_loading d' = m_loading d /\
  m_pModule d' = m_pModule d /\
  m_pAssembly d' = m_pAssembly d /\
  m_pPEAssembly d' = m_pPEAssembly d /\
  m_fCollectible d' = m_fCollectible d /\
  m_debuggerFlags d' = m_debuggerFlags d /\
  m_fDebuggerUnloadStarted d' = m_fDebuggerUnloadStarted d.

(** Every one-shot mark that is set in [d] is set in [d']. *)
Definition marks_kept (d d' : DomainAssembly Exception) : Prop :=
  (IsProfilerNotified d = true -> IsProfilerNotified d' = true) /\
  (IsDebuggerNotified d = true -> IsDebuggerNotified d' = true) /\
  (ShouldNotifyDebugger d = true -> ShouldNotifyDebugger d' = true) /\
  (m_bDisableActivationCheck d = true -> m_bDisableActivationCheck d' = true) /\
  (m_fHostAssemblyPublished d = true -> m_fHostAssemblyPublished d' = true) /\
  (IsError d = true -> IsError d' = true).

(** The level is the same in both units. *)
Definition same_level (d d' : DomainAssembly Exception) : Prop :=
  m_level d' = m_level d.

(** Up to FILE_LOADED, the level of [d'] is not below that of [d]. *)
Definition level_not_lowered (d d' : DomainAssembly Exception) : Prop :=
  m_level d <= FILE_LOADED -> m_level d <= m_level d' <= FILE_LOADED.

(** The debugger has been notified of the unit, and the calls made on the
    debugger so far are [made]. *)
Definition debugger_idle (made : list Event) (w : World Exception) : Prop :=
  debugger_calls (calls w) = made /\ IsDebuggerNotified (this w) = true.

(** The log holds a registration with the host assembly exactly when the
    unit is marked as published and its image has a host assembly. *)
Definition registration_recorded (w : World Exception) : Prop :=
  existsb is_host_registration (calls w)
  = m_fHostAssemblyPublished (this w) && PE_HasHostAssembly (m_pPEAssembly (this w)).

End FurtherNotions.

Arguments UnregisterFromHostAssembly {Exception} d.
Arguments DomainAssembly_destructor {Exception} d.
Arguments module_present {Exception} w.
Arguments same_fixed_fields {Exception} d d'.
Arguments marks_kept {Exception} d d'.
Arguments level_not_lowered {Exception} d d'.
Arguments same_level {Exception} d d'.
Arguments debugger_idle {Exception} made w.
Arguments Activate_assertion {B Exception} w.
Arguments registration_recorded {Exception} w.

(** A unit of the system image, as its member initialisers leave it. *)
Definition the_system_image : PEAssembly :=
  {| PE_IsLoaded := false;
     PE_IsSystem := true;
     PE_HasHostAssembly := false;
     PE_DebuggableAttribute := no_attribute |}.

Definition a_system_unit : DomainAssembly HRESULT :=
  @DomainAssembly_initializers clr_headers HRESULT the_system_image false.

(** Collaborators among which the diagnostic notification of [FinishLoad]
    throws. *)
Definition dac_throws : list Event -> Event -> Answer HRESULT :=
  fun _ e =>
    match e with
    | DACNotify_DoModuleLoadNotification => Raises E_FAIL
    | _ => Yields true
    end.

(** A unit marked for the debugger, and a unit whose module has no global
    method table. *)
Definition a_marked_unit : World HRESULT :=
  Eval cbv in fst (@SetShouldNotifyDebugger HRESULT a_debugged_unit).

Definition a_bare_assembly : Assembly :=
  {| Assembly_GetModule :=
       {| Module_IsReadyToRun := true;
          Module_GetGlobalMethodTable := None |} |}.

Definition a_bare_unit : World HRESULT :=
  Eval cbv in
    fst (@DomainAssembly_constructor clr_headers full_build HRESULT obliging
           a_bare_assembly before_construction).

(** A unit of whose load the debugger has been notified: the stages up to
    DELIVER_EVENTS have run with a debugger attached. *)
Definition a_notified_unit : World HRESULT :=
  Eval cbv in
    @run clr_headers full_build HRESULT hr_GetHR hr_DomainBoundClone obliging
         [Call_DoIncrementalLoad FILE_LOAD_BEGIN;
          Call_DoIncrementalLoad FILE_LOAD_BEFORE_TYPE_LOAD;
          Call_DoIncrementalLoad FILE_LOAD_EAGER_FIXUPS;
          Call_DoIncrementalLoad FILE_LOAD_DELIVER_EVENTS] a_debugged_unit.

(** * Bit masks on a [DWORD] *)

Lemma testbit_to_DWORD (x i : Z) :
  Z.testbit (to_DWORD x) i = (i <? 32) && Z.testbit x i.
Proof.
  unfold to_DWORD. apply Z.testbit_mod_pow2. lia.
Qed.

Lemma testbit_DWORD_high (m i : Z) :
  0 <= m < 2 ^ 32 -> Z.testbit m i = true -> i < 32.
Proof.
  intros Hm Hb.
  destruct (Z.ltb_spec i 32) as [|Hi]; [assumption|].
  rewrite <- (Z.mod_small m (2 ^ 32)) in Hb by assumption.
  change (m mod 2 ^ 32) with (to_DWORD m) in Hb.
  rewrite testbit_to_DWORD in Hb.
  apply andb_true_iff in Hb. destruct Hb as [Hb _].
  apply Z.ltb_lt in Hb. lia.
Qed.

Lemma disjoint_bits (a b i : Z) :
  Z.land a b = 0 -> Z.testbit a i = true -> Z.testbit b i = false.
Proof.
  intros Hd Ha.
  assert (Hi : Z.testbit (Z.land a b) i = false) by (rewrite Hd; apply Z.bits_0).
  rewrite Z.land_spec, Ha in Hi. exact Hi.
Qed.

Lemma flag_set_bits (m f : Z) :
  flag_set m f <-> forall i, 0 <= i -> Z.testbit m i = true -> Z.testbit f i = true.
Proof.
  unfold flag_set. split.
  - intros E i Hi Hm. rewrite <- E in Hm. rewrite Z.land_spec in Hm.
    apply andb_true_iff in Hm. tauto.
  - intros Hb. apply Z.bits_inj'. intros i Hi. rewrite Z.land_spec.
    destruct (Z.testbit m i) eqn:E.
    + rewrite (Hb i Hi E). reflexivity.
    + apply andb_false_r.
Qed.

Lemma flag_clear_bits (m f : Z) :
  flag_clear m f <-> forall i, 0 <= i -> Z.testbit m i = true -> Z.testbit f i = false.
Proof.
  unfold flag_clear. split.
  - intros E i Hi Hm.
    assert (Hz : Z.testbit (Z.land f m) i = false) by (rewrite E; apply Z.bits_0).
    rewrite Z.land_spec, Hm, andb_true_r in Hz. exact Hz.
  - intros Hb. apply Z.bits_inj'. intros i Hi. rewrite Z.land_spec, Z.bits_0.
    destruct (Z.testbit m i) eqn:E.
    + rewrite (Hb i Hi E). reflexivity.
    + apply andb_false_r.
Qed.

Lemma testbit_or_assign (f m i : Z) :
  Z.testbit (or_assign f m) i = Z.testbit f i || ((i <? 32) && Z.testbit m i).
Proof. unfold or_assign. rewrite Z.lor_spec, testbit_to_DWORD. reflexivity. Qed.

Lemma testbit_and_not_assign (f m i : Z) :
  0 <= i ->
  Z.testbit (and_not_assign f m) i = Z.testbit f i && ((i <? 32) && negb (Z.testbit m i)).
Proof.
  intros Hi. unfold and_not_assign.
  rewrite Z.land_spec, testbit_to_DWORD, Z.lnot_spec by assumption. reflexivity.
Qed.

Lemma or_assign_sets (m f : Z) :
  0 <= m < 2 ^ 32 -> flag_set m (or_assign f m).
Proof.
  intros Hm. apply flag_set_bits. intros i Hi Hb.
  rewrite testbit_or_assign, Hb.
  pose proof (testbit_DWORD_high m i Hm Hb) as Hlt.
  apply Z.ltb_lt in Hlt. rewrite Hlt. apply orb_true_r.
Qed.

Lemma and_not_assign_clears (m f : Z) : flag_clear m (and_not_assign f m).
Proof.
  apply flag_clear_bits. intros i Hi Hb.
  rewrite testbit_and_not_assign, Hb by assumption.
  simpl. rewrite andb_false_r. apply andb_false_r.
Qed.

Lemma or_assign_keeps_set (m m' f : Z) :
  flag_set m f -> flag_set m (or_assign f m').
Proof.
  rewrite !flag_set_bits. intros Hs i Hi Hb.
  rewrite testbit_or_assign, (Hs i Hi Hb). reflexivity.
Qed.

Lemma and_not_assign_keeps_clear (m m' f : Z) :
  flag_clear m f -> flag_clear m (and_not_assign f m').
Proof.
  rewrite !flag_clear_bits. intros Hc i Hi Hb.
  rewrite testbit_and_not_assign, (Hc i Hi Hb) by assumption. reflexivity.
Qed.

Lemma and_not_assign_keeps_set (m m' f : Z) :
  0 <= m < 2 ^ 32 -> Z.land m m' = 0 ->
  flag_set m f -> flag_set m (and_not_assign f m').
Proof.
  intros Hm Hd. rewrite !flag_set_bits. intros Hs i Hi Hb.
  rewrite testbit_and_not_assign, (Hs i Hi Hb), (disjoint_bits m m' i Hd Hb)
    by assumption.
  pose proof (testbit_DWORD_high m i Hm Hb) as Hlt.
  apply Z.ltb_lt in Hlt. rewrite Hlt. reflexivity.
Qed.

Lemma or_assign_keeps_clear (m m' f : Z) :
  Z.land m m' = 0 ->
  flag_clear m f -> flag_clear m (or_assign f m').
Proof.
  intros Hd. rewrite !flag_clear_bits. intros Hc i Hi Hb.
  rewrite testbit_or_assign, (Hc i Hi Hb), (disjoint_bits m m' i Hd Hb).
  rewrite andb_false_r. reflexivity.
Qed.

(** * Properties of the debuggable-attribute decoding *)

Section DebuggingConfigFacts.
Context {H : Headers} {B : Build}.

Lemma found_guard (hr : HRESULT) :
  attribute_found hr -> negb (FAILED hr || (hr =? S_FALSE)) = true.
Proof.
  intros [Hf Hs]. rewrite Hf. simpl.
  apply negb_true_iff. apply Z.eqb_neq. exact Hs.
Qed.

Lemma GetDebuggingCustomAttributes_well_formed
      (hr : HRESULT) (blob : list BYTE) (size : ULONG) (dwFlags : DWORD) :
  attribute_found hr ->
  size = 6 \/ size = 8 ->
  at_index blob 0 = 1 -> at_index blob 1 = 0 ->
  GetDebuggingCustomAttributes
    {| ca_hr := hr; ca_blob := blob; ca_size := size |} dwFlags
  = (hr, decoded_flags (at_index blob 2) (at_index blob 3) dwFlags).
Proof.
  intros Hfound Hsize H0 H1.
  unfold GetDebuggingCustomAttributes.
  cbn [ca_hr ca_blob ca_size].
  rewrite (found_guard hr Hfound), H0, H1.
  assert (Hs : (size =? 6) || (size =? 8) = true).
  { destruct Hsize; subst size; reflexivity. }
  rewrite Hs. reflexivity.
Qed.

Lemma decoded_tracking (b2 b3 : BYTE) (dwFlags : DWORD) :
  dacf_masks_disjoint H ->
  if truthy (Z.land b2 1)
  then flag_set DACF_OBSOLETE_TRACK_JIT_INFO (decoded_flags b2 b3 dwFlags)
  else flag_clear DACF_OBSOLETE_TRACK_JIT_INFO (decoded_flags b2 b3 dwFlags).
Proof.
  intros [[Ro [Rt Rp]] [Dot [Dop Dtp]]]. unfold decoded_flags.
  assert (Dto : Z.land DACF_OBSOLETE_TRACK_JIT_INFO DACF_ALLOW_JIT_OPTS = 0)
    by (rewrite Z.land_comm; exact Dot).
  destruct (truthy (Z.land b2 1)).
  - assert (S1 : flag_set DACF_OBSOLETE_TRACK_JIT_INFO
                   (or_assign dwFlags DACF_OBSOLETE_TRACK_JIT_INFO))
      by (apply or_assign_sets; assumption).
    destruct (truthy (Z.land b2 2)), ((Z.land b2 1 =? 0) || (b3 =? 0));
      do 2 first [ apply or_assign_keeps_set
                 | apply and_not_assign_keeps_set; [assumption | assumption | ] ];
      exact S1.
  - assert (C1 : flag_clear DACF_OBSOLETE_TRACK_JIT_INFO
                   (and_not_assign dwFlags DACF_OBSOLETE_TRACK_JIT_INFO))
      by apply and_not_assign_clears.
    destruct (truthy (Z.land b2 2)), ((Z.land b2 1 =? 0) || (b3 =? 0));
      do 2 first [ apply and_not_assign_keeps_clear
                 | apply or_assign_keeps_clear; [assumption | ] ];
      exact C1.
Qed.

Lemma decoded_ignore_pdbs (b2 b3 : BYTE) (dwFlags : DWORD) :
  dacf_masks_disjoint H ->
  if truthy (Z.land b2 2)
  then flag_set DACF_IGNORE_PDBS (decoded_flags b2 b3 dwFlags)
  else flag_clear DACF_IGNORE_PDBS (decoded_flags b2 b3 dwFlags).
Proof.
  intros [[Ro [Rt Rp]] [Dot [Dop Dtp]]]. unfold decoded_flags.
  assert (Dpo : Z.land DACF_IGNORE_PDBS DACF_ALLOW_JIT_OPTS = 0)
    by (rewrite Z.land_comm; exact Dop).
  destruct (truthy (Z.land b2 2)).
  - destruct ((Z.land b2 1 =? 0) || (b3 =? 0)).
    + apply or_assign_keeps_set, or_assign_sets; assumption.
    + apply and_not_assign_keeps_set; [assumption | assumption | ].
      apply or_assign_sets; assumption.
  - destruct ((Z.land b2 1 =? 0) || (b3 =? 0)).
    + apply or_assign_keeps_clear; [assumption | apply and_not_assign_clears].
    + apply and_not_assign_keeps_clear, and_not_assign_clears.
Qed.

Lemma decoded_allow_jit_opts (b2 b3 : BYTE) (dwFlags : DWORD) :
  0 <= DACF_ALLOW_JIT_OPTS < 2 ^ 32 ->
  if (Z.land b2 1 =? 0) || (b3 =? 0)
  then flag_set DACF_ALLOW_JIT_OPTS (decoded_flags b2 b3 dwFlags)
  else flag_clear DACF_ALLOW_JIT_OPTS (decoded_flags b2 b3 dwFlags).
Proof.
  intros Ro. unfold decoded_flags.
  destruct ((Z.land b2 1 =? 0) || (b3 =? 0)).
  - apply or_assign_sets; assumption.
  - apply and_not_assign_clears.
Qed.

End DebuggingConfigFacts.

(** C1, as stated, fails: for the blob [1,0,0x3,0x1] bit 1 of byte 2 is on,
    so the decoded flags do not have DACF_IGNORE_PDBS clear; the three
    properties the claim gives for this blob do not hold together. *)
Lemma debuggable_3_1_does_not_honor_pdbs :
  let decoded :=
    snd (@GetDebuggingCustomAttributes clr_headers
           {| ca_hr := 0; ca_blob := [1; 0; 3; 1; 0; 0]; ca_size := 6 |} 2) in
  ~ (flag_set (@DACF_OBSOLETE_TRACK_JIT_INFO clr_headers) decoded /\
     flag_clear (@DACF_IGNORE_PDBS clr_headers) decoded /\
     flag_clear (@DACF_ALLOW_JIT_OPTS clr_headers) decoded).
Proof.
  cbv zeta. intros [_ [Hclear _]]. vm_compute in Hclear. discriminate Hclear.
Qed.

(** C1, amended: decoding the found 6-byte blob [1,0,0x3,0x1,0,0] enables
    tracking, sets DACF_IGNORE_PDBS (external symbol files are ignored, since
    bit 1 of byte 2 is on) and disallows optimizations; decoding
    [1,0,0,0,0,0] disables tracking, clears DACF_IGNORE_PDBS and allows
    optimizations.  Both return the lookup's result code. *)
Theorem debuggable_blob_examples
        (H : Headers) (hr : HRESULT) (dwFlags : DWORD) :
  dacf_masks_disjoint H -> attribute_found hr ->
  (exists f,
     GetDebuggingCustomAttributes
       {| ca_hr := hr; ca_blob := [1; 0; 3; 1; 0; 0]; ca_size := 6 |} dwFlags
     = (hr, f) /\
     flag_set DACF_OBSOLETE_TRACK_JIT_INFO f /\
     flag_set DACF_IGNORE_PDBS f /\
     flag_clear DACF_ALLOW_JIT_OPTS f) /\
  (exists f,
     GetDebuggingCustomAttributes
       {| ca_hr := hr; ca_blob := [1; 0; 0; 0; 0; 0]; ca_size := 6 |} dwFlags
     = (hr, f) /\
     flag_clear DACF_OBSOLETE_TRACK_JIT_INFO f /\
     flag_clear DACF_IGNORE_PDBS f /\
     flag_set DACF_ALLOW_JIT_OPTS f).
Proof.
  intros Hwf Hfound.
  assert (Ro : 0 <= DACF_ALLOW_JIT_OPTS < 2 ^ 32) by (destruct Hwf as [[R _] _]; exact R).
  split.
  - exists (decoded_flags 3 1 dwFlags). split; [| split; [| split]].
    + apply GetDebuggingCustomAttributes_well_formed; auto.
    + exact (decoded_tracking 3 1 dwFlags Hwf).
    + exact (decoded_ignore_pdbs 3 1 dwFlags Hwf).
    + exact (decoded_allow_jit_opts 3 1 dwFlags Ro).
  - exists (decoded_flags 0 0 dwFlags). split; [| split; [| split]].
    + apply GetDebuggingCustomAttributes_well_formed; auto.
    + exact (decoded_tracking 0 0 dwFlags Hwf).
    + exact (decoded_ignore_pdbs 0 0 dwFlags Hwf).
    + exact (decoded_allow_jit_opts 0 0 dwFlags Ro).
Qed.

Lemma clr_masks_disjoint : dacf_masks_disjoint clr_headers.
Proof. unfold dacf_masks_disjoint. cbn. repeat split; try lia; reflexivity. Qed.

Lemma clr_S_OK_found : @attribute_found clr_headers 0.
Proof. split; [reflexivity | discriminate]. Qed.

Lemma debuggable_blob_examples_witness :
  (exists f,
     @GetDebuggingCustomAttributes clr_headers
       {| ca_hr := 0; ca_blob := [1; 0; 3; 1; 0; 0]; ca_size := 6 |} 2
     = (0, f) /\
     flag_set 4 f /\ flag_set 32 f /\ flag_clear 2 f) /\
  (exists f,
     @GetDebuggingCustomAttributes clr_headers
       {| ca_hr := 0; ca_blob := [1; 0; 0; 0; 0; 0]; ca_size := 6 |} 2
     = (0, f) /\
     flag_clear 4 f /\ flag_clear 32 f /\ flag_set 2 f).
Proof.
  exact (debuggable_blob_examples clr_headers 0 2 clr_masks_disjoint clr_S_OK_found).
Defined.

(** C3, as stated, fails: a found 5-byte blob is not rejected; the call
    returns the lookup's own (successful) result code. *)
Lemma five_byte_blob_is_not_rejected :
  let r := @GetDebuggingCustomAttributes clr_headers
             {| ca_hr := 0; ca_blob := [1; 0; 0; 0; 0]; ca_size := 5 |} 2 in
  ~ (fst r = @COR_E_BADIMAGEFORMAT clr_headers) /\
  @FAILED clr_headers (fst r) = false.
Proof.
  cbv zeta. split; [vm_compute; discriminate | reflexivity].
Qed.

(** C3, amended: a found blob of size 6 or 8 whose byte 0 is not 1 or whose
    byte 1 is not 0 is rejected with COR_E_BADIMAGEFORMAT and the flags are
    left unchanged; a blob of any other size (5 bytes, say) is not rejected:
    it is left undecoded, the call returns the result code of the attribute
    lookup and the flags are left unchanged. *)
Theorem malformed_debuggable_blob
        (H : Headers) (md : CustomAttribute) (dwFlags : DWORD) :
  (attribute_found (ca_hr md) ->
   ca_size md = 6 \/ ca_size md = 8 ->
   at_index (ca_blob md) 0 <> 1 \/ at_index (ca_blob md) 1 <> 0 ->
   GetDebuggingCustomAttributes md dwFlags = (COR_E_BADIMAGEFORMAT, dwFlags)) /\
  (ca_size md <> 6 -> ca_size md <> 8 ->
   GetDebuggingCustomAttributes md dwFlags = (ca_hr md, dwFlags)).
Proof.
  unfold GetDebuggingCustomAttributes. split.
  - intros Hfound Hsize Hbad.
    rewrite (found_guard _ Hfound).
    assert (Hs : (ca_size md =? 6) || (ca_size md =? 8) = true).
    { destruct Hsize as [E | E]; rewrite E; reflexivity. }
    rewrite Hs.
    assert (Hb : (at_index (ca_blob md) 0 =? 1) && (at_index (ca_blob md) 1 =? 0)
                 = false).
    { apply andb_false_iff.
      destruct Hbad as [N | N]; [left | right]; apply Z.eqb_neq; exact N. }
    rewrite Hb. reflexivity.
  - intros N6 N8.
    apply Z.eqb_neq in N6. apply Z.eqb_neq in N8. rewrite N6, N8.
    simpl. destruct (negb _); reflexivity.
Qed.

Lemma malformed_debuggable_blob_witness :
  @GetDebuggingCustomAttributes clr_headers
    {| ca_hr := 0; ca_blob := [2; 0; 0; 0; 0; 0]; ca_size := 6 |} 2
  = (@COR_E_BADIMAGEFORMAT clr_headers, 2) /\
  @GetDebuggingCustomAttributes clr_headers
    {| ca_hr := 0; ca_blob := [1; 0; 0; 0; 0]; ca_size := 5 |} 2
  = (0, 2).
Proof.
  split.
  - apply (proj1 (malformed_debuggable_blob clr_headers
             {| ca_hr := 0; ca_blob := [2; 0; 0; 0; 0; 0]; ca_size := 6 |} 2)).
    + exact clr_S_OK_found.
    + left. reflexivity.
    + left. simpl. discriminate.
  - apply (proj2 (malformed_debuggable_blob clr_headers
             {| ca_hr := 0; ca_blob := [1; 0; 0; 0; 0]; ca_size := 5 |} 2));
      simpl; discriminate.
Defined.

(** C8: whenever the tracking bit (bit 0 of byte 2) of a found, well-formed
    blob is off, the decoded flags have DACF_ALLOW_JIT_OPTS set, whatever
    byte 3 is; and when the attribute is absent (the lookup answers S_FALSE)
    [ComputeDebuggingConfig] returns the default, DACF_ALLOW_JIT_OPTS. *)
Theorem optimizations_allowed_without_tracking (H : Headers) (B : Build) :
  0 <= DACF_ALLOW_JIT_OPTS < 2 ^ 32 ->
  (forall (hr : HRESULT) (blob : list BYTE) (size : ULONG) (dwFlags : DWORD),
     attribute_found hr ->
     size = 6 \/ size = 8 ->
     at_index blob 0 = 1 -> at_index blob 1 = 0 ->
     Z.land (at_index blob 2) 1 = 0 ->
     let r := GetDebuggingCustomAttributes
                {| ca_hr := hr; ca_blob := blob; ca_size := size |} dwFlags in
     fst r = hr /\ flag_set DACF_ALLOW_JIT_OPTS (snd r)) /\
  (forall (Exception : Type) (md : CustomAttribute),
     DEBUGGING_SUPPORTED = true ->
     FAILED S_FALSE = false ->
     ca_hr md = S_FALSE ->
     @ComputeDebuggingConfig H B Exception md = Returns DACF_ALLOW_JIT_OPTS /\
     flag_set DACF_ALLOW_JIT_OPTS DACF_ALLOW_JIT_OPTS).
Proof.
  intros Ro. split.
  - intros hr blob size dwFlags Hfound Hsize H0 H1 Hbit. cbv zeta.
    rewrite (GetDebuggingCustomAttributes_well_formed hr blob size dwFlags)
      by assumption.
    split; [reflexivity |]. cbn [snd].
    pose proof (decoded_allow_jit_opts (at_index blob 2) (at_index blob 3)
                  dwFlags Ro) as Hd.
    rewrite Hbit in Hd. exact Hd.
  - intros Exception md Hdbg Hok Habsent. split.
    + unfold ComputeDebuggingConfig, GetDebuggingCustomAttributes, IfFailThrow.
      rewrite Hdbg, Habsent, Hok, Z.eqb_refl. cbn. rewrite Hok.
      unfold to_DWORD. rewrite Z.mod_small by exact Ro. reflexivity.
    + unfold flag_set. apply Z.land_diag.
Qed.

Lemma optimizations_allowed_without_tracking_witness :
  (0 <= @DACF_ALLOW_JIT_OPTS clr_headers < 2 ^ 32) /\
  (let r := @GetDebuggingCustomAttributes clr_headers
              {| ca_hr := 0; ca_blob := [1; 0; 2; 1; 0; 0; 0; 0]; ca_size := 8 |} 0 in
   fst r = 0 /\ flag_set 2 (snd r)) /\
  @ComputeDebuggingConfig clr_headers full_build HRESULT no_attribute = Returns 2.
Proof.
  assert (Ro : 0 <= @DACF_ALLOW_JIT_OPTS clr_headers < 2 ^ 32) by (cbn; lia).
  split; [exact Ro |]. split.
  - apply (proj1 (optimizations_allowed_without_tracking clr_headers full_build Ro)
             0 [1; 0; 2; 1; 0; 0; 0; 0] 8 0).
    + exact clr_S_OK_found.
    + right. reflexivity.
    + reflexivity.
    + reflexivity.
    + reflexivity.
  - apply (proj2 (optimizations_allowed_without_tracking clr_headers full_build Ro)
             HRESULT no_attribute); reflexivity.
Defined.

(** * The level checks and the captured error *)

Section LoadUnitFacts.
Context {H : Headers} {B : Build} {Exception : Type}.
Variable GetHR : Exception -> HRESULT.
Variable DomainBoundClone : Exception -> Exception.
Variable ext : list Event -> Event -> Answer Exception.

Lemma IsError_Some (d : DomainAssembly Exception) :
  IsError d = true <-> exists pError, m_pError d = Some pError.
Proof.
  unfold IsError. destruct (m_pError d) as [e |]; split.
  - intros _. exists e. reflexivity.
  - reflexivity.
  - discriminate.
  - intros [e E]. discriminate E.
Qed.

Lemma ThrowIfError_below (w : World Exception) (targetLevel : FileLoadLevel)
      (pError : Exception) :
  m_level (this w) < targetLevel ->
  m_pError (this w) = Some pError ->
  ThrowIfError targetLevel w = (w, Throws (Rethrown pError)).
Proof.
  intros Hlt He. unfold ThrowIfError, bind, get, ExInfo_Throw, throw.
  apply Z.ltb_lt in Hlt. rewrite Hlt, He. reflexivity.
Qed.

Lemma ThrowIfError_no_error (w : World Exception) (targetLevel : FileLoadLevel) :
  m_pError (this w) = None ->
  ThrowIfError targetLevel w = (w, Returns tt).
Proof.
  intros He. unfold ThrowIfError, bind, get, ret. rewrite He.
  destruct (m_level (this w) <? targetLevel); reflexivity.
Qed.

Lemma RequireLoadLevel_reached (w : World Exception) (targetLevel : FileLoadLevel) :
  targetLevel <= m_level (this w) ->
  RequireLoadLevel targetLevel w = (w, Returns tt).
Proof.
  intros Hge. unfold RequireLoadLevel, GetLoadLevel, bind, get, ret.
  assert (E : (m_level (this w) <? targetLevel) = false) by (apply Z.ltb_ge; lia).
  rewrite E. reflexivity.
Qed.

Lemma RequireLoadLevel_error (w : World Exception) (targetLevel : FileLoadLevel)
      (pError : Exception) :
  m_level (this w) < targetLevel ->
  m_pError (this w) = Some pError ->
  RequireLoadLevel targetLevel w = (w, Throws (Rethrown pError)).
Proof.
  intros Hlt He. unfold RequireLoadLevel, GetLoadLevel, bind at 1, get.
  assert (E : (m_level (this w) <? targetLevel) = true) by (apply Z.ltb_lt; lia).
  rewrite E. unfold bind. rewrite (ThrowIfError_below w targetLevel pError Hlt He).
  reflexivity.
Qed.

Lemma RequireLoadLevel_in_progress (w : World Exception) (targetLevel : FileLoadLevel) :
  m_level (this w) < targetLevel ->
  m_pError (this w) = None ->
  RequireLoadLevel targetLevel w
  = (w, Throws (HRException MSEE_E_ASSEMBLYLOADINPROGRESS)).
Proof.
  intros Hlt He. unfold RequireLoadLevel, GetLoadLevel, bind at 1, get.
  assert (E : (m_level (this w) <? targetLevel) = true) by (apply Z.ltb_lt; lia).
  rewrite E. unfold bind. rewrite (ThrowIfError_no_error w targetLevel He).
  reflexivity.
Qed.

Lemma EnsureLoadLevel_not_loading
      (LoadDomainAssembly : FileLoadLevel -> M Exception unit)
      (w : World Exception) (targetLevel : FileLoadLevel) :
  IsLoading (this w) = false ->
  EnsureLoadLevel LoadDomainAssembly targetLevel w = ThrowIfError targetLevel w.
Proof.
  intros Hl. unfold EnsureLoadLevel, bind, get. rewrite Hl. reflexivity.
Qed.

Lemma DoIncrementalLoad_after_error (w : World Exception) (level : FileLoadLevel) :
  IsError (this w) = true ->
  DoIncrementalLoad ext level w = (w, Returns false).
Proof.
  intros He. unfold DoIncrementalLoad, bind, get, ret. rewrite He. reflexivity.
Qed.

Lemma run_after_error (cs : list (Call Exception)) (w : World Exception) :
  IsError (this w) = true ->
  respects_contract GetHR DomainBoundClone ext cs w = true ->
  run GetHR DomainBoundClone ext cs w = w.
Proof.
  intros He. induction cs as [| c cs IH]; intros Hc; [reflexivity |].
  cbn [run respects_contract] in *.
  apply andb_true_iff in Hc. destruct Hc as [Hpre Hrest].
  destruct c as [level | ex].
  - assert (E : step GetHR DomainBoundClone ext (Call_DoIncrementalLoad level) w = w).
    { unfold step. rewrite (DoIncrementalLoad_after_error w level He). reflexivity. }
    rewrite E in *. apply IH. exact Hrest.
  - unfold SetError_precondition in Hpre. rewrite He in Hpre. discriminate Hpre.
Qed.


End LoadUnitFacts.

(** * What reaches the tracing and profiler sinks *)

Section Sinks.
Context {H : Headers} {B : Build} {Exception : Type}.
Variable GetHR : Exception -> HRESULT.
Variable DomainBoundClone : Exception -> Exception.
Variable ext : list Event -> Event -> Answer Exception.

Lemma etw_notifications_app (l1 l2 : list Event) :
  etw_notifications (l1 ++ l2) = etw_notifications l1 ++ etw_notifications l2.
Proof.
  induction l1 as [| e l1 IH]; [reflexivity |].
  destruct e; cbn; rewrite IH; reflexivity.
Qed.

Lemma profiler_notifications_app (l1 l2 : list Event) :
  profiler_notifications (l1 ++ l2)
  = profiler_notifications l1 ++ profiler_notifications l2.
Proof.
  induction l1 as [| e l1 IH]; [reflexivity |].
  destruct e; cbn; rewrite IH; reflexivity.
Qed.

Lemma sinks_untouched_refl (w : World Exception) : sinks_untouched w w.
Proof. repeat split. Qed.

Lemma sinks_untouched_trans (w1 w2 w3 : World Exception) :
  sinks_untouched w1 w2 -> sinks_untouched w2 w3 -> sinks_untouched w1 w3.
Proof.
  intros (A1 & A2 & A3 & A4 & A5) (C1 & C2 & C3 & C4 & C5).
  repeat split; congruence.
Qed.

Lemma quiet_ret {A : Type} (a : A) : quiet (ret Exception a).
Proof. intros w. apply sinks_untouched_refl. Qed.

Lemma quiet_throw {A : Type} (t : Thrown Exception) : quiet (@throw Exception A t).
Proof. intros w. apply sinks_untouched_refl. Qed.

Lemma quiet_fault {A : Type} : quiet (@fault Exception A).
Proof. intros w. apply sinks_untouched_refl. Qed.

Lemma quiet_get : quiet (get Exception).
Proof. intros w. apply sinks_untouched_refl. Qed.

Lemma quiet_globals : quiet (globals Exception).
Proof. intros w. apply sinks_untouched_refl. Qed.

Lemma quiet_bind {A C : Type} (m : M Exception A) (k : A -> M Exception C) :
  quiet m -> (forall a, quiet (k a)) -> quiet (bind Exception m k).
Proof.
  intros Hm Hk w. unfold bind. specialize (Hm w).
  destruct (m w) as [w1 [a | t |]]; cbn [fst] in *; try exact Hm.
  apply (sinks_untouched_trans w w1); [exact Hm | apply Hk].
Qed.

Lemma quiet_modify (f : DomainAssembly Exception -> DomainAssembly Exception) :
  harmless f -> quiet (modify Exception f).
Proof.
  intros Hf w. destruct (Hf (this w)) as (F1 & F2 & F3).
  unfold modify, sinks_untouched. cbn. auto.
Qed.

Lemma record_silent (e : Event) (w : World Exception) :
  silent e = true -> sinks_untouched w (record Exception e w).
Proof.
  intros He. unfold sinks_untouched, record. cbn.
  rewrite etw_notifications_app, profiler_notifications_app.
  destruct e; try discriminate He; cbn; rewrite !app_nil_r; auto.
Qed.

Lemma quiet_call (e : Event) : silent e = true -> quiet (call Exception ext e).
Proof.
  intros He w. unfold call.
  destruct (ext (calls w) e); cbn [fst]; apply record_silent; exact He.
Qed.

Lemma quiet_call_void (e : Event) :
  silent e = true -> quiet (call_void Exception ext e).
Proof.
  intros He. unfold call_void. apply quiet_bind.
  - apply quiet_call. exact He.
  - intros _. apply quiet_ret.
Qed.

Lemma quiet_call_nothrow (e : Event) :
  silent e = true -> quiet (call_nothrow Exception e).
Proof. intros He w. unfold call_nothrow. cbn [fst]. apply record_silent. exact He. Qed.

Lemma quiet_GetModule {A : Type} (k : Module -> M Exception A) :
  (forall m, quiet (k m)) -> quiet (GetModule Exception k).
Proof.
  intros Hk w. unfold GetModule.
  destruct (m_pModule (this w)) as [m |].
  - apply Hk.
  - apply sinks_untouched_refl.
Qed.

Lemma harmless_set_level (l : FileLoadLevel) : harmless (set_level Exception l).
Proof. intros d. repeat split. Qed.

Lemma harmless_set_disable_activation_check (b : bool) :
  harmless (set_disable_activation_check Exception b).
Proof. intros d. repeat split. Qed.

Lemma harmless_set_host_assembly_published (b : bool) :
  harmless (set_host_assembly_published Exception b).
Proof. intros d. repeat split. Qed.

Lemma harmless_set_debugger_notified :
  harmless (fun d =>
    set_notifyflags Exception
      {| PROFILER_NOTIFIED := PROFILER_NOTIFIED (m_notifyflags d);
         DEBUGGER_NOTIFIED := true;
         DEBUGGER_NEEDNOTIFICATION := DEBUGGER_NEEDNOTIFICATION (m_notifyflags d) |}
      d).
Proof. intros d. repeat split. Qed.

Lemma harmless_set_should_notify_debugger :
  harmless (fun d =>
    set_notifyflags Exception
      {| PROFILER_NOTIFIED := PROFILER_NOTIFIED (m_notifyflags d);
         DEBUGGER_NOTIFIED := DEBUGGER_NOTIFIED (m_notifyflags d);
         DEBUGGER_NEEDNOTIFICATION := true |}
      d).
Proof. intros d. repeat split. Qed.

(** Decompose a computation into the primitives above. *)
Ltac quiet_step :=
  first
    [ apply quiet_ret | apply quiet_throw | apply quiet_fault
    | apply quiet_get | apply quiet_globals
    | apply quiet_call_void; reflexivity
    | apply quiet_call_nothrow; reflexivity
    | apply quiet_call; reflexivity
    | apply quiet_modify;
      first [ apply harmless_set_level
            | apply harmless_set_disable_activation_check
            | apply harmless_set_host_assembly_published
            | apply harmless_set_debugger_notified
            | apply harmless_set_should_notify_debugger ]
    | apply quiet_GetModule; intros ?
    | apply quiet_bind; [| intros ?]
    | match goal with
      | |- quiet (if ?b then _ else _) => destruct b
      | |- quiet (match ?x with _ => _ end) => destruct x
      end ].

Ltac quiet_all := repeat quiet_step.

Lemma quiet_Begin : quiet (Begin ext).
Proof. unfold Begin, RegisterWithHostAssembly. quiet_all. Qed.

Lemma quiet_EagerFixups : quiet (EagerFixups ext).
Proof. unfold EagerFixups. quiet_all. Qed.

Lemma quiet_VtableFixups : quiet (VtableFixups ext).
Proof. unfold VtableFixups. quiet_all. Qed.

Lemma quiet_FinishLoad : quiet (FinishLoad ext).
Proof. unfold FinishLoad. quiet_all. Qed.

Lemma quiet_Activate : quiet (Activate ext).
Proof. unfold Activate. quiet_all. Qed.

Lemma quiet_SetShouldNotifyDebugger : quiet (SetShouldNotifyDebugger Exception).
Proof. unfold SetShouldNotifyDebugger. quiet_all. Qed.

Lemma quiet_NotifyDebuggerLoad (flags : Z) (attaching : bool) :
  quiet (NotifyDebuggerLoad ext flags attaching).
Proof. unfold NotifyDebuggerLoad, SetDebuggerNotified. quiet_all. Qed.

End Sinks.

Section SinkEffects.
Context {H : Headers} {B : Build} {Exception : Type}.
Variable GetHR : Exception -> HRESULT.
Variable DomainBoundClone : Exception -> Exception.
Variable ext : list Event -> Event -> Answer Exception.

Lemma bind_quiet_tail {A C : Type} (m : M Exception A) (k : A -> M Exception C)
      (w : World Exception) :
  (forall a, quiet (k a)) ->
  sinks_untouched (fst (m w)) (fst (bind Exception m k w)).
Proof.
  intros Hk. unfold bind.
  destruct (m w) as [w1 [a | t |]]; cbn [fst];
    [apply Hk | apply sinks_untouched_refl | apply sinks_untouched_refl].
Qed.

Lemma effect_of_untouched (w w' : World Exception) :
  sinks_untouched w w' -> effect [] w w' /\ m_pError (this w') = m_pError (this w).
Proof.
  intros (E1 & E2 & E3 & E4 & E5). unfold effect, profiler_effect.
  rewrite app_nil_r. auto 6.
Qed.

Lemma effect_then_untouched (sent : list HRESULT) (w w1 w2 : World Exception) :
  effect sent w w1 -> sinks_untouched w1 w2 -> effect sent w w2.
Proof.
  intros (E1 & E2 & E3) (U1 & U2 & U3 & U4 & U5). unfold effect, profiler_effect in *.
  rewrite U1, U2, U3, U5. auto.
Qed.

Lemma bind_get {A : Type} (k : DomainAssembly Exception -> M Exception A)
      (w : World Exception) :
  bind Exception (get Exception) k w = k (this w) w.
Proof. reflexivity. Qed.

Lemma bind_globals {A : Type} (k : World Exception -> M Exception A)
      (w : World Exception) :
  bind Exception (globals Exception) k w = k w w.
Proof. reflexivity. Qed.

Lemma fst_call_void (e : Event) (w : World Exception) :
  fst (call_void Exception ext e w) = record Exception e w.
Proof.
  unfold call_void, bind, call, ret.
  destruct (ext (calls w) e); reflexivity.
Qed.

(** The three places that notify the profiler share this shape: set the
    flag, then make the call. *)
Lemma mark_then_notify (hr : HRESULT) (w : World Exception) :
  m_pModule (this w) <> None ->
  fst (bind Exception (SetProfilerNotified Exception)
         (fun _ => GetModule Exception
            (fun _ => call_void Exception ext
                        (Module_NotifyProfilerLoadFinished hr))) w)
  = record Exception (Module_NotifyProfilerLoadFinished hr) (profiler_marked w).
Proof.
  intros Hm. unfold bind, profiler_marked, SetProfilerNotified, modify, GetModule.
  cbn [fst this with_this set_notifyflags m_pModule].
  destruct (m_pModule (this w)) as [m |]; [| contradiction].
  apply fst_call_void.
Qed.

Lemma effect_of_notification (hr : HRESULT) (w : World Exception) :
  IsProfilerNotified (this w) = false ->
  effect [] w (record Exception (Module_NotifyProfilerLoadFinished hr)
                 (profiler_marked w)) /\
  m_pError (this (record Exception (Module_NotifyProfilerLoadFinished hr)
                    (profiler_marked w))) = m_pError (this w).
Proof.
  intros F. unfold effect, profiler_effect, profiler_marked, SetProfilerNotified,
    modify, record.
  cbn [fst this calls with_this set_notifyflags m_pModule m_pError
       IsProfilerNotified m_notifyflags PROFILER_NOTIFIED].
  rewrite etw_notifications_app, profiler_notifications_app. cbn.
  repeat split; auto. right. repeat split; auto. left. exists hr. reflexivity.
Qed.

Lemma BeforeTypeLoad_effect (w : World Exception) :
  effect [] w (fst (BeforeTypeLoad ext w)) /\
  m_pError (this (fst (BeforeTypeLoad ext w))) = m_pError (this w).
Proof.
  unfold BeforeTypeLoad.
  destruct PROFILING_SUPPORTED eqn:P;
    [| apply effect_of_untouched, sinks_untouched_refl].
  rewrite bind_get.
  destruct (IsProfilerNotified (this w)) eqn:F; cbn [negb];
    [apply effect_of_untouched, sinks_untouched_refl |].
  destruct (m_pModule (this w)) as [m |] eqn:Mo.
  - rewrite mark_then_notify by congruence.
    apply effect_of_notification. exact F.
  - unfold bind, SetProfilerNotified, modify, GetModule.
    cbn [fst this with_this set_notifyflags m_pModule]. rewrite Mo.
    unfold effect, profiler_effect.
    cbn [fst this calls with_this set_notifyflags m_pModule m_pError
         IsProfilerNotified m_notifyflags PROFILER_NOTIFIED].
    rewrite app_nil_r. repeat split; auto. right. auto 6.
Qed.


Lemma effect_keep_untouched (w w' : World Exception) :
  sinks_untouched w w' -> effect_keep [] w w'.
Proof. apply effect_of_untouched. Qed.

Lemma effect_keep_refl (w : World Exception) : effect_keep [] w w.
Proof. apply effect_keep_untouched, sinks_untouched_refl. Qed.

Lemma profiler_effect_trans (w w1 w2 : World Exception) :
  m_pModule (this w1) = m_pModule (this w) ->
  profiler_effect w w1 -> profiler_effect w1 w2 -> profiler_effect w w2.
Proof.
  unfold profiler_effect. intros Hm [[F1 P1] | (F1 & F1' & N1)] [[F2 P2] | (F2 & F2' & N2)].
  - left. split; congruence.
  - right. rewrite <- F1, <- P1, <- Hm. auto.
  - right. rewrite F2, P2. auto.
  - congruence.
Qed.

Lemma effect_keep_trans (l1 l2 : list HRESULT) (w w1 w2 : World Exception) :
  effect_keep l1 w w1 -> effect_keep l2 w1 w2 -> effect_keep (l1 ++ l2) w w2.
Proof.
  intros [(E1 & M1 & P1) K1] [(E2 & M2 & P2) K2]. repeat split.
  - rewrite E2, E1, app_assoc. reflexivity.
  - congruence.
  - apply (profiler_effect_trans w w1 w2); assumption.
  - congruence.
Qed.

Lemma effect_keep_then_untouched (l : list HRESULT) (w w1 w2 : World Exception) :
  effect_keep l w w1 -> sinks_untouched w1 w2 -> effect_keep l w w2.
Proof.
  intros E U. rewrite <- (app_nil_r l).
  apply (effect_keep_trans l [] w w1 w2 E). apply effect_keep_untouched. exact U.
Qed.

Lemma effect_of_tracing (hr : HRESULT) (w : World Exception) :
  effect_keep [hr] w (record Exception (Module_NotifyEtwLoadFinished hr) w).
Proof.
  unfold effect_keep, effect, profiler_effect, record. cbn [this calls].
  rewrite etw_notifications_app, profiler_notifications_app. cbn.
  rewrite app_nil_r. auto 6.
Qed.

Lemma BeforeTypeLoad_effect_keep (w : World Exception) :
  effect_keep [] w (fst (BeforeTypeLoad ext w)).
Proof. apply BeforeTypeLoad_effect. Qed.

Lemma DeliverSyncEvents_effect (w : World Exception) :
  effect_keep (sent_if_module w S_OK) w (fst (DeliverSyncEvents ext w)).
Proof.
  unfold DeliverSyncEvents, sent_if_module.
  unfold bind at 1, GetModule at 1.
  destruct (m_pModule (this w)) as [m |] eqn:Mo; [| apply effect_keep_refl].
  pose proof (fst_call_void (Module_NotifyEtwLoadFinished S_OK) w) as Hw.
  pose proof (effect_of_tracing S_OK w) as He.
  destruct (call_void Exception ext (Module_NotifyEtwLoadFinished S_OK) w)
    as [w1 [[] | t |]]; cbn [fst] in *; subst w1; try exact He.
  rewrite <- (app_nil_r [S_OK]).
  apply (effect_keep_trans [S_OK] [] w _ _ He).
  eapply effect_keep_then_untouched.
  - apply (BeforeTypeLoad_effect_keep
             (record Exception (Module_NotifyEtwLoadFinished S_OK) w)).
  - apply (bind_quiet_tail (BeforeTypeLoad ext)). intros _.
    destruct DEBUGGING_SUPPORTED; [| apply quiet_ret].
    apply quiet_bind; [apply quiet_get | intros d].
    destruct (negb (IsDebuggerNotified d)); [| apply quiet_ret].
    apply quiet_bind; [apply quiet_SetShouldNotifyDebugger | intros _].
    apply quiet_bind; [apply quiet_NotifyDebuggerLoad | intros _].
    apply quiet_ret.
Qed.

Lemma dispatch_effect (level : FileLoadLevel) (w : World Exception) :
  effect_keep
    (if level =? FILE_LOAD_DELIVER_EVENTS then sent_if_module w S_OK else [])
    w (fst (dispatch ext level w)).
Proof.
  unfold dispatch.
  destruct (level =? FILE_LOAD_BEGIN) eqn:E1.
  { apply Z.eqb_eq in E1. subst level. cbn [Z.eqb FILE_LOAD_BEGIN FILE_LOAD_DELIVER_EVENTS Pos.eqb].
    apply effect_keep_untouched, quiet_Begin. }
  destruct (level =? FILE_LOAD_BEFORE_TYPE_LOAD) eqn:E2.
  { apply Z.eqb_eq in E2. subst level. cbn [Z.eqb FILE_LOAD_BEFORE_TYPE_LOAD FILE_LOAD_DELIVER_EVENTS Pos.eqb].
    apply BeforeTypeLoad_effect_keep. }
  destruct (level =? FILE_LOAD_EAGER_FIXUPS) eqn:E3.
  { apply Z.eqb_eq in E3. subst level. cbn [Z.eqb FILE_LOAD_EAGER_FIXUPS FILE_LOAD_DELIVER_EVENTS Pos.eqb].
    apply effect_keep_untouched, quiet_EagerFixups. }
  destruct (level =? FILE_LOAD_DELIVER_EVENTS) eqn:E4.
  { apply DeliverSyncEvents_effect. }
  destruct (level =? FILE_LOAD_VTABLE_FIXUPS) eqn:E5.
  { apply effect_keep_untouched, quiet_VtableFixups. }
  destruct (level =? FILE_LOADED) eqn:E6.
  { apply effect_keep_untouched, quiet_FinishLoad. }
  destruct (level =? FILE_ACTIVE) eqn:E7.
  { apply effect_keep_untouched, quiet_Activate. }
  apply effect_keep_refl.
Qed.

Lemma DoIncrementalLoad_effect (level : FileLoadLevel) (w : World Exception) :
  IsError (this w) = false ->
  effect_keep
    (if level =? FILE_LOAD_DELIVER_EVENTS then sent_if_module w S_OK else [])
    w (fst (DoIncrementalLoad ext level w)).
Proof.
  intros He. unfold DoIncrementalLoad. rewrite bind_get, He.
  eapply effect_keep_then_untouched; [apply dispatch_effect |].
  apply (bind_quiet_tail (dispatch ext level)). intros _.
  apply quiet_bind; [| intros _; apply quiet_ret].
  destruct FEATURE_MULTICOREJIT; [| apply quiet_ret].
  apply quiet_bind; [apply quiet_get | intros d].
  destruct (m_pModule d); [apply quiet_call_void; reflexivity | apply quiet_ret].
Qed.

Lemma bind_modify {A : Type} (f : DomainAssembly Exception -> DomainAssembly Exception)
      (k : unit -> M Exception A) (w : World Exception) :
  bind Exception (modify Exception f) k w
  = k tt (with_this Exception (f (this w)) w).
Proof. reflexivity. Qed.

Ltac explicit_worlds :=
  unfold effect, profiler_effect, profiler_marked, SetProfilerNotified, modify,
    record, ret, IsProfilerNotified in *;
  cbn [fst this calls with_this set_notifyflags set_error m_pModule m_pError
       m_notifyflags PROFILER_NOTIFIED] in *;
  rewrite ?etw_notifications_app, ?profiler_notifications_app;
  cbn [etw_notifications profiler_notifications app];
  rewrite ?app_nil_r.

Ltac settle :=
  repeat split;
  first
    [ reflexivity
    | assumption
    | left; split; first [reflexivity | assumption]
    | right; repeat split; try assumption; try reflexivity;
      first [ left; eexists; reflexivity
            | right; split; [reflexivity | auto] ] ].

Lemma fst_bind_call_void {A : Type} (e : Event) (k : unit -> M Exception A)
      (w : World Exception) :
  fst (bind Exception (call_void Exception ext e) k w)
  = match ext (calls w) e with
    | Yields _ => fst (k tt (record Exception e w))
    | Raises _ => record Exception e w
    end.
Proof.
  unfold bind, call_void, call, bind, ret.
  destruct (ext (calls w) e); reflexivity.
Qed.

Lemma SetError_effect (ex : Exception) (w : World Exception) :
  effect (sent_if_module w (GetHR ex)) w
         (fst (SetError GetHR DomainBoundClone ext ex w)) /\
  m_pError (this (fst (SetError GetHR DomainBoundClone ext ex w)))
  = Some (DomainBoundClone ex).
Proof.
  unfold SetError, sent_if_module.
  rewrite !bind_modify, !bind_get.
  cbn [this with_this set_error m_pModule].
  destruct (m_pModule (this w)) as [m |] eqn:Mo.
  2: { explicit_worlds. settle. }
  rewrite !fst_bind_call_void.
  destruct (ext _ (Module_NotifyEtwLoadFinished (GetHR ex))) as [b | thrown].
  2: { explicit_worlds. settle. }
  rewrite !bind_get.
  unfold IsProfilerNotified.
  cbn [this record with_this set_error m_notifyflags].
  destruct (PROFILER_NOTIFIED (m_notifyflags (this w))) eqn:F; cbn [negb].
  { explicit_worlds. settle. }
  unfold SetProfilerNotified. rewrite !bind_modify.
  destruct PROFILING_SUPPORTED eqn:P.
  - rewrite !fst_call_void. explicit_worlds. settle.
  - explicit_worlds. settle.
Qed.


Lemma DoIncrementalLoad_tail (level : FileLoadLevel) (w : World Exception) :
  IsError (this w) = false ->
  sinks_untouched (fst (dispatch ext level w)) (fst (DoIncrementalLoad ext level w)).
Proof.
  intros He. unfold DoIncrementalLoad. rewrite bind_get, He.
  apply (bind_quiet_tail (dispatch ext level)). intros _.
  apply quiet_bind; [| intros _; apply quiet_ret].
  destruct FEATURE_MULTICOREJIT; [| apply quiet_ret].
  apply quiet_bind; [apply quiet_get | intros d].
  destruct (m_pModule d); [apply quiet_call_void; reflexivity | apply quiet_ret].
Qed.

Lemma quiet_debugger_part :
  quiet (if DEBUGGING_SUPPORTED
         then
           bind Exception (get Exception) (fun d =>
             if negb (IsDebuggerNotified d)
             then
               bind Exception (SetShouldNotifyDebugger Exception) (fun _ =>
                 bind Exception (NotifyDebuggerLoad ext ATTACH_ASSEMBLY_LOAD false)
                   (fun _ => ret Exception tt))
             else ret Exception tt)
         else ret Exception tt).
Proof.
  destruct DEBUGGING_SUPPORTED; [| apply quiet_ret].
  apply quiet_bind; [apply quiet_get | intros d].
  destruct (negb (IsDebuggerNotified d)); [| apply quiet_ret].
  apply quiet_bind; [apply quiet_SetShouldNotifyDebugger | intros _].
  apply quiet_bind; [apply quiet_NotifyDebuggerLoad | intros _].
  apply quiet_ret.
Qed.

Lemma DeliverSyncEvents_after_tracing (w : World Exception) (b : bool) :
  m_pModule (this w) <> None ->
  ext (calls w) (Module_NotifyEtwLoadFinished S_OK) = Yields b ->
  sinks_untouched
    (fst (BeforeTypeLoad ext (record Exception (Module_NotifyEtwLoadFinished S_OK) w)))
    (fst (DeliverSyncEvents ext w)).
Proof.
  intros Hm Hret. unfold DeliverSyncEvents.
  unfold bind at 1, GetModule at 1.
  destruct (m_pModule (this w)) as [m |]; [| contradiction].
  unfold call_void at 1, bind at 1, call at 1. rewrite Hret. cbn [ret].
  apply (bind_quiet_tail (BeforeTypeLoad ext)). intros _.
  apply quiet_debugger_part.
Qed.

Lemma BeforeTypeLoad_sets_flag (w : World Exception) :
  PROFILING_SUPPORTED = true ->
  IsProfilerNotified (this (fst (BeforeTypeLoad ext w))) = true.
Proof.
  intros P. unfold BeforeTypeLoad. rewrite P, bind_get.
  destruct (IsProfilerNotified (this w)) eqn:F; cbn [negb]; [exact F |].
  unfold SetProfilerNotified. rewrite bind_modify.
  unfold GetModule. cbn [this with_this set_notifyflags m_pModule].
  destruct (m_pModule (this w)); [rewrite fst_call_void |]; reflexivity.
Qed.

End SinkEffects.

(** * Sequences of calls *)

Section Runs.
Context {H : Headers} {B : Build} {Exception : Type}.
Variable GetHR : Exception -> HRESULT.
Variable DomainBoundClone : Exception -> Exception.
Variable ext : list Event -> Event -> Answer Exception.

Lemma run_app (cs1 cs2 : list (Call Exception)) (w : World Exception) :
  run GetHR DomainBoundClone ext (cs1 ++ cs2) w = run GetHR DomainBoundClone ext cs2 (run GetHR DomainBoundClone ext cs1 w).
Proof.
  revert w. induction cs1 as [| c cs1 IH]; intros w; [reflexivity |].
  cbn [app run]. apply IH.
Qed.

Lemma step_effect (c : Call Exception) (w : World Exception) :
  profiler_effect w (step GetHR DomainBoundClone ext c w) /\
  m_pModule (this (step GetHR DomainBoundClone ext c w)) = m_pModule (this w).
Proof.
  destruct c as [level | ex]; cbn [step].
  - destruct (IsError (this w)) eqn:He.
    + rewrite (DoIncrementalLoad_after_error ext w level He). cbn [fst].
      split; [left; split |]; reflexivity.
    + destruct (DoIncrementalLoad_effect ext level w He) as [(_ & M & P) _].
      split; assumption.
  - destruct (SetError_effect GetHR DomainBoundClone ext ex w) as [(_ & M & P) _].
    split; assumption.
Qed.

Lemma at_most_flag_kept (w w' : World Exception) :
  profiler_effect w w' -> at_most_flag w -> at_most_flag w'.
Proof.
  unfold at_most_flag.
  intros [[F P] | (F & F' & [[hr P] | [P _]])] J.
  - rewrite F, P. exact J.
  - rewrite F in J. rewrite F', P, length_app. cbn. lia.
  - rewrite F in J. rewrite F', P. lia.
Qed.

Lemma exactly_flag_kept (w w' : World Exception) :
  PROFILING_SUPPORTED = true -> m_pModule (this w) <> None ->
  profiler_effect w w' -> exactly_flag w -> exactly_flag w'.
Proof.
  unfold exactly_flag.
  intros Pr Mo [[F P] | (F & F' & [[hr P] | [P [Q | Q]]])] J.
  - rewrite F, P. exact J.
  - rewrite F in J. rewrite F', P, length_app, J. reflexivity.
  - congruence.
  - contradiction.
Qed.

Lemma flag_stays_set (w w' : World Exception) :
  profiler_effect w w' ->
  IsProfilerNotified (this w) = true -> IsProfilerNotified (this w') = true.
Proof.
  intros [[F P] | (F & F' & _)] S; congruence.
Qed.

Lemma run_invariants (cs : list (Call Exception)) (w : World Exception) :
  m_pModule (this (run GetHR DomainBoundClone ext cs w)) = m_pModule (this w) /\
  (at_most_flag w -> at_most_flag (run GetHR DomainBoundClone ext cs w)) /\
  (PROFILING_SUPPORTED = true -> m_pModule (this w) <> None ->
   exactly_flag w -> exactly_flag (run GetHR DomainBoundClone ext cs w)) /\
  (IsProfilerNotified (this w) = true ->
   IsProfilerNotified (this (run GetHR DomainBoundClone ext cs w)) = true).
Proof.
  revert w. induction cs as [| c cs IH]; intros w; cbn [run].
  - auto.
  - destruct (step_effect c w) as [P M].
    destruct (IH (step GetHR DomainBoundClone ext c w)) as (M' & A' & E' & F').
    split; [congruence |]. split; [| split].
    + intros J. apply A'. apply (at_most_flag_kept w); assumption.
    + intros Pr Mo J. apply E'; [assumption | congruence |].
      apply (exactly_flag_kept w); assumption.
    + intros S. apply F'. apply (flag_stays_set w); assumption.
Qed.

Lemma reaching_sets_flag (c : Call Exception) (w : World Exception) :
  PROFILING_SUPPORTED = true ->
  reaches_profiler_site GetHR ext c w = true ->
  IsProfilerNotified (this (step GetHR DomainBoundClone ext c w)) = true.
Proof.
  intros Pr. unfold reaches_profiler_site, tracing_call_returns.
  destruct (m_pModule (this w)) as [m |] eqn:Mo; [| discriminate].
  destruct c as [level | ex]; cbn [step].
  - intros R. apply andb_true_iff in R. destruct R as [He R].
    apply negb_true_iff in He.
    destruct (DoIncrementalLoad_tail ext level w He) as (_ & _ & F & _).
    rewrite F. clear F.
    apply orb_true_iff in R. destruct R as [R | R].
    + apply Z.eqb_eq in R. subst level.
      change (dispatch ext FILE_LOAD_BEFORE_TYPE_LOAD w) with (BeforeTypeLoad ext w).
      apply BeforeTypeLoad_sets_flag. exact Pr.
    + apply andb_true_iff in R. destruct R as [R T].
      apply Z.eqb_eq in R. subst level.
      change (dispatch ext FILE_LOAD_DELIVER_EVENTS w) with (DeliverSyncEvents ext w).
      destruct (ext (calls w) (Module_NotifyEtwLoadFinished S_OK)) as [b |] eqn:A;
        [| discriminate].
      destruct (DeliverSyncEvents_after_tracing ext w b) as (_ & _ & F & _);
        [congruence | exact A |].
      rewrite F. apply BeforeTypeLoad_sets_flag. exact Pr.
  - intros T.
    destruct (ext (calls w) (Module_NotifyEtwLoadFinished (GetHR ex))) as [b |] eqn:A;
      [| discriminate].
    unfold SetError. rewrite bind_modify, bind_get.
    cbn [this with_this set_error m_pModule]. rewrite Mo.
    rewrite fst_bind_call_void. cbn [calls with_this]. rewrite A.
    rewrite bind_get. unfold IsProfilerNotified.
    cbn [this record with_this set_error m_notifyflags].
    destruct (PROFILER_NOTIFIED (m_notifyflags (this w))) eqn:F; cbn [negb].
    + cbn. exact F.
    + unfold SetProfilerNotified. rewrite bind_modify, Pr, fst_call_void.
      reflexivity.
Qed.

Lemma repeat_app {A : Type} (a : A) (n m : nat) :
  repeat a (n + m) = repeat a n ++ repeat a m.
Proof. induction n as [| n IH]; cbn; [| rewrite IH]; reflexivity. Qed.

End Runs.

(** * Activation *)

Section ActivateFacts.
Context {H : Headers} {B : Build} {Exception : Type}.
Variable ext : list Event -> Event -> Answer Exception.

Lemma establishes_ret {A : Type} (P : World Exception -> Prop) (a : A) :
  establishes P P (ret Exception a).
Proof. intros w Hp. exact Hp. Qed.

Lemma establishes_weaken {A : Type} (P Q Q' : World Exception -> Prop)
      (m : M Exception A) :
  (forall w, Q w -> Q' w) -> establishes P Q m -> establishes P Q' m.
Proof. intros Hq Hm w Hp. apply Hq, Hm, Hp. Qed.

Lemma establishes_bind {A C : Type} (P Q R : World Exception -> Prop)
      (m : M Exception A) (k : A -> M Exception C) :
  establishes P Q m ->
  (forall w, Q w -> R w) ->
  (forall a, establishes Q R (k a)) ->
  establishes P R (bind Exception m k).
Proof.
  intros Hm Hq Hk w Hp. unfold bind. specialize (Hm w Hp).
  destruct (m w) as [w1 [a | t |]]; cbn [fst] in *.
  - apply Hk. exact Hm.
  - apply Hq. exact Hm.
  - apply Hq. exact Hm.
Qed.

Lemma establishes_GetModule {A : Type} (P Q : World Exception -> Prop)
      (k : Module -> M Exception A) :
  (forall w, P w -> Q w) ->
  (forall m, establishes P Q (k m)) ->
  establishes P Q (GetModule Exception k).
Proof.
  intros Hpq Hk w Hp. unfold GetModule.
  destruct (m_pModule (this w)) as [m |]; [apply Hk | apply Hpq]; exact Hp.
Qed.

Lemma call_void_keeps_not_run (e : Event) :
  e <> MethodTable_CheckRunClassInitThrowing ->
  establishes initializer_not_run initializer_not_run (call_void Exception ext e).
Proof.
  intros Hne w Hp. unfold call_void, bind, call, ret.
  destruct (ext (calls w) e); unfold initializer_not_run in *;
    cbn [fst calls record]; rewrite in_app_iff; cbn; intuition congruence.
Qed.

Lemma call_void_keeps_disabled (e : Event) :
  establishes activation_check_disabled activation_check_disabled
              (call_void Exception ext e).
Proof.
  intros w Hp. unfold call_void, bind, call, ret.
  destruct (ext (calls w) e); exact Hp.
Qed.

Lemma call_void_keeps_guarded (e : Event) :
  e <> MethodTable_CheckRunClassInitThrowing ->
  establishes guarded guarded (call_void Exception ext e).
Proof.
  intros Hne w [Hp | Hp]; [left | right].
  - apply call_void_keeps_not_run; assumption.
  - apply call_void_keeps_disabled; assumption.
Qed.

Lemma Activate_guarded : establishes initializer_not_run guarded (Activate ext).
Proof.
  unfold Activate.
  apply (establishes_bind _ initializer_not_run); [| left; assumption | intros _].
  { apply establishes_GetModule; [auto |]. intros _.
    apply call_void_keeps_not_run. discriminate. }
  apply (establishes_bind _ initializer_not_run); [| left; assumption | intros pMT].
  { apply establishes_GetModule; [auto |]. intros m. apply establishes_ret. }
  apply (establishes_bind _ guarded); [| auto | intros _].
  { destruct pMT as [mt |].
    - apply (establishes_bind _ initializer_not_run); [| left; assumption | intros _].
      { apply call_void_keeps_not_run. discriminate. }
      apply (establishes_bind _ activation_check_disabled);
        [| right; assumption | intros _].
      { intros w _. reflexivity. }
      apply (establishes_weaken _ activation_check_disabled);
        [right; assumption | apply call_void_keeps_disabled].
    - intros w Hp. left. exact Hp. }
  apply (establishes_bind _ guarded); [| auto | intros _].
  { destruct _DEBUG; [| apply establishes_ret].
    apply (establishes_bind _ guarded); [intros w Hp; exact Hp | auto | intros g].
    destruct (ExpandModulesOnLoad g); [| apply establishes_ret].
    apply establishes_GetModule; [auto |]. intros _.
    apply call_void_keeps_guarded. discriminate. }
  destruct FEATURE_READYTORUN; [| apply establishes_ret].
  apply establishes_GetModule; [auto |]. intros m.
  destruct (Module_IsReadyToRun m); [| apply establishes_ret].
  apply call_void_keeps_guarded. discriminate.
Qed.

End ActivateFacts.

(** * Construction *)

Section ConstructorFacts.
Context {H : Headers} {B : Build} {Exception : Type}.
Variable ext : list Event -> Event -> Answer Exception.

Lemma record_silent_fresh (e : Event) (w : World Exception) :
  silent e = true -> fresh w -> fresh (record Exception e w).
Proof.
  intros He (F & P & E & K). unfold fresh, record. cbn [this calls].
  rewrite etw_notifications_app, profiler_notifications_app, P, E.
  destruct e; try discriminate He; cbn; auto.
Qed.

Lemma call_void_keeps_fresh (e : Event) :
  silent e = true -> establishes fresh fresh (call_void Exception ext e).
Proof.
  intros He w Hf. rewrite fst_call_void. apply record_silent_fresh; assumption.
Qed.

Lemma SetupDebuggingConfig_keeps_fresh :
  establishes fresh fresh (SetupDebuggingConfig Exception).
Proof.
  intros w Hf. unfold SetupDebuggingConfig.
  destruct DEBUGGING_SUPPORTED; [| exact Hf].
  rewrite bind_get.
  destruct (ComputeDebuggingConfig _) as [f | t |]; exact Hf.
Qed.

(** A unit comes out of its constructor with nothing sent to the tracing and
    profiler sinks, its profiler flag unset and no error captured, whether
    the constructor returns or throws. *)
Lemma constructor_starts_fresh
      (assembly : Assembly) (pPEAssembly : PEAssembly) (IsCollectible : bool)
      (debugInterface debuggerAttached expandModules : bool) :
  fresh
    (fst (DomainAssembly_constructor ext assembly
            {| this := DomainAssembly_initializers Exception pPEAssembly IsCollectible;
               g_pDebugInterface := debugInterface;
               CORDebuggerAttached := debuggerAttached;
               ExpandModulesOnLoad := expandModules;
               calls := [] |})).
Proof.
  assert (Hk : establishes fresh fresh (DomainAssembly_constructor ext assembly)).
  { unfold DomainAssembly_constructor.
    apply (establishes_bind _ fresh); [| auto | intros _].
    { intros w Hf. apply record_silent_fresh; [reflexivity | exact Hf]. }
    apply (establishes_bind _ fresh); [| auto | intros _].
    { apply call_void_keeps_fresh. reflexivity. }
    apply (establishes_bind _ fresh); [| auto | intros _].
    { apply SetupDebuggingConfig_keeps_fresh. }
    apply (establishes_bind _ fresh); [| auto | intros _].
    { apply call_void_keeps_fresh. reflexivity. }
    apply (establishes_bind _ fresh); [| auto | intros _].
    { intros w Hf. exact Hf. }
    apply call_void_keeps_fresh. reflexivity. }
  apply Hk. repeat split.
Qed.

End ConstructorFacts.

(** * The captured error and the level checks: the stated properties *)

(** C6: [RequireLoadLevel(target)] returns normally when the level is at
    least [target]; below it, it re-raises the captured error when there is
    one and otherwise raises MSEE_E_ASSEMBLYLOADINPROGRESS; the unit is left
    as it was in the three cases. *)
Theorem RequireLoadLevel_outcomes
        (H : Headers) (Exception : Type)
        (w : World Exception) (targetLevel : FileLoadLevel) :
  (targetLevel <= m_level (this w) ->
   RequireLoadLevel targetLevel w = (w, Returns tt)) /\
  (m_level (this w) < targetLevel ->
   forall pError, m_pError (this w) = Some pError ->
   RequireLoadLevel targetLevel w = (w, Throws (Rethrown pError))) /\
  (m_level (this w) < targetLevel ->
   m_pError (this w) = None ->
   RequireLoadLevel targetLevel w
   = (w, Throws (HRException MSEE_E_ASSEMBLYLOADINPROGRESS))).
Proof.
  split; [| split].
  - apply RequireLoadLevel_reached.
  - intros Hlt pError He. apply RequireLoadLevel_error; assumption.
  - apply RequireLoadLevel_in_progress.
Qed.

Lemma RequireLoadLevel_outcomes_witness :
  @RequireLoadLevel clr_headers HRESULT FILE_LOAD_CREATE a_unit
  = (a_unit, Returns tt) /\
  @RequireLoadLevel clr_headers HRESULT FILE_LOADED a_failed_unit
  = (a_failed_unit, Throws (Rethrown E_FAIL)) /\
  @RequireLoadLevel clr_headers HRESULT FILE_LOADED a_unit
  = (a_unit, Throws (HRException (@MSEE_E_ASSEMBLYLOADINPROGRESS clr_headers))).
Proof.
  split; [| split].
  - apply (proj1 (RequireLoadLevel_outcomes clr_headers HRESULT a_unit
                    FILE_LOAD_CREATE)).
    vm_compute. discriminate.
  - apply (proj1 (proj2 (RequireLoadLevel_outcomes clr_headers HRESULT a_failed_unit
                           FILE_LOADED))).
    + reflexivity.
    + reflexivity.
  - apply (proj2 (proj2 (RequireLoadLevel_outcomes clr_headers HRESULT a_unit
                           FILE_LOADED))).
    + reflexivity.
    + reflexivity.
Defined.

(** C7: [CheckNoError(L)] passes if and only if the level is at least [L] or
    no error is captured; so it passes whenever the level is at least [L],
    whatever the error state, and in particular at the level itself. *)
Theorem CheckNoError_iff
        (Exception : Type) (d : DomainAssembly Exception) (L : FileLoadLevel) :
  (CheckNoError L d = true <-> (L <= m_level d \/ IsError d = false)) /\
  (L <= m_level d -> CheckNoError L d = true) /\
  CheckNoError (m_level d) d = true.
Proof.
  unfold CheckNoError. split; [| split].
  - rewrite orb_true_iff, Z.leb_le, negb_true_iff. reflexivity.
  - intros Hle. apply Z.leb_le in Hle. rewrite Hle. reflexivity.
  - rewrite Z.leb_refl. reflexivity.
Qed.

Lemma CheckNoError_iff_witness :
  CheckNoError FILE_LOAD_CREATE (this a_failed_unit) = true /\
  CheckNoError FILE_LOAD_BEGIN (this a_failed_unit) = false.
Proof.
  split.
  - apply (proj1 (proj2 (CheckNoError_iff HRESULT (this a_failed_unit)
                           FILE_LOAD_CREATE))).
    vm_compute. discriminate.
  - destruct (CheckNoError FILE_LOAD_BEGIN (this a_failed_unit)) eqn:E;
      [| reflexivity].
    apply (proj1 (CheckNoError_iff HRESULT (this a_failed_unit) FILE_LOAD_BEGIN)) in E.
    destruct E as [E | E]; [vm_compute in E; congruence | discriminate E].
Defined.

(** While the unit is still marked as loading, [EnsureLoadLevel] hands over
    to the Domain Loader; if that one returns, the captured error is
    re-raised as soon as the unit is more than one level short. *)
Lemma EnsureLoadLevel_while_loading
      (H : Headers) (Exception : Type)
      (LoadDomainAssembly : FileLoadLevel -> M Exception unit)
      (w w1 : World Exception) (targetLevel : FileLoadLevel) (pError : Exception) :
  IsLoading (this w) = true ->
  LoadDomainAssembly targetLevel w = (w1, Returns tt) ->
  m_pError (this w1) = Some pError ->
  m_level (this w1) < targetLevel - 1 ->
  EnsureLoadLevel LoadDomainAssembly targetLevel w = (w1, Throws (Rethrown pError)).
Proof.
  intros Hl Hd He Hlt. unfold EnsureLoadLevel, bind at 1, get.
  rewrite Hl. unfold bind. rewrite Hd.
  apply RequireLoadLevel_error; assumption.
Qed.



(** C10: a unit below FILE_ACTIVE whose activation check has been disabled
    passes [CheckActivated] as soon as [CheckNoError(FILE_ACTIVE)] passes,
    the unit is loaded and its image is loaded; and [Activate] disables the
    check before it runs the global initializer: whenever the initializer has
    been called, the flag is set. *)
Theorem CheckActivated_during_initializer
        (H : Headers) (B : Build) (Exception : Type)
        (IsLoaded : DomainAssembly Exception -> bool)
        (CheckLoading : DomainAssembly Exception -> FileLoadLevel -> bool)
        (ext : list Event -> Event -> Answer Exception) :
  (forall d : DomainAssembly Exception,
     m_level d < FILE_ACTIVE ->
     m_bDisableActivationCheck d = true ->
     CheckNoError FILE_ACTIVE d = true ->
     IsLoaded d = true ->
     PE_IsLoaded (m_pPEAssembly d) = true ->
     CheckActivated IsLoaded CheckLoading d = true) /\
  (forall w : World Exception,
     ~ In MethodTable_CheckRunClassInitThrowing (calls w) ->
     In MethodTable_CheckRunClassInitThrowing (calls (fst (Activate ext w))) ->
     m_bDisableActivationCheck (this (fst (Activate ext w))) = true).
Proof.
  split.
  - intros d Hlt Hflag Hne Hl Hpe. unfold CheckActivated.
    rewrite Hne, Hpe, Hl, Hflag. cbn.
    destruct (IsActive d); [reflexivity |].
    destruct (PE_IsSystem (m_pPEAssembly d)); reflexivity.
  - intros w Hnot Hin.
    destruct (Activate_guarded ext w Hnot) as [Hg | Hg].
    + contradiction.
    + exact Hg.
Qed.

Lemma CheckActivated_during_initializer_witness :
  m_level (this an_activated_unit) < FILE_ACTIVE /\
  @CheckActivated clr_headers HRESULT loaded_from_LOADED never_passes
     (this an_activated_unit) = true /\
  m_bDisableActivationCheck
    (this (fst (@Activate full_build HRESULT obliging a_unit))) = true.
Proof.
  pose proof (CheckActivated_during_initializer clr_headers full_build HRESULT
                loaded_from_LOADED never_passes obliging) as [Hc Ha].
  split; [vm_compute; reflexivity |]. split.
  - apply Hc; try reflexivity.
  - apply Ha.
    + vm_compute. intuition discriminate.
    + vm_compute. auto 10.
Defined.

(** * The tracing and profiler sinks: the stated properties *)

(** C2, as stated, fails, in two runs.  In the first every stage up to
    DELIVER_EVENTS returns, so the tracing sink has been told of a success,
    then patching the virtual tables throws at VTABLE_FIXUPS and [SetError]
    tells the sink of the failure.  In the second a debugger is attached and
    throws when it is told of the assembly: the DELIVER_EVENTS step has
    already sent the tracing notification for success when it throws, and
    [SetError] sends the one for the failure.  In both the sink is notified
    twice, once on each path, although [SetError] is called with its
    precondition. *)
Lemma tracing_notified_on_both_paths :
  (let w :=
     @run clr_headers full_build HRESULT hr_GetHR hr_DomainBoundClone fixups_throw
          [Call_DoIncrementalLoad FILE_LOAD_BEGIN;
           Call_DoIncrementalLoad FILE_LOAD_BEFORE_TYPE_LOAD;
           Call_DoIncrementalLoad FILE_LOAD_EAGER_FIXUPS;
           Call_DoIncrementalLoad FILE_LOAD_DELIVER_EVENTS] a_unit in
   let patched :=
     @DoIncrementalLoad clr_headers full_build HRESULT fixups_throw
        FILE_LOAD_VTABLE_FIXUPS w in
   let failed :=
     @SetError full_build HRESULT hr_GetHR hr_DomainBoundClone fixups_throw
        E_FAIL (fst patched) in
   etw_notifications (calls w) = [@S_OK clr_headers] /\
   snd patched = Throws (Rethrown E_FAIL) /\
   SetError_precondition (this (fst patched)) = true /\
   etw_notifications (calls (fst failed)) = [@S_OK clr_headers; E_FAIL] /\
   length (etw_notifications (calls (fst failed))) <> 1%nat) /\
  (let w :=
     @run clr_headers full_build HRESULT hr_GetHR hr_DomainBoundClone debugger_throws
          [Call_DoIncrementalLoad FILE_LOAD_BEGIN;
           Call_DoIncrementalLoad FILE_LOAD_BEFORE_TYPE_LOAD;
           Call_DoIncrementalLoad FILE_LOAD_EAGER_FIXUPS] a_debugged_unit in
   let delivered :=
     @DoIncrementalLoad clr_headers full_build HRESULT debugger_throws
        FILE_LOAD_DELIVER_EVENTS w in
   let failed :=
     @SetError full_build HRESULT hr_GetHR hr_DomainBoundClone debugger_throws
        E_FAIL (fst delivered) in
   etw_notifications (calls w) = [] /\
   snd delivered = Throws (Rethrown E_FAIL) /\
   SetError_precondition (this (fst delivered)) = true /\
   etw_notifications (calls (fst failed)) = [@S_OK clr_headers; E_FAIL] /\
   length (etw_notifications (calls (fst failed))) <> 1%nat).
Proof.
  vm_compute. repeat split; discriminate.
Qed.

(** C2, amended: the tracing sink is notified by every DELIVER_EVENTS step
    that runs (with S_OK) and by every [SetError] on a unit with a module
    (with the failure's result code); no flag makes it one-shot.  So over a
    sequence of [DoIncrementalLoad] and [SetError] calls that respects
    [SetError]'s contract, on a unit with a module and no error yet, the sink
    receives one S_OK for each DELIVER_EVENTS step made before the first
    [SetError], then the result code of that [SetError] if there is one, and
    nothing after it: at most one failure notification, and a unit that
    fails after its tracing notification for success receives both. *)
Theorem tracing_notifications_of_a_run
        (H : Headers) (B : Build) (Exception : Type)
        (GetHR : Exception -> HRESULT) (DomainBoundClone : Exception -> Exception)
        (ext : list Event -> Event -> Answer Exception)
        (cs : list (Call Exception)) (w : World Exception) :
  IsError (this w) = false ->
  m_pModule (this w) <> None ->
  respects_contract GetHR DomainBoundClone ext cs w = true ->
  etw_notifications (calls (run GetHR DomainBoundClone ext cs w))
  = etw_notifications (calls w)
    ++ repeat S_OK (deliveries cs)
    ++ match first_error cs with Some ex => [GetHR ex] | None => [] end.
Proof.
  revert w. induction cs as [| c cs IH]; intros w He Mo Hc.
  - cbn. rewrite app_nil_r. reflexivity.
  - cbn [run respects_contract deliveries first_error] in *.
    apply andb_true_iff in Hc. destruct Hc as [_ Hc].
    destruct c as [level | ex].
    + cbn [step] in *.
      destruct (DoIncrementalLoad_effect ext level w He) as [(E & M & _) K].
      rewrite IH; [| | congruence | exact Hc].
      * rewrite E, repeat_app, <- !app_assoc. f_equal. f_equal.
        unfold sent_if_module.
        destruct (m_pModule (this w)); [| contradiction].
        destruct (level =? FILE_LOAD_DELIVER_EVENTS); reflexivity.
      * unfold IsError in *. rewrite K. exact He.
    + cbn [step] in *.
      destruct (SetError_effect GetHR DomainBoundClone ext ex w) as [(E & M & _) K].
      rewrite run_after_error; [| | exact Hc].
      * rewrite E. unfold sent_if_module.
        destruct (m_pModule (this w)); [reflexivity | contradiction].
      * unfold IsError. rewrite K. reflexivity.
Qed.

Lemma tracing_notifications_of_a_run_witness :
  let cs := [Call_DoIncrementalLoad FILE_LOAD_BEFORE_TYPE_LOAD;
             Call_DoIncrementalLoad FILE_LOAD_DELIVER_EVENTS;
             Call_SetError E_FAIL;
             Call_DoIncrementalLoad FILE_LOAD_DELIVER_EVENTS] in
  @respects_contract clr_headers full_build HRESULT hr_GetHR hr_DomainBoundClone
     obliging cs a_unit = true /\
  etw_notifications
    (calls (@run clr_headers full_build HRESULT hr_GetHR hr_DomainBoundClone
              obliging cs a_unit))
  = [] ++ [@S_OK clr_headers] ++ [E_FAIL].
Proof.
  cbv zeta. split; [reflexivity |].
  apply (tracing_notifications_of_a_run clr_headers full_build HRESULT hr_GetHR
           hr_DomainBoundClone obliging
           [Call_DoIncrementalLoad FILE_LOAD_BEFORE_TYPE_LOAD;
            Call_DoIncrementalLoad FILE_LOAD_DELIVER_EVENTS;
            Call_SetError E_FAIL;
            Call_DoIncrementalLoad FILE_LOAD_DELIVER_EVENTS] a_unit).
  - reflexivity.
  - vm_compute. discriminate.
  - reflexivity.
Defined.

(** C4: over every sequence of [DoIncrementalLoad] and [SetError] calls on a
    unit that starts with its profiler flag unset and no profiler
    notification sent, the profiler sink is notified at most once; and, in a
    build with profiling, exactly once as soon as one call of the sequence
    reaches one of the three places that test the flag (the BEFORE_TYPE_LOAD
    step, the DELIVER_EVENTS step, [SetError]) on a unit whose module is
    present. *)
Theorem profiler_notified_once
        (H : Headers) (B : Build) (Exception : Type)
        (GetHR : Exception -> HRESULT) (DomainBoundClone : Exception -> Exception)
        (ext : list Event -> Event -> Answer Exception)
        (cs : list (Call Exception)) (w : World Exception) :
  IsProfilerNotified (this w) = false ->
  profiler_notifications (calls w) = [] ->
  (length (profiler_notifications
             (calls (run GetHR DomainBoundClone ext cs w))) <= 1)%nat /\
  (PROFILING_SUPPORTED = true ->
   forall pre c post,
     cs = pre ++ c :: post ->
     reaches_profiler_site GetHR ext c (run GetHR DomainBoundClone ext pre w) = true ->
     length (profiler_notifications
               (calls (run GetHR DomainBoundClone ext cs w))) = 1%nat).
Proof.
  intros F P.
  assert (A0 : at_most_flag w).
  { unfold at_most_flag. rewrite F, P. cbn. lia. }
  assert (E0 : exactly_flag w).
  { unfold exactly_flag. rewrite F, P. reflexivity. }
  split.
  - destruct (run_invariants GetHR DomainBoundClone ext cs w) as (_ & A & _ & _).
    specialize (A A0). unfold at_most_flag in A.
    destruct (IsProfilerNotified (this (run GetHR DomainBoundClone ext cs w))); lia.
  - intros Pr pre c post Hcs R.
    destruct (run_invariants GetHR DomainBoundClone ext pre w) as (Mpre & _ & _ & _).
    assert (Mo : m_pModule (this w) <> None).
    { rewrite <- Mpre. unfold reaches_profiler_site in R.
      destruct (m_pModule (this (run GetHR DomainBoundClone ext pre w)));
        [discriminate | discriminate R]. }
    destruct (run_invariants GetHR DomainBoundClone ext cs w) as (_ & _ & E & _).
    specialize (E Pr Mo E0). unfold exactly_flag in E. rewrite E.
    assert (S : IsProfilerNotified (this (run GetHR DomainBoundClone ext cs w)) = true).
    { subst cs. rewrite run_app. cbn [run].
      destruct (run_invariants GetHR DomainBoundClone ext post
                  (step GetHR DomainBoundClone ext c
                     (run GetHR DomainBoundClone ext pre w))) as (_ & _ & _ & K).
      apply K. apply reaching_sets_flag; assumption. }
    rewrite S. reflexivity.
Qed.

Lemma profiler_notified_once_witness :
  IsProfilerNotified (this a_unit) = false /\
  profiler_notifications (calls a_unit) = [] /\
  length (profiler_notifications
            (calls (@run clr_headers full_build HRESULT hr_GetHR hr_DomainBoundClone
                      obliging (every_stage ++ [Call_SetError E_FAIL]) a_unit)))
  = 1%nat.
Proof.
  assert (F : IsProfilerNotified (this a_unit) = false) by reflexivity.
  assert (P : profiler_notifications (calls a_unit) = []) by reflexivity.
  split; [exact F |]. split; [exact P |].
  apply (proj2 (profiler_notified_once clr_headers full_build HRESULT hr_GetHR
                  hr_DomainBoundClone obliging
                  (every_stage ++ [Call_SetError E_FAIL]) a_unit F P)
           eq_refl
           [Call_DoIncrementalLoad FILE_LOAD_BEGIN]
           (Call_DoIncrementalLoad FILE_LOAD_BEFORE_TYPE_LOAD)
           [Call_DoIncrementalLoad FILE_LOAD_EAGER_FIXUPS;
            Call_DoIncrementalLoad FILE_LOAD_DELIVER_EVENTS;
            Call_DoIncrementalLoad FILE_LOAD_VTABLE_FIXUPS;
            Call_DoIncrementalLoad FILE_LOADED;
            Call_DoIncrementalLoad FILE_ACTIVE;
            Call_SetError E_FAIL]).
  - reflexivity.
  - reflexivity.
Defined.

(** * More on the debuggable-attribute decoding *)

Section DecodingFacts.
Context {H : Headers} {B : Build}.

Lemma testbit_decoded_flags (b2 b3 : BYTE) (dwFlags : DWORD) (i : Z) :
  0 <= i < 32 ->
  Z.testbit DACF_OBSOLETE_TRACK_JIT_INFO i = false ->
  Z.testbit DACF_IGNORE_PDBS i = false ->
  Z.testbit DACF_ALLOW_JIT_OPTS i = false ->
  Z.testbit (decoded_flags b2 b3 dwFlags) i = Z.testbit dwFlags i.
Proof.
  intros [Hi Hlt] Ht Hp Ho. apply Z.ltb_lt in Hlt. unfold decoded_flags.
  destruct (truthy (Z.land b2 1)), (truthy (Z.land b2 2)),
    ((Z.land b2 1 =? 0) || (b3 =? 0));
    rewrite ?testbit_or_assign, ?testbit_and_not_assign by assumption;
    rewrite ?testbit_or_assign, ?testbit_and_not_assign by assumption;
    rewrite ?testbit_or_assign, ?testbit_and_not_assign by assumption;
    rewrite ?Ht, ?Hp, ?Ho, ?Hlt;
    destruct (Z.testbit dwFlags i); reflexivity.
Qed.

Lemma in_DWORD_bits (x : Z) :
  in_DWORD x <-> to_DWORD x = x.
Proof.
  unfold in_DWORD, to_DWORD. split.
  - intros Hx. apply Z.mod_small. exact Hx.
  - intros E. rewrite <- E. apply Z.mod_pos_bound. lia.
Qed.

Lemma or_assign_in_DWORD (f m : Z) : in_DWORD f -> in_DWORD (or_assign f m).
Proof.
  rewrite !in_DWORD_bits. intros Hf. apply Z.bits_inj'. intros i Hi.
  rewrite testbit_to_DWORD, testbit_or_assign.
  rewrite <- Hf at 1 2. rewrite testbit_to_DWORD.
  destruct (i <? 32), (Z.testbit f i), (Z.testbit m i); reflexivity.
Qed.

Lemma and_not_assign_in_DWORD (f m : Z) : in_DWORD f -> in_DWORD (and_not_assign f m).
Proof.
  rewrite !in_DWORD_bits. intros Hf. apply Z.bits_inj'. intros i Hi.
  rewrite testbit_to_DWORD, testbit_and_not_assign by assumption.
  destruct (i <? 32), (Z.testbit f i), (Z.testbit m i); reflexivity.
Qed.

Lemma decoded_flags_in_DWORD (b2 b3 : BYTE) (dwFlags : DWORD) :
  in_DWORD dwFlags -> in_DWORD (decoded_flags b2 b3 dwFlags).
Proof.
  intros Hf. unfold decoded_flags.
  destruct (truthy (Z.land b2 1)), (truthy (Z.land b2 2)),
    ((Z.land b2 1 =? 0) || (b3 =? 0));
    repeat first [apply or_assign_in_DWORD | apply and_not_assign_in_DWORD];
    exact Hf.
Qed.

Lemma decoded_flags_idempotent (b2 b3 : BYTE) (dwFlags : DWORD) :
  decoded_flags b2 b3 (decoded_flags b2 b3 dwFlags) = decoded_flags b2 b3 dwFlags.
Proof.
  unfold decoded_flags.
  destruct (truthy (Z.land b2 1)), (truthy (Z.land b2 2)),
    ((Z.land b2 1 =? 0) || (b3 =? 0));
    apply Z.bits_inj'; intros i Hi;
    repeat (rewrite ?testbit_or_assign; rewrite ?testbit_and_not_assign by assumption);
    destruct (Z.testbit dwFlags i), (i <? 32),
      (Z.testbit DACF_OBSOLETE_TRACK_JIT_INFO i), (Z.testbit DACF_IGNORE_PDBS i),
      (Z.testbit DACF_ALLOW_JIT_OPTS i); reflexivity.
Qed.

Lemma GetDebuggingCustomAttributes_flags (md : CustomAttribute) (dwFlags : DWORD) :
  snd (GetDebuggingCustomAttributes md dwFlags) = dwFlags \/
  snd (GetDebuggingCustomAttributes md dwFlags)
  = decoded_flags (at_index (ca_blob md) 2) (at_index (ca_blob md) 3) dwFlags.
Proof.
  unfold GetDebuggingCustomAttributes.
  destruct (negb _); [| left; reflexivity].
  destruct (_ || _); [| left; reflexivity].
  destruct (negb _); [left | right]; reflexivity.
Qed.

Lemma decoded_flags_other_bits (b2 b3 : BYTE) (dwFlags : DWORD) (i : Z) :
  in_DWORD dwFlags ->
  Z.testbit DACF_OBSOLETE_TRACK_JIT_INFO i = false ->
  Z.testbit DACF_IGNORE_PDBS i = false ->
  Z.testbit DACF_ALLOW_JIT_OPTS i = false ->
  Z.testbit (decoded_flags b2 b3 dwFlags) i = Z.testbit dwFlags i.
Proof.
  intros Hf Ht Hp Ho.
  destruct (Z.ltb_spec i 0) as [Hneg | Hi].
  { rewrite !Z.testbit_neg_r by assumption. reflexivity. }
  destruct (Z.ltb_spec i 32) as [Hlt | Hge].
  { apply testbit_decoded_flags; [lia | assumption ..]. }
  pose proof (decoded_flags_in_DWORD b2 b3 dwFlags Hf) as Hd.
  apply in_DWORD_bits in Hd. apply in_DWORD_bits in Hf.
  rewrite <- Hd, <- Hf, !testbit_to_DWORD.
  assert (E : (i <? 32) = false) by (apply Z.ltb_ge; lia).
  rewrite E. reflexivity.
Qed.

End DecodingFacts.

(** X1: for every found blob of size 6 or 8 with the header [1,0], the call
    returns the lookup's result code and the three masks follow the blob:
    tracking as bit 0 of byte 2 says, DACF_IGNORE_PDBS as bit 1 of byte 2
    says, and optimizations allowed exactly when tracking is off or byte 3 is
    zero. *)
Theorem decoding_follows_the_blob
        (H : Headers) (hr : HRESULT) (blob : list BYTE) (size : ULONG)
        (dwFlags : DWORD) :
  dacf_masks_disjoint H -> attribute_found hr ->
  size = 6 \/ size = 8 ->
  at_index blob 0 = 1 -> at_index blob 1 = 0 ->
  let r := GetDebuggingCustomAttributes
             {| ca_hr := hr; ca_blob := blob; ca_size := size |} dwFlags in
  let b2 := at_index blob 2 in
  let b3 := at_index blob 3 in
  fst r = hr /\
  (if truthy (Z.land b2 1)
   then flag_set DACF_OBSOLETE_TRACK_JIT_INFO (snd r)
   else flag_clear DACF_OBSOLETE_TRACK_JIT_INFO (snd r)) /\
  (if truthy (Z.land b2 2)
   then flag_set DACF_IGNORE_PDBS (snd r)
   else flag_clear DACF_IGNORE_PDBS (snd r)) /\
  (if (Z.land b2 1 =? 0) || (b3 =? 0)
   then flag_set DACF_ALLOW_JIT_OPTS (snd r)
   else flag_clear DACF_ALLOW_JIT_OPTS (snd r)).
Proof.
  intros Hwf Hfound Hsize H0 H1. cbv zeta.
  rewrite (GetDebuggingCustomAttributes_well_formed hr blob size dwFlags)
    by assumption.
  cbn [fst snd]. split; [reflexivity |]. split; [| split].
  - apply decoded_tracking. exact Hwf.
  - apply decoded_ignore_pdbs. exact Hwf.
  - apply decoded_allow_jit_opts. destruct Hwf as [[Ro _] _]. exact Ro.
Qed.

Lemma decoding_follows_the_blob_witness :
  let r := @GetDebuggingCustomAttributes clr_headers
             {| ca_hr := 0; ca_blob := [1; 0; 1; 0; 0; 0; 0; 0]; ca_size := 8 |} 32 in
  fst r = 0 /\ flag_set 4 (snd r) /\ flag_clear 32 (snd r) /\ flag_set 2 (snd r).
Proof.
  exact (decoding_follows_the_blob clr_headers 0 [1; 0; 1; 0; 0; 0; 0; 0] 8 32
           clr_masks_disjoint clr_S_OK_found (or_intror eq_refl) eq_refl eq_refl).
Defined.

(** X2: decoding writes the three masks and nothing else: flags that fit a
    DWORD still fit one afterwards, and every bit that belongs to none of the
    three masks is left as it was, whatever the call returns. *)
Theorem decoding_keeps_other_flags
        (H : Headers) (md : CustomAttribute) (dwFlags : DWORD) :
  in_DWORD dwFlags ->
  in_DWORD (snd (GetDebuggingCustomAttributes md dwFlags)) /\
  (forall i,
     Z.testbit DACF_OBSOLETE_TRACK_JIT_INFO i = false ->
     Z.testbit DACF_IGNORE_PDBS i = false ->
     Z.testbit DACF_ALLOW_JIT_OPTS i = false ->
     Z.testbit (snd (GetDebuggingCustomAttributes md dwFlags)) i
     = Z.testbit dwFlags i).
Proof.
  intros Hf.
  destruct (GetDebuggingCustomAttributes_flags md dwFlags) as [E | E]; rewrite E.
  - split; [exact Hf | reflexivity].
  - split; [apply decoded_flags_in_DWORD; exact Hf |].
    intros i Ht Hp Ho. apply decoded_flags_other_bits; assumption.
Qed.

Lemma decoding_keeps_other_flags_witness :
  let f := snd (@GetDebuggingCustomAttributes clr_headers
                  {| ca_hr := 0; ca_blob := [1; 0; 3; 1; 0; 0]; ca_size := 6 |} 11) in
  in_DWORD f /\ Z.testbit f 0 = true /\ Z.testbit f 3 = true.
Proof.
  assert (Hf : in_DWORD 11) by (unfold in_DWORD; lia).
  pose proof (decoding_keeps_other_flags clr_headers
                {| ca_hr := 0; ca_blob := [1; 0; 3; 1; 0; 0]; ca_size := 6 |} 11 Hf)
    as [Hr Hb].
  cbv zeta. split; [exact Hr |]. split.
  - rewrite (Hb 0); reflexivity.
  - rewrite (Hb 3); reflexivity.
Defined.

(** X3: decoding is idempotent: applying [GetDebuggingCustomAttributes] to
    the flags it produced gives the same result code and the same flags. *)
Theorem decoding_twice_is_decoding_once
        (H : Headers) (md : CustomAttribute) (dwFlags : DWORD) :
  GetDebuggingCustomAttributes md (snd (GetDebuggingCustomAttributes md dwFlags))
  = GetDebuggingCustomAttributes md dwFlags.
Proof.
  unfold GetDebuggingCustomAttributes.
  destruct (negb _); [| reflexivity].
  destruct (_ || _); [| reflexivity].
  destruct (negb _); [reflexivity |].
  cbn [snd]. rewrite decoded_flags_idempotent. reflexivity.
Qed.

(** X4: only the result code, whether the size is 6 or 8, and bytes 0 to 3
    matter: two lookups that agree on these give the same result code and the
    same flags, so a 6-byte and an 8-byte blob decode alike and the trailing
    bytes are never read. *)
Theorem trailing_bytes_are_ignored
        (H : Headers) (md md' : CustomAttribute) (dwFlags : DWORD) :
  ca_hr md = ca_hr md' ->
  (ca_size md = 6 \/ ca_size md = 8) ->
  (ca_size md' = 6 \/ ca_size md' = 8) ->
  (forall i, (i < 4)%nat -> at_index (ca_blob md) i = at_index (ca_blob md') i) ->
  GetDebuggingCustomAttributes md dwFlags = GetDebuggingCustomAttributes md' dwFlags.
Proof.
  intros Hhr Hs Hs' Hb. unfold GetDebuggingCustomAttributes.
  rewrite <- Hhr, <- (Hb 0%nat), <- (Hb 1%nat), <- (Hb 2%nat), <- (Hb 3%nat) by lia.
  assert (E : (ca_size md =? 6) || (ca_size md =? 8) = true)
    by (destruct Hs as [E | E]; rewrite E; reflexivity).
  assert (E' : (ca_size md' =? 6) || (ca_size md' =? 8) = true)
    by (destruct Hs' as [E' | E']; rewrite E'; reflexivity).
  rewrite E, E'. reflexivity.
Qed.

Lemma trailing_bytes_are_ignored_witness :
  @GetDebuggingCustomAttributes clr_headers
    {| ca_hr := 0; ca_blob := [1; 0; 1; 1; 0; 0]; ca_size := 6 |} 2
  = @GetDebuggingCustomAttributes clr_headers
      {| ca_hr := 0; ca_blob := [1; 0; 1; 1; 7; 7; 7; 7]; ca_size := 8 |} 2.
Proof.
  apply (trailing_bytes_are_ignored clr_headers
           {| ca_hr := 0; ca_blob := [1; 0; 1; 1; 0; 0]; ca_size := 6 |}
           {| ca_hr := 0; ca_blob := [1; 0; 1; 1; 7; 7; 7; 7]; ca_size := 8 |} 2).
  - reflexivity.
  - left. reflexivity.
  - right. reflexivity.
  - intros i Hi.
    destruct i as [| [| [| [| i]]]]; [reflexivity | reflexivity | reflexivity
                                     | reflexivity | lia].
Defined.

(** X5: [ComputeDebuggingConfig], in a build with debugging support: a failed
    lookup is thrown as it is; a found blob of size 6 or 8 with a bad header
    is thrown as COR_E_BADIMAGEFORMAT (a failure code); and whenever the
    function returns, the flags it returns have no bit outside the three
    masks DACF_ALLOW_JIT_OPTS, DACF_OBSOLETE_TRACK_JIT_INFO and
    DACF_IGNORE_PDBS. *)
Theorem ComputeDebuggingConfig_outcomes
        (H : Headers) (B : Build) (Exception : Type) (md : CustomAttribute) :
  DEBUGGING_SUPPORTED = true ->
  (FAILED (ca_hr md) = true ->
   @ComputeDebuggingConfig H B Exception md = Throws (HRException (ca_hr md))) /\
  (FAILED COR_E_BADIMAGEFORMAT = true ->
   attribute_found (ca_hr md) ->
   ca_size md = 6 \/ ca_size md = 8 ->
   at_index (ca_blob md) 0 <> 1 \/ at_index (ca_blob md) 1 <> 0 ->
   @ComputeDebuggingConfig H B Exception md
   = Throws (HRException COR_E_BADIMAGEFORMAT)) /\
  (forall dacfFlags i,
     @ComputeDebuggingConfig H B Exception md = Returns dacfFlags ->
     Z.testbit dacfFlags i = true ->
     Z.testbit DACF_ALLOW_JIT_OPTS i = true \/
     Z.testbit DACF_OBSOLETE_TRACK_JIT_INFO i = true \/
     Z.testbit DACF_IGNORE_PDBS i = true).
Proof.
  intros Hdbg. unfold ComputeDebuggingConfig. rewrite Hdbg. split; [| split].
  - intros Hf. unfold GetDebuggingCustomAttributes, IfFailThrow.
    rewrite Hf. cbn. rewrite Hf. reflexivity.
  - intros Hbad Hfound Hsize Hhdr.
    unfold GetDebuggingCustomAttributes.
    rewrite (found_guard _ Hfound).
    assert (Hs : (ca_size md =? 6) || (ca_size md =? 8) = true)
      by (destruct Hsize as [E | E]; rewrite E; reflexivity).
    rewrite Hs.
    assert (Hb : (at_index (ca_blob md) 0 =? 1) && (at_index (ca_blob md) 1 =? 0)
                 = false).
    { apply andb_false_iff.
      destruct Hhdr as [N | N]; [left | right]; apply Z.eqb_neq; exact N. }
    rewrite Hb. cbn. unfold IfFailThrow. rewrite Hbad. reflexivity.
  - intros dacfFlags i.
    destruct (GetDebuggingCustomAttributes md (to_DWORD DACF_ALLOW_JIT_OPTS))
      as [hr f] eqn:E.
    unfold IfFailThrow. destruct (FAILED hr); [discriminate |].
    intros R Hbit. injection R as R. subst f.
    destruct (Z.testbit DACF_ALLOW_JIT_OPTS i) eqn:Ho; [auto |].
    destruct (Z.testbit DACF_OBSOLETE_TRACK_JIT_INFO i) eqn:Ht; [auto |].
    destruct (Z.testbit DACF_IGNORE_PDBS i) eqn:Hp; [auto |].
    exfalso.
    assert (Hin : in_DWORD (to_DWORD DACF_ALLOW_JIT_OPTS)).
    { unfold in_DWORD, to_DWORD. apply Z.mod_pos_bound. lia. }
    destruct (GetDebuggingCustomAttributes_flags md (to_DWORD DACF_ALLOW_JIT_OPTS))
      as [K | K]; rewrite E in K; cbn [snd] in K; subst dacfFlags.
    + rewrite testbit_to_DWORD, Ho, andb_false_r in Hbit. discriminate Hbit.
    + rewrite (decoded_flags_other_bits _ _ _ i Hin Ht Hp Ho) in Hbit.
      rewrite testbit_to_DWORD, Ho, andb_false_r in Hbit. discriminate Hbit.
Qed.

Lemma ComputeDebuggingConfig_outcomes_witness :
  @ComputeDebuggingConfig clr_headers full_build HRESULT
     {| ca_hr := E_FAIL; ca_blob := []; ca_size := 0 |}
  = Throws (HRException E_FAIL) /\
  @ComputeDebuggingConfig clr_headers full_build HRESULT
     {| ca_hr := 0; ca_blob := [2; 0; 0; 0; 0; 0]; ca_size := 6 |}
  = Throws (HRException (@COR_E_BADIMAGEFORMAT clr_headers)) /\
  (Z.testbit 36 5 = true ->
   Z.testbit 2 5 = true \/ Z.testbit 4 5 = true \/ Z.testbit 32 5 = true).
Proof.
  split; [| split].
  - apply (proj1 (ComputeDebuggingConfig_outcomes clr_headers full_build HRESULT
                    {| ca_hr := E_FAIL; ca_blob := []; ca_size := 0 |} eq_refl)).
    reflexivity.
  - apply (proj1 (proj2 (ComputeDebuggingConfig_outcomes clr_headers full_build HRESULT
                    {| ca_hr := 0; ca_blob := [2; 0; 0; 0; 0; 0]; ca_size := 6 |}
                    eq_refl))).
    + reflexivity.
    + exact clr_S_OK_found.
    + left. reflexivity.
    + left. cbn. discriminate.
  - apply (proj2 (proj2 (ComputeDebuggingConfig_outcomes clr_headers full_build HRESULT
                    {| ca_hr := 0; ca_blob := [1; 0; 3; 1; 0; 0]; ca_size := 6 |}
                    eq_refl)) 36 5).
    reflexivity.
Defined.

(** * More on the level checks *)

(** X6: the throwing and the non-throwing forms of the level checks agree,
    and neither changes the unit: [ThrowIfError(target)] returns normally
    exactly when [CheckNoError(target)] passes, and [RequireLoadLevel(target)]
    returns normally exactly when [CheckLoadLevel(target, FALSE)] passes. *)
Theorem throwing_checks_agree_with_CHECKs
        (H : Headers) (Exception : Type)
        (CheckLoading : DomainAssembly Exception -> FileLoadLevel -> bool)
        (w : World Exception) (targetLevel : FileLoadLevel) :
  (ThrowIfError targetLevel w = (w, Returns tt)
   <-> CheckNoError targetLevel (this w) = true) /\
  (RequireLoadLevel targetLevel w = (w, Returns tt)
   <-> CheckLoadLevel CheckLoading targetLevel false (this w) = true) /\
  fst (ThrowIfError targetLevel w) = w /\
  fst (RequireLoadLevel targetLevel w) = w.
Proof.
  unfold CheckNoError, CheckLoadLevel, IsError.
  destruct (Z.leb_spec targetLevel (m_level (this w))) as [Hge | Hlt].
  - assert (E : (m_level (this w) <? targetLevel) = false) by (apply Z.ltb_ge; lia).
    rewrite (RequireLoadLevel_reached w targetLevel Hge).
    unfold ThrowIfError, bind, get, ret. rewrite E. cbn.
    repeat split; reflexivity.
  - destruct (m_pError (this w)) as [pError |] eqn:He.
    + rewrite (ThrowIfError_below w targetLevel pError Hlt He).
      rewrite (RequireLoadLevel_error w targetLevel pError Hlt He). cbn.
      repeat split; try discriminate; reflexivity.
    + rewrite (ThrowIfError_no_error w targetLevel He).
      rewrite (RequireLoadLevel_in_progress w targetLevel Hlt He). cbn.
      repeat split; try discriminate; reflexivity.
Qed.

(** X7: a lower target is easier: if [CheckNoError], [CheckLoadLevel(.,
    FALSE)], [ThrowIfError] or [RequireLoadLevel] accepts a target, each
    accepts every lower target. *)
Theorem lower_targets_are_accepted
        (H : Headers) (Exception : Type)
        (CheckLoading : DomainAssembly Exception -> FileLoadLevel -> bool)
        (w : World Exception) (targetLevel lowerLevel : FileLoadLevel) :
  lowerLevel <= targetLevel ->
  (CheckNoError targetLevel (this w) = true ->
   CheckNoError lowerLevel (this w) = true) /\
  (CheckLoadLevel CheckLoading targetLevel false (this w) = true ->
   CheckLoadLevel CheckLoading lowerLevel false (this w) = true) /\
  (ThrowIfError targetLevel w = (w, Returns tt) ->
   ThrowIfError lowerLevel w = (w, Returns tt)) /\
  (RequireLoadLevel targetLevel w = (w, Returns tt) ->
   RequireLoadLevel lowerLevel w = (w, Returns tt)).
Proof.
  intros Hle.
  assert (Hno : CheckNoError targetLevel (this w) = true ->
                CheckNoError lowerLevel (this w) = true).
  { unfold CheckNoError. rewrite !orb_true_iff, !Z.leb_le. intros [Hl | Hn]; [left; lia | right; exact Hn]. }
  split; [exact Hno |]. split; [| split].
  - unfold CheckLoadLevel. rewrite !Z.leb_le. lia.
  - intros Ht. destruct (m_pError (this w)) as [pError |] eqn:He.
    + destruct (Z.ltb_spec (m_level (this w)) targetLevel) as [Hlt | Hge].
      * rewrite (ThrowIfError_below w targetLevel pError Hlt He) in Ht.
        discriminate Ht.
      * unfold ThrowIfError, bind, get, ret.
        assert (E : (m_level (this w) <? lowerLevel) = false) by (apply Z.ltb_ge; lia).
        rewrite E. reflexivity.
    + apply ThrowIfError_no_error. exact He.
  - intros Ht. destruct (Z.ltb_spec (m_level (this w)) targetLevel) as [Hlt | Hge].
    + destruct (m_pError (this w)) as [pError |] eqn:He.
      * rewrite (RequireLoadLevel_error w targetLevel pError Hlt He) in Ht.
        discriminate Ht.
      * rewrite (RequireLoadLevel_in_progress w targetLevel Hlt He) in Ht.
        discriminate Ht.
    + apply RequireLoadLevel_reached. lia.
Qed.

Lemma lower_targets_are_accepted_witness :
  CheckNoError FILE_LOAD_CREATE (this a_failed_unit) = true /\
  @RequireLoadLevel clr_headers HRESULT FILE_LOAD_BEGIN an_activated_unit
  = (an_activated_unit, Returns tt).
Proof.
  split.
  - apply (proj1 (lower_targets_are_accepted clr_headers HRESULT never_passes
                    a_failed_unit FILE_LOAD_CREATE FILE_LOAD_CREATE (Z.le_refl _))).
    reflexivity.
  - apply (proj2 (proj2 (proj2
             (lower_targets_are_accepted clr_headers HRESULT never_passes
                an_activated_unit FILE_LOADED FILE_LOAD_BEGIN
                ltac:(vm_compute; discriminate))))).
    reflexivity.
Defined.

(** X8: [CheckActivated] is at least as strong as [CheckLoaded]: provided a
    unit that is active counts as loaded, every unit that passes
    [CheckActivated] passes [CheckLoaded]. *)
Theorem CheckActivated_implies_CheckLoaded
        (H : Headers) (Exception : Type)
        (IsLoaded : DomainAssembly Exception -> bool)
        (CheckLoading : DomainAssembly Exception -> FileLoadLevel -> bool)
        (d : DomainAssembly Exception) :
  (IsActive d = true -> IsLoaded d = true) ->
  CheckActivated IsLoaded CheckLoading d = true ->
  CheckLoaded IsLoaded d = true.
Proof.
  intros Hal. unfold CheckActivated, CheckLoaded.
  assert (Hno : CheckNoError FILE_ACTIVE d = true -> CheckNoError FILE_LOADED d = true).
  { unfold CheckNoError, FILE_ACTIVE, FILE_LOADED.
    rewrite !orb_true_iff, !Z.leb_le. intros [Hl | Hn]; [left; lia | right; exact Hn]. }
  destruct (CheckNoError FILE_ACTIVE d) eqn:Ea; cbn [negb]; [| discriminate].
  rewrite (Hno eq_refl). cbn [negb].
  destruct (IsActive d) eqn:Eact.
  { intros _. rewrite (Hal eq_refl). reflexivity. }
  destruct (IsLoaded d); [reflexivity |].
  destruct (PE_IsSystem (m_pPEAssembly d)); [reflexivity |].
  destruct (PE_IsLoaded (m_pPEAssembly d)); cbn [negb]; [reflexivity | discriminate].
Qed.

Lemma CheckActivated_implies_CheckLoaded_witness :
  @CheckActivated clr_headers HRESULT loaded_from_LOADED never_passes
     (this an_activated_unit) = true /\
  CheckLoaded loaded_from_LOADED (this an_activated_unit) = true.
Proof.
  assert (Ha : @CheckActivated clr_headers HRESULT loaded_from_LOADED never_passes
                 (this an_activated_unit) = true) by reflexivity.
  split; [exact Ha |].
  apply (CheckActivated_implies_CheckLoaded clr_headers HRESULT loaded_from_LOADED
           never_passes (this an_activated_unit)).
  - vm_compute. discriminate.
  - exact Ha.
Defined.

(** X9: the exemption of the system image comes after the error check and
    never overrides it: for the system image [CheckLoaded] passes exactly
    when [CheckNoError(FILE_LOADED)] does and [CheckActivated] exactly when
    [CheckNoError(FILE_ACTIVE)] does, whatever the level, the image's load
    state and the activation flag. *)
Theorem system_image_checks
        (H : Headers) (Exception : Type)
        (IsLoaded : DomainAssembly Exception -> bool)
        (CheckLoading : DomainAssembly Exception -> FileLoadLevel -> bool)
        (d : DomainAssembly Exception) :
  PE_IsSystem (m_pPEAssembly d) = true ->
  CheckLoaded IsLoaded d = CheckNoError FILE_LOADED d /\
  CheckActivated IsLoaded CheckLoading d = CheckNoError FILE_ACTIVE d.
Proof.
  intros Hs. unfold CheckLoaded, CheckActivated. rewrite Hs. split.
  - destruct (CheckNoError FILE_LOADED d); cbn [negb]; [| reflexivity].
    destruct (IsLoaded d); reflexivity.
  - destruct (CheckNoError FILE_ACTIVE d); cbn [negb]; [| reflexivity].
    destruct (IsActive d); reflexivity.
Qed.

(** X10: [EnsureLoadLevel] on a unit that is still loading does what the
    Domain Loader did and then requires one level less than asked: what the
    loader throws is passed on; if it returns, the call returns normally as
    soon as the unit is at most one level short of the target, re-raises the
    captured error when it is shorter and an error is captured, and raises
    MSEE_E_ASSEMBLYLOADINPROGRESS when it is shorter and no error is
    captured.  It changes nothing the loader did not change. *)
Theorem EnsureLoadLevel_while_still_loading
        (H : Headers) (Exception : Type)
        (LoadDomainAssembly : FileLoadLevel -> M Exception unit)
        (w w1 : World Exception) (targetLevel : FileLoadLevel) :
  IsLoading (this w) = true ->
  (forall t, LoadDomainAssembly targetLevel w = (w1, Throws t) ->
     EnsureLoadLevel LoadDomainAssembly targetLevel w = (w1, Throws t)) /\
  (LoadDomainAssembly targetLevel w = (w1, Returns tt) ->
   (targetLevel - 1 <= m_level (this w1) ->
    EnsureLoadLevel LoadDomainAssembly targetLevel w = (w1, Returns tt)) /\
   (m_level (this w1) < targetLevel - 1 ->
    forall pError, m_pError (this w1) = Some pError ->
    EnsureLoadLevel LoadDomainAssembly targetLevel w
    = (w1, Throws (Rethrown pError))) /\
   (m_level (this w1) < targetLevel - 1 ->
    m_pError (this w1) = None ->
    EnsureLoadLevel LoadDomainAssembly targetLevel w
    = (w1, Throws (HRException MSEE_E_ASSEMBLYLOADINPROGRESS)))).
Proof.
  intros Hl. unfold EnsureLoadLevel. rewrite bind_get, Hl. unfold bind. split.
  - intros t Ht. rewrite Ht. reflexivity.
  - intros Hr. rewrite Hr. split; [| split].
    + apply RequireLoadLevel_reached.
    + intros Hlt pError He. apply RequireLoadLevel_error; assumption.
    + apply RequireLoadLevel_in_progress.
Qed.

Lemma EnsureLoadLevel_while_still_loading_witness :
  IsLoading (this a_unit) = true /\
  @EnsureLoadLevel clr_headers HRESULT idle_loader FILE_LOAD_BEGIN a_unit
  = (a_unit, Returns tt) /\
  @EnsureLoadLevel clr_headers HRESULT idle_loader FILE_LOADED a_unit
  = (a_unit, Throws (HRException (@MSEE_E_ASSEMBLYLOADINPROGRESS clr_headers))).
Proof.
  assert (Hl : IsLoading (this a_unit) = true) by reflexivity.
  pose proof (EnsureLoadLevel_while_still_loading clr_headers HRESULT idle_loader
                a_unit a_unit FILE_LOAD_BEGIN Hl) as [_ H1].
  pose proof (EnsureLoadLevel_while_still_loading clr_headers HRESULT idle_loader
                a_unit a_unit FILE_LOADED Hl) as [_ H6].
  split; [exact Hl |]. split.
  - apply (proj1 (H1 eq_refl)). vm_compute. discriminate.
  - apply (proj2 (proj2 (H6 eq_refl))); reflexivity.
Defined.

(** X11: [EnsureLoadLevel] on a unit that is no longer loading never drives
    anything: it leaves the unit as it is, and it returns normally whenever
    the level is reached or no error is captured, so also for a target the
    unit never reached when no error is captured. *)
Theorem EnsureLoadLevel_when_not_loading
        (H : Headers) (Exception : Type)
        (LoadDomainAssembly : FileLoadLevel -> M Exception unit)
        (w : World Exception) (targetLevel : FileLoadLevel) :
  IsLoading (this w) = false ->
  fst (EnsureLoadLevel LoadDomainAssembly targetLevel w) = w /\
  (EnsureLoadLevel LoadDomainAssembly targetLevel w = (w, Returns tt)
   <-> (targetLevel <= m_level (this w) \/ m_pError (this w) = None)).
Proof.
  intros Hl. rewrite (EnsureLoadLevel_not_loading LoadDomainAssembly w targetLevel Hl).
  destruct (m_pError (this w)) as [pError |] eqn:He.
  - destruct (Z.ltb_spec (m_level (this w)) targetLevel) as [Hlt | Hge].
    + rewrite (ThrowIfError_below w targetLevel pError Hlt He). cbn.
      split; [reflexivity |]. split; [discriminate |].
      intros [Hc | Hc]; [lia | discriminate].
    + unfold ThrowIfError, bind, get, ret.
      assert (E : (m_level (this w) <? targetLevel) = false) by (apply Z.ltb_ge; lia).
      rewrite E. cbn. split; [reflexivity |]. split; [left; lia | reflexivity].
  - rewrite (ThrowIfError_no_error w targetLevel He). cbn.
    split; [reflexivity |]. split; [right; reflexivity | reflexivity].
Qed.

Lemma EnsureLoadLevel_when_not_loading_witness :
  IsLoading (this a_frozen_unit) = false /\
  @EnsureLoadLevel clr_headers HRESULT idle_loader FILE_LOAD_CREATE a_frozen_unit
  = (a_frozen_unit, Returns tt).
Proof.
  assert (Hl : IsLoading (this a_frozen_unit) = false) by reflexivity.
  split; [exact Hl |].
  apply (proj2 (EnsureLoadLevel_when_not_loading clr_headers HRESULT idle_loader
                  a_frozen_unit FILE_LOAD_CREATE Hl)).
  left. vm_compute. discriminate.
Defined.

Lemma system_image_checks_witness :
  PE_IsSystem (m_pPEAssembly a_system_unit) = true /\
  m_level a_system_unit = FILE_LOAD_CREATE /\
  CheckLoaded loaded_from_LOADED a_system_unit = true /\
  @CheckActivated clr_headers HRESULT loaded_from_LOADED never_passes a_system_unit
  = true.
Proof.
  assert (Hs : PE_IsSystem (m_pPEAssembly a_system_unit) = true) by reflexivity.
  destruct (system_image_checks clr_headers HRESULT loaded_from_LOADED never_passes
              a_system_unit Hs) as [Hl Ha].
  split; [exact Hs |]. split; [reflexivity |]. split.
  - rewrite Hl. reflexivity.
  - rewrite Ha. reflexivity.
Defined.

(** * What the calls write *)

Section Frames.
Context {H : Headers} {B : Build} {Exception : Type}.
Variable GetHR : Exception -> HRESULT.
Variable DomainBoundClone : Exception -> Exception.
Variable ext : list Event -> Event -> Answer Exception.

(** A relation between units that every update made by the file respects. *)
Variable R : DomainAssembly Exception -> DomainAssembly Exception -> Prop.
Hypothesis R_refl : forall d, R d d.
Hypothesis R_trans : forall d1 d2 d3, R d1 d2 -> R d2 d3 -> R d1 d3.
Hypothesis R_profiler : related R (SetProfilerNotified Exception).
Hypothesis R_debugger : related R (SetDebuggerNotified Exception).
Hypothesis R_should : related R (SetShouldNotifyDebugger Exception).
Hypothesis R_disable :
  related R (modify Exception (set_disable_activation_check Exception true)).
Hypothesis R_published :
  related R (modify Exception (set_host_assembly_published Exception true)).
Hypothesis R_level : related R (modify Exception (set_level Exception FILE_LOADED)).
Hypothesis R_error :
  forall e, related R (modify Exception (set_error Exception e)).

Lemma related_ret {A : Type} (a : A) : related R (ret Exception a).
Proof. intros w. apply R_refl. Qed.

Lemma related_throw {A : Type} (t : Thrown Exception) :
  related R (@throw Exception A t).
Proof. intros w. apply R_refl. Qed.

Lemma related_fault {A : Type} : related R (@fault Exception A).
Proof. intros w. apply R_refl. Qed.

Lemma related_get : related R (get Exception).
Proof. intros w. apply R_refl. Qed.

Lemma related_globals : related R (globals Exception).
Proof. intros w. apply R_refl. Qed.

Lemma related_bind {A C : Type} (m : M Exception A) (k : A -> M Exception C) :
  related R m -> (forall a, related R (k a)) -> related R (bind Exception m k).
Proof.
  intros Hm Hk w. unfold bind. specialize (Hm w).
  destruct (m w) as [w1 [a | t |]]; cbn [fst] in *; try exact Hm.
  apply (R_trans _ (this w1)); [exact Hm | apply Hk].
Qed.

Lemma bind_related_tail {A C : Type} (m : M Exception A) (k : A -> M Exception C)
      (w : World Exception) :
  (forall a, related R (k a)) ->
  R (this (fst (m w))) (this (fst (bind Exception m k w))).
Proof.
  intros Hk. unfold bind.
  destruct (m w) as [w1 [a | t |]]; cbn [fst]; [apply Hk | apply R_refl | apply R_refl].
Qed.

Lemma related_call (e : Event) : related R (call Exception ext e).
Proof.
  intros w. unfold call. destruct (ext (calls w) e); apply R_refl.
Qed.

Lemma related_call_void (e : Event) : related R (call_void Exception ext e).
Proof.
  unfold call_void. apply related_bind; [apply related_call |].
  intros _. apply related_ret.
Qed.

Lemma related_call_nothrow (e : Event) : related R (call_nothrow Exception e).
Proof. intros w. apply R_refl. Qed.

Lemma related_GetModule {A : Type} (k : Module -> M Exception A) :
  (forall m, related R (k m)) -> related R (GetModule Exception k).
Proof.
  intros Hk w. unfold GetModule.
  destruct (m_pModule (this w)) as [m |]; [apply Hk | apply R_refl].
Qed.

Ltac related_step :=
  first
    [ apply related_ret | apply related_throw | apply related_fault
    | apply related_get | apply related_globals
    | apply related_call_void | apply related_call_nothrow | apply related_call
    | apply R_profiler | apply R_debugger | apply R_should
    | apply R_disable | apply R_published
    | apply related_GetModule; intros ?
    | apply related_bind; [| intros ?]
    | match goal with
      | |- related _ (if ?b then _ else _) => destruct b
      | |- related _ (match ?x with _ => _ end) => destruct x
      end ].

Lemma related_Begin : related R (Begin ext).
Proof. unfold Begin, RegisterWithHostAssembly. repeat related_step. Qed.

Lemma related_BeforeTypeLoad : related R (BeforeTypeLoad ext).
Proof. unfold BeforeTypeLoad. repeat related_step. Qed.

Lemma related_EagerFixups : related R (EagerFixups ext).
Proof. unfold EagerFixups. repeat related_step. Qed.

Lemma related_VtableFixups : related R (VtableFixups ext).
Proof. unfold VtableFixups. repeat related_step. Qed.

Lemma related_Activate : related R (Activate ext).
Proof. unfold Activate. repeat related_step. Qed.

Lemma related_NotifyDebuggerLoad (flags : Z) (attaching : bool) :
  related R (NotifyDebuggerLoad ext flags attaching).
Proof. unfold NotifyDebuggerLoad. repeat related_step. Qed.

Lemma related_DeliverSyncEvents : related R (DeliverSyncEvents ext).
Proof.
  unfold DeliverSyncEvents.
  repeat first [apply related_NotifyDebuggerLoad | related_step].
Qed.

Lemma related_FinishLoad : related R (FinishLoad ext).
Proof.
  unfold FinishLoad. apply related_bind; [apply R_level | intros _].
  apply related_call_void.
Qed.

Lemma related_recorder (level : FileLoadLevel) :
  related R
    (if FEATURE_MULTICOREJIT
     then
       bind Exception (get Exception) (fun d =>
         match m_pModule d with
         | Some _ =>
             call_void Exception ext (MulticoreJitManager_RecordModuleLoad level)
         | None => ret Exception tt
         end)
     else ret Exception tt).
Proof. repeat related_step. Qed.

(** Every step but [FinishLoad]. *)
Lemma related_dispatch_but_FinishLoad (level : FileLoadLevel) :
  level <> FILE_LOADED -> related R (dispatch ext level).
Proof.
  intros Hne. unfold dispatch.
  destruct (level =? FILE_LOAD_BEGIN); [apply related_Begin |].
  destruct (level =? FILE_LOAD_BEFORE_TYPE_LOAD); [apply related_BeforeTypeLoad |].
  destruct (level =? FILE_LOAD_EAGER_FIXUPS); [apply related_EagerFixups |].
  destruct (level =? FILE_LOAD_DELIVER_EVENTS); [apply related_DeliverSyncEvents |].
  destruct (level =? FILE_LOAD_VTABLE_FIXUPS); [apply related_VtableFixups |].
  destruct (level =? FILE_LOADED) eqn:E; [apply Z.eqb_eq in E; contradiction |].
  destruct (level =? FILE_ACTIVE); [apply related_Activate | apply related_fault].
Qed.

Lemma related_DoIncrementalLoad_but_FinishLoad (level : FileLoadLevel) :
  level <> FILE_LOADED -> related R (DoIncrementalLoad ext level).
Proof.
  intros Hne. unfold DoIncrementalLoad.
  apply related_bind; [apply related_get | intros d].
  destruct (IsError d); [apply related_ret |].
  apply related_bind; [apply related_dispatch_but_FinishLoad; exact Hne | intros _].
  apply related_bind; [apply related_recorder | intros _; apply related_ret].
Qed.

Lemma related_DoIncrementalLoad (level : FileLoadLevel) :
  related R (DoIncrementalLoad ext level).
Proof.
  destruct (Z.eq_dec level FILE_LOADED) as [E | Hne];
    [| apply related_DoIncrementalLoad_but_FinishLoad; exact Hne].
  subst level. unfold DoIncrementalLoad.
  apply related_bind; [apply related_get | intros d].
  destruct (IsError d); [apply related_ret |].
  apply related_bind; [apply related_FinishLoad | intros _].
  apply related_bind; [apply related_recorder | intros _; apply related_ret].
Qed.

Lemma related_DoIncrementalLoad_tail (level : FileLoadLevel) (w : World Exception) :
  IsError (this w) = false ->
  R (this (fst (dispatch ext level w))) (this (fst (DoIncrementalLoad ext level w))).
Proof.
  intros He. unfold DoIncrementalLoad. rewrite bind_get, He.
  apply bind_related_tail. intros _.
  apply related_bind; [apply related_recorder | intros _; apply related_ret].
Qed.

Lemma related_SetError (ex : Exception) :
  related R (SetError GetHR DomainBoundClone ext ex).
Proof.
  unfold SetError.
  apply related_bind; [apply R_error | intros _].
  repeat related_step.
Qed.

Lemma related_step_of_run (c : Call Exception) (w : World Exception) :
  R (this w) (this (step GetHR DomainBoundClone ext c w)).
Proof.
  destruct c as [level | ex]; cbn [step].
  - apply related_DoIncrementalLoad.
  - apply related_SetError.
Qed.

Lemma related_run (cs : list (Call Exception)) (w : World Exception) :
  R (this w) (this (run GetHR DomainBoundClone ext cs w)).
Proof.
  revert w. induction cs as [| c cs IH]; intros w; cbn [run]; [apply R_refl |].
  apply (R_trans _ (this (step GetHR DomainBoundClone ext c w)));
    [apply related_step_of_run | apply IH].
Qed.

End Frames.

Section FrameInstances.
Context {H : Headers} {B : Build} {Exception : Type}.
Variable GetHR : Exception -> HRESULT.
Variable DomainBoundClone : Exception -> Exception.
Variable ext : list Event -> Event -> Answer Exception.

Lemma level_not_lowered_run (cs : list (Call Exception)) (w : World Exception) :
  level_not_lowered (this w) (this (run GetHR DomainBoundClone ext cs w)).
Proof.
  apply related_run.
  - intros d Hd. lia.
  - intros d1 d2 d3 A C Hd. unfold level_not_lowered in *.
    specialize (A Hd). assert (Hd2 : m_level d2 <= FILE_LOADED) by lia.
    specialize (C Hd2). lia.
  - intros w' Hd. cbn. lia.
  - intros w' Hd. cbn. lia.
  - intros w' Hd. unfold SetShouldNotifyDebugger. rewrite bind_globals.
    destruct (CORDebuggerAttached w'); cbn; lia.
  - intros w' Hd. cbn. lia.
  - intros w' Hd. cbn. lia.
  - intros w' Hd. cbn in *. lia.
  - intros e w' Hd. cbn. lia.
Qed.

Lemma same_level_but_FinishLoad (level : FileLoadLevel) (w : World Exception) :
  level <> FILE_LOADED ->
  m_level (this (fst (DoIncrementalLoad ext level w))) = m_level (this w).
Proof.
  intros Hne.
  apply (related_DoIncrementalLoad_but_FinishLoad ext same_level).
  - intros d. reflexivity.
  - intros d1 d2 d3 A C. unfold same_level in *. congruence.
  - intros w'. reflexivity.
  - intros w'. reflexivity.
  - intros w'. unfold SetShouldNotifyDebugger. rewrite bind_globals.
    destruct (CORDebuggerAttached w'); reflexivity.
  - intros w'. reflexivity.
  - intros w'. reflexivity.
  - exact Hne.
Qed.

Lemma same_level_SetError (ex : Exception) (w : World Exception) :
  m_level (this (fst (SetError GetHR DomainBoundClone ext ex w))) = m_level (this w).
Proof.
  apply (related_SetError GetHR DomainBoundClone ext same_level).
  - intros d. reflexivity.
  - intros d1 d2 d3 A C. unfold same_level in *. congruence.
  - intros w'. reflexivity.
  - intros e w'. reflexivity.
Qed.


End FrameInstances.

(** X12: no sequence of [DoIncrementalLoad] and [SetError] calls writes
    [m_loading], the module, assembly and image pointers, the collectible
    flag, the debugger control flags or the unload-started flag, whatever the
    collaborators do: in particular a unit stays marked as loading until
    code outside the file clears the mark. *)
Theorem calls_never_write_the_fixed_fields
        (H : Headers) (B : Build) (Exception : Type)
        (GetHR : Exception -> HRESULT) (DomainBoundClone : Exception -> Exception)
        (ext : list Event -> Event -> Answer Exception)
        (cs : list (Call Exception)) (w : World Exception) :
  let d := this w in
  let d' := this (run GetHR DomainBoundClone ext cs w) in
  m_loading d' = m_loading d /\
  m_pModule d' = m_pModule d /\
  m_pAssembly d' = m_pAssembly d /\
  m_pPEAssembly d' = m_pPEAssembly d /\
  m_fCollectible d' = m_fCollectible d /\
  m_debuggerFlags d' = m_debuggerFlags d /\
  m_fDebuggerUnloadStarted d' = m_fDebuggerUnloadStarted d.
Proof.
  cbv zeta.
  change (same_fixed_fields (this w) (this (run GetHR DomainBoundClone ext cs w))).
  apply related_run.
  - intros d. repeat split.
  - intros d1 d2 d3 A C. unfold same_fixed_fields in *.
    repeat match goal with Hc : _ /\ _ |- _ => destruct Hc end.
    repeat split; congruence.
  - intros w'. repeat split.
  - intros w'. repeat split.
  - intros w'. unfold SetShouldNotifyDebugger. rewrite bind_globals.
    destruct (CORDebuggerAttached w'); repeat split.
  - intros w'. repeat split.
  - intros w'. repeat split.
  - intros w'. repeat split.
  - intros e w'. repeat split.
Qed.

(** X13: the one-shot marks are never cleared: over every sequence of
    [DoIncrementalLoad] and [SetError] calls, a unit that is profiler-notified,
    debugger-notified, marked should-notify-debugger, has its activation
    check disabled, is published to its host assembly or has an error captured
    still is afterwards. *)
Theorem one_shot_marks_are_never_cleared
        (H : Headers) (B : Build) (Exception : Type)
        (GetHR : Exception -> HRESULT) (DomainBoundClone : Exception -> Exception)
        (ext : list Event -> Event -> Answer Exception)
        (cs : list (Call Exception)) (w : World Exception) :
  let d := this w in
  let d' := this (run GetHR DomainBoundClone ext cs w) in
  (IsProfilerNotified d = true -> IsProfilerNotified d' = true) /\
  (IsDebuggerNotified d = true -> IsDebuggerNotified d' = true) /\
  (ShouldNotifyDebugger d = true -> ShouldNotifyDebugger d' = true) /\
  (m_bDisableActivationCheck d = true -> m_bDisableActivationCheck d' = true) /\
  (m_fHostAssemblyPublished d = true -> m_fHostAssemblyPublished d' = true) /\
  (IsError d = true -> IsError d' = true).
Proof.
  cbv zeta.
  change (marks_kept (this w) (this (run GetHR DomainBoundClone ext cs w))).
  apply related_run.
  - intros d. repeat split; auto.
  - intros d1 d2 d3 A C. unfold marks_kept in *.
    repeat match goal with Hc : _ /\ _ |- _ => destruct Hc end.
    repeat split; auto.
  - intros w'. repeat split; auto.
  - intros w'. repeat split; auto.
  - intros w'. unfold SetShouldNotifyDebugger. rewrite bind_globals.
    destruct (CORDebuggerAttached w'); repeat split; auto.
  - intros w'. repeat split; auto.
  - intros w'. repeat split; auto.
  - intros w'. repeat split; auto.
  - intros e w'. repeat split; auto.
Qed.

Lemma one_shot_marks_are_never_cleared_witness :
  IsProfilerNotified (this an_activated_unit) = true /\
  IsProfilerNotified
    (this (@run clr_headers full_build HRESULT hr_GetHR hr_DomainBoundClone
             fixups_throw (every_stage ++ [Call_SetError E_FAIL]) an_activated_unit))
  = true.
Proof.
  assert (Hp : IsProfilerNotified (this an_activated_unit) = true) by reflexivity.
  split; [exact Hp |].
  apply (proj1 (one_shot_marks_are_never_cleared clr_headers full_build HRESULT
                  hr_GetHR hr_DomainBoundClone fixups_throw
                  (every_stage ++ [Call_SetError E_FAIL]) an_activated_unit)).
  exact Hp.
Defined.

(** X14: the level is written by the FILE_LOADED step only.  Every other
    [DoIncrementalLoad] and every [SetError] leaves [m_level] as it was,
    whether it returns or throws; so over every sequence of calls on a unit
    whose level is at most FILE_LOADED the level never decreases and never
    exceeds FILE_LOADED. *)
Theorem level_is_written_by_FinishLoad_only
        (H : Headers) (B : Build) (Exception : Type)
        (GetHR : Exception -> HRESULT) (DomainBoundClone : Exception -> Exception)
        (ext : list Event -> Event -> Answer Exception)
        (w : World Exception) :
  (forall level,
     level <> FILE_LOADED ->
     m_level (this (fst (DoIncrementalLoad ext level w))) = m_level (this w)) /\
  (forall ex,
     m_level (this (fst (SetError GetHR DomainBoundClone ext ex w)))
     = m_level (this w)) /\
  (forall cs,
     m_level (this w) <= FILE_LOADED ->
     m_level (this w) <= m_level (this (run GetHR DomainBoundClone ext cs w))
     <= FILE_LOADED).
Proof.
  split; [| split].
  - intros level Hne. apply same_level_but_FinishLoad. exact Hne.
  - intros ex. apply same_level_SetError.
  - intros cs. exact (level_not_lowered_run GetHR DomainBoundClone ext cs w).
Qed.

Lemma level_is_written_by_FinishLoad_only_witness :
  m_level (this (fst (@DoIncrementalLoad clr_headers full_build HRESULT fixups_throw
                        FILE_LOAD_VTABLE_FIXUPS a_unit)))
  = m_level (this a_unit) /\
  m_level (this a_unit)
  <= m_level (this (@run clr_headers full_build HRESULT hr_GetHR hr_DomainBoundClone
                      obliging every_stage a_unit))
  <= FILE_LOADED.
Proof.
  pose proof (level_is_written_by_FinishLoad_only clr_headers full_build HRESULT
                hr_GetHR hr_DomainBoundClone fixups_throw a_unit) as [Hs _].
  pose proof (level_is_written_by_FinishLoad_only clr_headers full_build HRESULT
                hr_GetHR hr_DomainBoundClone obliging a_unit) as [_ [_ Hr]].
  split.
  - apply Hs. vm_compute. discriminate.
  - apply Hr. vm_compute. discriminate.
Defined.

(** X15: the FILE_LOADED step sets the level before it notifies: on a unit
    without a captured error, [DoIncrementalLoad(FILE_LOADED)] leaves
    [m_level] at FILE_LOADED whatever the level was before and also when the
    diagnostic notification, or the recorder after it, throws. *)
Theorem FinishLoad_sets_the_level_first
        (H : Headers) (B : Build) (Exception : Type)
        (ext : list Event -> Event -> Answer Exception)
        (w : World Exception) :
  IsError (this w) = false ->
  m_level (this (fst (DoIncrementalLoad ext FILE_LOADED w))) = FILE_LOADED.
Proof.
  intros He.
  transitivity (m_level (this (fst (dispatch ext FILE_LOADED w)))).
  - change (same_level (this (fst (dispatch ext FILE_LOADED w)))
                       (this (fst (DoIncrementalLoad ext FILE_LOADED w)))).
    apply related_DoIncrementalLoad_tail.
    + intros d. reflexivity.
    + intros d1 d2 d3 A C. unfold same_level in *. congruence.
    + exact He.
  - change (dispatch ext FILE_LOADED) with (FinishLoad ext).
    unfold FinishLoad. rewrite bind_modify, fst_call_void. reflexivity.
Qed.

Lemma FinishLoad_sets_the_level_first_witness :
  IsError (this a_unit) = false /\
  snd (@DoIncrementalLoad clr_headers full_build HRESULT dac_throws FILE_LOADED
         a_unit) = Throws (Rethrown E_FAIL) /\
  m_level (this (fst (@DoIncrementalLoad clr_headers full_build HRESULT dac_throws
                        FILE_LOADED a_unit))) = FILE_LOADED.
Proof.
  assert (He : IsError (this a_unit) = false) by reflexivity.
  split; [exact He |]. split; [reflexivity |].
  exact (FinishLoad_sets_the_level_first clr_headers full_build HRESULT dac_throws
           a_unit He).
Defined.

(** * How the calls end *)

Section Outcomes.
Context {H : Headers} {B : Build} {Exception : Type}.
Variable GetHR : Exception -> HRESULT.
Variable DomainBoundClone : Exception -> Exception.
Variable ext : list Event -> Event -> Answer Exception.

(** An invariant that depends on the module pointer only, and whether
    exceptions are tolerated; when they are not, no collaborator throws. *)
Variable I : World Exception -> Prop.
Variable allow_throw : bool.
Hypothesis I_module :
  forall w w', m_pModule (this w') = m_pModule (this w) -> I w -> I w'.
Hypothesis I_present : forall w, I w -> module_present w.
Hypothesis ext_returns : allow_throw = false -> never_raises ext.

Lemma sound_ret {A : Type} (a : A) : sound I allow_throw (ret Exception a).
Proof. intros w Hi. split; [exact Hi | exact Logic.I]. Qed.

Lemma sound_get : sound I allow_throw (get Exception).
Proof. intros w Hi. split; [exact Hi | exact Logic.I]. Qed.

Lemma sound_globals : sound I allow_throw (globals Exception).
Proof. intros w Hi. split; [exact Hi | exact Logic.I]. Qed.

Lemma sound_bind {A C : Type} (m : M Exception A) (k : A -> M Exception C) :
  sound I allow_throw m -> (forall a, sound I allow_throw (k a)) ->
  sound I allow_throw (bind Exception m k).
Proof.
  intros Hm Hk w Hi. unfold bind. specialize (Hm w Hi).
  destruct (m w) as [w1 [a | t |]]; cbn [fst snd] in *.
  - apply Hk. apply Hm.
  - exact Hm.
  - exact Hm.
Qed.

Lemma sound_modify (f : DomainAssembly Exception -> DomainAssembly Exception) :
  (forall d, m_pModule (f d) = m_pModule d) ->
  sound I allow_throw (modify Exception f).
Proof.
  intros Hf w Hi. unfold modify. cbn [fst snd]. split; [| exact Logic.I].
  apply (I_module w); [apply Hf | exact Hi].
Qed.

Lemma sound_call (e : Event) : sound I allow_throw (call Exception ext e).
Proof.
  intros w Hi. unfold call.
  assert (Hr : I (record Exception e w)) by (apply (I_module w); [reflexivity | exact Hi]).
  destruct (ext (calls w) e) as [b | ex] eqn:E; cbn [fst snd];
    (split; [exact Hr |]); cbn; [exact Logic.I |].
  destruct allow_throw; [reflexivity |].
  destruct (ext_returns eq_refl (calls w) e) as [b Hb]. congruence.
Qed.

Lemma sound_call_void (e : Event) : sound I allow_throw (call_void Exception ext e).
Proof.
  unfold call_void. apply sound_bind; [apply sound_call | intros _; apply sound_ret].
Qed.

Lemma sound_call_nothrow (e : Event) : sound I allow_throw (call_nothrow Exception e).
Proof.
  intros w Hi. unfold call_nothrow. cbn [fst snd]. split; [| exact Logic.I].
  apply (I_module w); [reflexivity | exact Hi].
Qed.

Lemma sound_GetModule {A : Type} (k : Module -> M Exception A) :
  (forall m, sound I allow_throw (k m)) -> sound I allow_throw (GetModule Exception k).
Proof.
  intros Hk w Hi. unfold GetModule.
  pose proof (I_present w Hi) as Hp. unfold module_present in Hp.
  destruct (m_pModule (this w)) as [m |]; [apply Hk; exact Hi | contradiction].
Qed.

Ltac sound_step :=
  first
    [ apply sound_ret | apply sound_get | apply sound_globals
    | apply sound_call_void | apply sound_call_nothrow | apply sound_call
    | apply sound_modify; intros ?; reflexivity
    | apply sound_GetModule; intros ?
    | apply sound_bind; [| intros ?]
    | match goal with
      | |- sound _ _ (if ?b then _ else _) => destruct b
      | |- sound _ _ (match ?x with _ => _ end) => destruct x
      end ].

Lemma sound_SetProfilerNotified : sound I allow_throw (SetProfilerNotified Exception).
Proof. unfold SetProfilerNotified. repeat sound_step. Qed.

Lemma sound_Begin : sound I allow_throw (Begin ext).
Proof. unfold Begin, RegisterWithHostAssembly. repeat sound_step. Qed.

Lemma sound_BeforeTypeLoad : sound I allow_throw (BeforeTypeLoad ext).
Proof. unfold BeforeTypeLoad, SetProfilerNotified. repeat sound_step. Qed.

Lemma sound_EagerFixups : sound I allow_throw (EagerFixups ext).
Proof. unfold EagerFixups. repeat sound_step. Qed.

Lemma sound_VtableFixups : sound I allow_throw (VtableFixups ext).
Proof. unfold VtableFixups. repeat sound_step. Qed.

Lemma sound_FinishLoad : sound I allow_throw (FinishLoad ext).
Proof. unfold FinishLoad. repeat sound_step. Qed.

Lemma sound_Activate : sound I allow_throw (Activate ext).
Proof. unfold Activate. repeat sound_step. Qed.

Lemma sound_NotifyDebuggerLoad (flags : Z) (attaching : bool) :
  sound I allow_throw (NotifyDebuggerLoad ext flags attaching).
Proof. unfold NotifyDebuggerLoad, SetDebuggerNotified. repeat sound_step. Qed.

Lemma sound_DeliverSyncEvents : sound I allow_throw (DeliverSyncEvents ext).
Proof.
  unfold DeliverSyncEvents, SetProfilerNotified, SetShouldNotifyDebugger.
  repeat first [apply sound_NotifyDebuggerLoad | sound_step].
Qed.

Lemma recognized_cases (level : FileLoadLevel) :
  recognized level = true ->
  level = FILE_LOAD_BEGIN \/ level = FILE_LOAD_BEFORE_TYPE_LOAD \/
  level = FILE_LOAD_EAGER_FIXUPS \/ level = FILE_LOAD_DELIVER_EVENTS \/
  level = FILE_LOAD_VTABLE_FIXUPS \/ level = FILE_LOADED \/ level = FILE_ACTIVE.
Proof.
  unfold recognized, FILE_LOAD_BEGIN, FILE_LOAD_BEFORE_TYPE_LOAD,
    FILE_LOAD_EAGER_FIXUPS, FILE_LOAD_DELIVER_EVENTS, FILE_LOAD_VTABLE_FIXUPS,
    FILE_LOADED, FILE_ACTIVE.
  rewrite andb_true_iff, !Z.leb_le. lia.
Qed.

Lemma sound_dispatch (level : FileLoadLevel) :
  recognized level = true -> sound I allow_throw (dispatch ext level).
Proof.
  intros Hr.
  destruct (recognized_cases level Hr) as [E | [E | [E | [E | [E | [E | E]]]]]];
    subst level.
  - apply sound_Begin.
  - apply sound_BeforeTypeLoad.
  - apply sound_EagerFixups.
  - apply sound_DeliverSyncEvents.
  - apply sound_VtableFixups.
  - apply sound_FinishLoad.
  - apply sound_Activate.
Qed.

Lemma sound_DoIncrementalLoad (level : FileLoadLevel) :
  recognized level = true -> sound I allow_throw (DoIncrementalLoad ext level).
Proof.
  intros Hr. unfold DoIncrementalLoad.
  apply sound_bind; [apply sound_get | intros d].
  destruct (IsError d); [apply sound_ret |].
  apply sound_bind; [apply sound_dispatch; exact Hr | intros _].
  repeat sound_step.
Qed.

Lemma sound_SetError (ex : Exception) :
  sound I allow_throw (SetError GetHR DomainBoundClone ext ex).
Proof. unfold SetError, SetProfilerNotified. repeat sound_step. Qed.

End Outcomes.

Section ResultFlag.
Context {H : Headers} {B : Build} {Exception : Type}.
Variable ext : list Event -> Event -> Answer Exception.

Lemma bind_returns {A C : Type} (m : M Exception A) (k : A -> M Exception C)
      (w : World Exception) (c : C) :
  snd (bind Exception m k w) = Returns c ->
  exists a, snd (m w) = Returns a /\ snd (k a (fst (m w))) = Returns c.
Proof.
  unfold bind. destruct (m w) as [w1 [a | t |]]; cbn [fst snd].
  - intros Hk. exists a. split; [reflexivity | exact Hk].
  - discriminate.
  - discriminate.
Qed.

Lemma unrecognized_dispatch (level : FileLoadLevel) :
  recognized level = false -> dispatch ext level = @fault Exception unit.
Proof.
  unfold recognized, dispatch, FILE_LOAD_BEGIN, FILE_LOAD_BEFORE_TYPE_LOAD,
    FILE_LOAD_EAGER_FIXUPS, FILE_LOAD_DELIVER_EVENTS, FILE_LOAD_VTABLE_FIXUPS,
    FILE_LOADED, FILE_ACTIVE.
  rewrite andb_false_iff, !Z.leb_gt. intros Hr.
  repeat match goal with
         | |- context [level =? ?k] =>
             let E := fresh "E" in
             destruct (Z.eqb_spec level k) as [E | E]; [exfalso; lia |]
         end.
  reflexivity.
Qed.

End ResultFlag.

(** X16: the flag [DoIncrementalLoad] returns tells whether a step was
    dispatched: whenever it returns, it returns FALSE if an error is captured
    and TRUE otherwise, for every level and whatever the collaborators do. *)
Theorem DoIncrementalLoad_result_flag
        (H : Headers) (B : Build) (Exception : Type)
        (ext : list Event -> Event -> Answer Exception)
        (level : FileLoadLevel) (w : World Exception) (b : bool) :
  snd (DoIncrementalLoad ext level w) = Returns b ->
  b = negb (IsError (this w)).
Proof.
  unfold DoIncrementalLoad. rewrite bind_get.
  destruct (IsError (this w)).
  - cbn. intros E. injection E as E. symmetry. exact E.
  - intros Hb.
    apply bind_returns in Hb. destruct Hb as (a1 & _ & Hb).
    apply bind_returns in Hb. destruct Hb as (a2 & _ & Hb).
    cbn in Hb. injection Hb as Hb. symmetry. exact Hb.
Qed.

Lemma DoIncrementalLoad_result_flag_witness :
  snd (@DoIncrementalLoad clr_headers full_build HRESULT obliging
         FILE_LOAD_BEGIN a_unit) = Returns true /\
  true = negb (IsError (this a_unit)).
Proof.
  assert (Hr : snd (@DoIncrementalLoad clr_headers full_build HRESULT obliging
                      FILE_LOAD_BEGIN a_unit) = Returns true) by reflexivity.
  split; [exact Hr |].
  exact (DoIncrementalLoad_result_flag clr_headers full_build HRESULT obliging
           FILE_LOAD_BEGIN a_unit true Hr).
Defined.

(** X17: a level the [switch] has no case for, FILE_LOAD_CREATE included,
    reaches [UNREACHABLE()] on a unit without a captured error: no
    collaborator is called and no field is written. *)
Theorem unrecognized_level_is_unreachable
        (H : Headers) (B : Build) (Exception : Type)
        (ext : list Event -> Event -> Answer Exception)
        (level : FileLoadLevel) (w : World Exception) :
  IsError (this w) = false ->
  level < FILE_LOAD_BEGIN \/ FILE_ACTIVE < level ->
  DoIncrementalLoad ext level w = (w, Fault).
Proof.
  intros He Hl. unfold DoIncrementalLoad. rewrite bind_get, He.
  rewrite unrecognized_dispatch; [reflexivity |].
  unfold recognized. apply andb_false_iff. rewrite !Z.leb_gt. exact Hl.
Qed.

Lemma unrecognized_level_is_unreachable_witness :
  @DoIncrementalLoad clr_headers full_build HRESULT obliging FILE_LOAD_CREATE a_unit
  = (a_unit, Fault).
Proof.
  apply (unrecognized_level_is_unreachable clr_headers full_build HRESULT obliging
           FILE_LOAD_CREATE a_unit).
  - reflexivity.
  - left. reflexivity.
Defined.

(** X18: on a unit whose module and assembly pointers are set,
    [DoIncrementalLoad] for a level from FILE_LOAD_BEGIN to FILE_ACTIVE never
    dereferences a null module or assembly pointer and never reaches
    [UNREACHABLE()]: it returns or passes on an exception of a collaborator,
    whatever the collaborators do.  The module pointer is dereferenced by the
    steps themselves, the assembly pointer by the assertion that a debug
    build evaluates at the head of [Activate].  [SetError] tests the module
    pointer before it uses it, on every unit. *)
Theorem steps_never_fault
        (H : Headers) (B : Build) (Exception : Type)
        (GetHR : Exception -> HRESULT) (DomainBoundClone : Exception -> Exception)
        (ext : list Event -> Event -> Answer Exception)
        (w : World Exception) :
  (forall level,
     m_pModule (this w) <> None ->
     m_pAssembly (this w) <> None ->
     FILE_LOAD_BEGIN <= level <= FILE_ACTIVE ->
     snd (DoIncrementalLoad ext level w) <> Fault /\
     snd (Activate_assertion w) <> Fault) /\
  (forall ex, snd (SetError GetHR DomainBoundClone ext ex w) <> Fault).
Proof.
  split.
  - intros level Hm Ha Hl. split.
    + assert (Hr : recognized level = true).
      { unfold recognized. apply andb_true_iff. rewrite !Z.leb_le. exact Hl. }
      destruct (sound_DoIncrementalLoad ext module_present true) with (w := w)
                                                                (level := level)
        as [_ Ht].
      * intros w1 w2 E. unfold module_present. rewrite E. auto.
      * auto.
      * discriminate.
      * exact Hr.
      * exact Hm.
      * intros E. rewrite E in Ht. exact Ht.
    + unfold Activate_assertion. destruct _DEBUG; [| discriminate].
      rewrite bind_get.
      destruct (m_pAssembly (this w)); [discriminate | contradiction].
  - intros ex.
    destruct (sound_SetError GetHR DomainBoundClone ext (fun _ => True) true)
      with (w := w) (ex := ex) as [_ Ht].
    + auto.
    + discriminate.
    + exact Logic.I.
    + intros E. rewrite E in Ht. exact Ht.
Qed.

Lemma steps_never_fault_witness :
  m_pModule (this a_unit) <> None /\
  m_pAssembly (this a_unit) <> None /\
  snd (@DoIncrementalLoad clr_headers full_build HRESULT fixups_throw
         FILE_LOAD_VTABLE_FIXUPS a_unit) <> Fault.
Proof.
  assert (Hm : m_pModule (this a_unit) <> None) by (vm_compute; discriminate).
  assert (Ha : m_pAssembly (this a_unit) <> None) by (vm_compute; discriminate).
  split; [exact Hm |]. split; [exact Ha |].
  apply (proj1 (steps_never_fault clr_headers full_build HRESULT hr_GetHR
                  hr_DomainBoundClone fixups_throw a_unit)).
  - exact Hm.
  - exact Ha.
  - vm_compute. split; discriminate.
Defined.

(** X19: when no collaborator throws, every step completes: on a unit whose
    module is present and that has no captured error, [DoIncrementalLoad] for
    a level from FILE_LOAD_BEGIN to FILE_ACTIVE returns TRUE, and [SetError]
    returns normally on every unit. *)
Theorem steps_complete_when_collaborators_return
        (H : Headers) (B : Build) (Exception : Type)
        (GetHR : Exception -> HRESULT) (DomainBoundClone : Exception -> Exception)
        (ext : list Event -> Event -> Answer Exception)
        (w : World Exception) :
  never_raises ext ->
  (forall level,
     m_pModule (this w) <> None ->
     IsError (this w) = false ->
     FILE_LOAD_BEGIN <= level <= FILE_ACTIVE ->
     snd (DoIncrementalLoad ext level w) = Returns true) /\
  (forall ex, snd (SetError GetHR DomainBoundClone ext ex w) = Returns tt).
Proof.
  intros Hext. split.
  - intros level Hm He Hl.
    assert (Hr : recognized level = true).
    { unfold recognized. apply andb_true_iff. rewrite !Z.leb_le. exact Hl. }
    destruct (sound_DoIncrementalLoad ext module_present false) with (w := w)
                                                               (level := level)
      as [_ Ht].
    + intros w1 w2 E. unfold module_present. rewrite E. auto.
    + auto.
    + intros _. exact Hext.
    + exact Hr.
    + exact Hm.
    + destruct (snd (DoIncrementalLoad ext level w)) as [b | t |] eqn:E;
        cbn in Ht; [| discriminate Ht | contradiction].
      f_equal. unfold DoIncrementalLoad in E. rewrite bind_get, He in E.
      apply bind_returns in E. destruct E as (a1 & _ & E).
      apply bind_returns in E. destruct E as (a2 & _ & E).
      cbn in E. injection E as E. symmetry. exact E.
  - intros ex.
    destruct (sound_SetError GetHR DomainBoundClone ext (fun _ => True) false)
      with (w := w) (ex := ex) as [_ Ht].
    + auto.
    + intros _. exact Hext.
    + exact Logic.I.
    + destruct (snd (SetError GetHR DomainBoundClone ext ex w)) as [[] | t |];
        cbn in Ht; [reflexivity | discriminate Ht | contradiction].
Qed.

Lemma obliging_never_raises : never_raises obliging.
Proof. intros l e. exists true. reflexivity. Qed.

Lemma steps_complete_when_collaborators_return_witness :
  never_raises obliging /\
  snd (@DoIncrementalLoad clr_headers full_build HRESULT obliging FILE_ACTIVE a_unit)
  = Returns true /\
  snd (@SetError full_build HRESULT hr_GetHR hr_DomainBoundClone obliging E_FAIL
         a_unit) = Returns tt.
Proof.
  pose proof (steps_complete_when_collaborators_return clr_headers full_build
                HRESULT hr_GetHR hr_DomainBoundClone obliging a_unit
                obliging_never_raises) as [Hd Hs].
  split; [exact obliging_never_raises |]. split.
  - apply Hd.
    + vm_compute. discriminate.
    + reflexivity.
    + vm_compute. split; discriminate.
  - apply Hs.
Defined.

(** * The debugger sink *)

Section DebuggerFacts.
Context {H : Headers} {B : Build} {Exception : Type}.
Variable GetHR : Exception -> HRESULT.
Variable DomainBoundClone : Exception -> Exception.
Variable ext : list Event -> Event -> Answer Exception.
Variable made : list Event.

Lemma debugger_calls_app (l1 l2 : list Event) :
  debugger_calls (l1 ++ l2) = debugger_calls l1 ++ debugger_calls l2.
Proof. unfold debugger_calls. apply filter_app. Qed.

Lemma idle_record (e : Event) (w : World Exception) :
  is_debugger_call e = false ->
  debugger_idle made w -> debugger_idle made (record Exception e w).
Proof.
  intros He [Hc Hr]. split; [| exact Hr].
  unfold record. cbn [calls]. rewrite debugger_calls_app, Hc.
  unfold debugger_calls. cbn. rewrite He. apply app_nil_r.
Qed.

Lemma idle_call_void (e : Event) :
  is_debugger_call e = false ->
  establishes (debugger_idle made) (debugger_idle made) (call_void Exception ext e).
Proof.
  intros He w Hi. rewrite fst_call_void. apply idle_record; assumption.
Qed.

Lemma idle_call_nothrow (e : Event) :
  is_debugger_call e = false ->
  establishes (debugger_idle made) (debugger_idle made) (call_nothrow Exception e).
Proof. intros He w Hi. apply idle_record; assumption. Qed.

Lemma idle_modify (f : DomainAssembly Exception -> DomainAssembly Exception) :
  (forall d, IsDebuggerNotified (f d) = IsDebuggerNotified d) ->
  establishes (debugger_idle made) (debugger_idle made) (modify Exception f).
Proof.
  intros Hf w [Hc Hr].
  split; [exact Hc |]. unfold modify.
  cbn [fst this with_this]. rewrite Hf. exact Hr.
Qed.

Lemma idle_get :
  establishes (debugger_idle made) (debugger_idle made) (get Exception).
Proof. intros w Hi. exact Hi. Qed.

Lemma idle_globals :
  establishes (debugger_idle made) (debugger_idle made) (globals Exception).
Proof. intros w Hi. exact Hi. Qed.

Ltac idle_step :=
  first
    [ apply establishes_ret | apply idle_get | apply idle_globals
    | apply idle_call_void; reflexivity
    | apply idle_call_nothrow; reflexivity
    | apply idle_modify; intros ?; reflexivity
    | apply establishes_GetModule; [auto | intros ?]
    | apply (establishes_bind _ (debugger_idle made)); [| auto | intros ?]
    | match goal with
      | |- establishes _ _ (if ?b then _ else _) => destruct b
      | |- establishes _ _ (match ?x with _ => _ end) => destruct x
      | |- establishes _ _ (fault _) => intros ? ?; assumption
      end ].

Lemma idle_Begin :
  establishes (debugger_idle made) (debugger_idle made) (Begin ext).
Proof. unfold Begin, RegisterWithHostAssembly. repeat idle_step. Qed.

Lemma idle_BeforeTypeLoad :
  establishes (debugger_idle made) (debugger_idle made) (BeforeTypeLoad ext).
Proof. unfold BeforeTypeLoad, SetProfilerNotified. repeat idle_step. Qed.

Lemma idle_EagerFixups :
  establishes (debugger_idle made) (debugger_idle made) (EagerFixups ext).
Proof. unfold EagerFixups. repeat idle_step. Qed.

Lemma idle_VtableFixups :
  establishes (debugger_idle made) (debugger_idle made) (VtableFixups ext).
Proof. unfold VtableFixups. repeat idle_step. Qed.

Lemma idle_FinishLoad :
  establishes (debugger_idle made) (debugger_idle made) (FinishLoad ext).
Proof. unfold FinishLoad. repeat idle_step. Qed.

Lemma idle_Activate :
  establishes (debugger_idle made) (debugger_idle made) (Activate ext).
Proof. unfold Activate. repeat idle_step. Qed.

(** Once the debugger has been notified, the debugger part of
    [DeliverSyncEvents] is skipped as a whole, whatever it would do. *)
Lemma debugger_part_once_notified (k : M Exception unit) (w : World Exception) :
  IsDebuggerNotified (this w) = true ->
  fst ((if DEBUGGING_SUPPORTED
        then
          bind Exception (get Exception) (fun d =>
            if negb (IsDebuggerNotified d) then k else ret Exception tt)
        else ret Exception tt) w) = w.
Proof.
  intros Hn. destruct DEBUGGING_SUPPORTED; [| reflexivity].
  rewrite bind_get, Hn. reflexivity.
Qed.

Lemma idle_DeliverSyncEvents :
  establishes (debugger_idle made) (debugger_idle made) (DeliverSyncEvents ext).
Proof.
  unfold DeliverSyncEvents.
  apply (establishes_bind _ (debugger_idle made)); [| auto | intros _].
  { repeat idle_step. }
  apply (establishes_bind _ (debugger_idle made)); [| auto | intros _].
  { unfold SetProfilerNotified. repeat idle_step. }
  intros w Hi. rewrite debugger_part_once_notified; [exact Hi | apply Hi].
Qed.

Lemma idle_dispatch (level : FileLoadLevel) :
  establishes (debugger_idle made) (debugger_idle made) (dispatch ext level).
Proof.
  unfold dispatch.
  destruct (level =? FILE_LOAD_BEGIN); [apply idle_Begin |].
  destruct (level =? FILE_LOAD_BEFORE_TYPE_LOAD); [apply idle_BeforeTypeLoad |].
  destruct (level =? FILE_LOAD_EAGER_FIXUPS); [apply idle_EagerFixups |].
  destruct (level =? FILE_LOAD_DELIVER_EVENTS); [apply idle_DeliverSyncEvents |].
  destruct (level =? FILE_LOAD_VTABLE_FIXUPS); [apply idle_VtableFixups |].
  destruct (level =? FILE_LOADED); [apply idle_FinishLoad |].
  destruct (level =? FILE_ACTIVE); [apply idle_Activate |].
  intros w Hi. exact Hi.
Qed.

Lemma idle_DoIncrementalLoad (level : FileLoadLevel) :
  establishes (debugger_idle made) (debugger_idle made) (DoIncrementalLoad ext level).
Proof.
  unfold DoIncrementalLoad.
  apply (establishes_bind _ (debugger_idle made)); [apply idle_get | auto | intros d].
  destruct (IsError d); [apply establishes_ret |].
  apply (establishes_bind _ (debugger_idle made)); [apply idle_dispatch | auto | intros _].
  repeat idle_step.
Qed.

Lemma idle_SetError (ex : Exception) :
  establishes (debugger_idle made) (debugger_idle made)
              (SetError GetHR DomainBoundClone ext ex).
Proof. unfold SetError, SetProfilerNotified. repeat idle_step. Qed.

Lemma idle_run (cs : list (Call Exception)) (w : World Exception) :
  debugger_idle made w -> debugger_idle made (run GetHR DomainBoundClone ext cs w).
Proof.
  revert w. induction cs as [| c cs IH]; intros w Hi; cbn [run]; [exact Hi |].
  apply IH. destruct c as [level | ex]; cbn [step].
  - apply idle_DoIncrementalLoad. exact Hi.
  - apply idle_SetError. exact Hi.
Qed.

End DebuggerFacts.

(** * Registration with the host assembly *)

Section HostRegistration.
Context {H : Headers} {B : Build} {Exception : Type}.
Variable GetHR : Exception -> HRESULT.
Variable DomainBoundClone : Exception -> Exception.
Variable ext : list Event -> Event -> Answer Exception.

Lemma registered_record (e : Event) (w : World Exception) :
  is_host_registration e = false ->
  registration_recorded w -> registration_recorded (record Exception e w).
Proof.
  unfold registration_recorded, record. cbn [calls this]. intros He Hr.
  rewrite existsb_app. cbn [existsb]. rewrite He, !orb_false_r. exact Hr.
Qed.

Lemma registered_call_void (e : Event) :
  is_host_registration e = false ->
  establishes registration_recorded registration_recorded (call_void Exception ext e).
Proof.
  intros He w Hi. rewrite fst_call_void. apply registered_record; assumption.
Qed.

Lemma registered_call (e : Event) :
  is_host_registration e = false ->
  establishes registration_recorded registration_recorded (call Exception ext e).
Proof.
  intros He w Hi.
  assert (E : fst (call Exception ext e w) = record Exception e w)
    by (unfold call; destruct (ext (calls w) e); reflexivity).
  rewrite E. apply registered_record; assumption.
Qed.

Lemma registered_call_nothrow (e : Event) :
  is_host_registration e = false ->
  establishes registration_recorded registration_recorded (call_nothrow Exception e).
Proof. intros He w Hi. apply registered_record; assumption. Qed.

Lemma registered_modify (f : DomainAssembly Exception -> DomainAssembly Exception) :
  (forall d, m_fHostAssemblyPublished (f d) = m_fHostAssemblyPublished d /\
             m_pPEAssembly (f d) = m_pPEAssembly d) ->
  establishes registration_recorded registration_recorded (modify Exception f).
Proof.
  intros Hf w Hr. destruct (Hf (this w)) as [F1 F2].
  unfold registration_recorded, modify in *.
  cbn [fst this with_this calls]. rewrite F1, F2. exact Hr.
Qed.

Lemma registered_reads {A : Type} (m : M Exception A) :
  (forall w, fst (m w) = w) ->
  establishes registration_recorded registration_recorded m.
Proof. intros Hm w Hr. rewrite Hm. exact Hr. Qed.

Ltac registered_step :=
  first
    [ apply establishes_ret
    | apply registered_reads; reflexivity
    | apply registered_call_void; reflexivity
    | apply registered_call; reflexivity
    | apply registered_call_nothrow; reflexivity
    | apply registered_modify; intros ?; split; reflexivity
    | apply establishes_GetModule; [auto | intros ?]
    | apply (establishes_bind _ registration_recorded); [| auto | intros ?]
    | match goal with
      | |- establishes _ _ (if ?b then _ else _) => destruct b
      | |- establishes _ _ (match ?x with _ => _ end) => destruct x
      | |- establishes _ _ (fault _) => intros ? ?; assumption
      end ].

(** [Begin] registers and marks in one go: nothing can throw in between. *)
Lemma registered_Begin :
  establishes registration_recorded registration_recorded (Begin ext).
Proof.
  unfold Begin.
  apply (establishes_bind _ registration_recorded); [| auto | intros _].
  { registered_step. }
  intros w Hr. unfold RegisterWithHostAssembly, registration_recorded in *.
  unfold bind, get, call_nothrow, modify, ret, record.
  destruct (PE_HasHostAssembly (m_pPEAssembly (this w))) eqn:Hh;
    cbn; rewrite ?Hh, ?existsb_app; cbn.
  - rewrite orb_true_r. reflexivity.
  - rewrite Hr. apply andb_false_r.
Qed.

Lemma registered_dispatch (level : FileLoadLevel) :
  establishes registration_recorded registration_recorded (dispatch ext level).
Proof.
  unfold dispatch.
  destruct (level =? FILE_LOAD_BEGIN); [apply registered_Begin |].
  unfold BeforeTypeLoad, EagerFixups, DeliverSyncEvents, VtableFixups, FinishLoad,
    Activate, NotifyDebuggerLoad, SetProfilerNotified, SetShouldNotifyDebugger,
    SetDebuggerNotified.
  repeat registered_step.
Qed.

Lemma registered_DoIncrementalLoad (level : FileLoadLevel) :
  establishes registration_recorded registration_recorded
              (DoIncrementalLoad ext level).
Proof.
  unfold DoIncrementalLoad.
  apply (establishes_bind _ registration_recorded);
    [registered_step | auto | intros d].
  destruct (IsError d); [apply establishes_ret |].
  apply (establishes_bind _ registration_recorded);
    [apply registered_dispatch | auto | intros _].
  repeat registered_step.
Qed.

Lemma registered_SetError (ex : Exception) :
  establishes registration_recorded registration_recorded
              (SetError GetHR DomainBoundClone ext ex).
Proof. unfold SetError, SetProfilerNotified. repeat registered_step. Qed.

Lemma registered_run (cs : list (Call Exception)) (w : World Exception) :
  registration_recorded w ->
  registration_recorded (run GetHR DomainBoundClone ext cs w).
Proof.
  revert w. induction cs as [| c cs IH]; intros w Hi; cbn [run]; [exact Hi |].
  apply IH. destruct c as [level | ex]; cbn [step].
  - apply registered_DoIncrementalLoad. exact Hi.
  - apply registered_SetError. exact Hi.
Qed.

End HostRegistration.

Section Teardown.
Context {H : Headers} {Exception : Type}.

Lemma destructor_unregisters (d : DomainAssembly Exception) :
  In HostAssembly_SetDomainAssembly_nullptr (DomainAssembly_destructor d) <->
  m_fHostAssemblyPublished d && PE_HasHostAssembly (m_pPEAssembly d) = true.
Proof.
  unfold DomainAssembly_destructor, UnregisterFromHostAssembly.
  destruct (m_pError d), (m_fHostAssemblyPublished d),
    (PE_HasHostAssembly (m_pPEAssembly d)), (m_pAssembly d); cbn;
    intuition discriminate.
Qed.

End Teardown.

(** * Capture, the debugger, the host assembly and construction *)

(** X20: [SetError] stores the clone before it notifies anybody, so the
    failure is captured whatever the collaborators do, even when a
    notification throws out of [SetError]; from then on [DoIncrementalLoad]
    returns FALSE without touching anything, and [RequireLoadLevel] for a
    level above the one the unit had re-raises the clone. *)
Theorem SetError_captures_in_any_case
        (H : Headers) (B : Build) (Exception : Type)
        (GetHR : Exception -> HRESULT) (DomainBoundClone : Exception -> Exception)
        (ext : list Event -> Event -> Answer Exception)
        (w : World Exception) (ex : Exception) :
  let w' := fst (SetError GetHR DomainBoundClone ext ex w) in
  m_pError (this w') = Some (DomainBoundClone ex) /\
  (forall ext' level, DoIncrementalLoad ext' level w' = (w', Returns false)) /\
  (forall targetLevel,
     m_level (this w) < targetLevel ->
     RequireLoadLevel targetLevel w'
     = (w', Throws (Rethrown (DomainBoundClone ex)))).
Proof.
  intros w'.
  assert (He : m_pError (this w') = Some (DomainBoundClone ex))
    by apply SetError_effect.
  split; [exact He |]. split.
  - intros ext' level. apply DoIncrementalLoad_after_error.
    apply IsError_Some. eauto.
  - intros targetLevel Hlt. apply RequireLoadLevel_error; [| exact He].
    unfold w'. rewrite same_level_SetError. exact Hlt.
Qed.

(** X21: once the debugger has been notified of the unit, no sequence of
    [DoIncrementalLoad] and [SetError] calls makes a call on the debugger
    again, whatever the collaborators do, and the unit stays marked as
    debugger-notified: [DeliverSyncEvents] skips its debugger part as a
    whole, and no other step calls the debugger. *)
Theorem debugger_is_not_called_again
        (H : Headers) (B : Build) (Exception : Type)
        (GetHR : Exception -> HRESULT) (DomainBoundClone : Exception -> Exception)
        (ext : list Event -> Event -> Answer Exception)
        (cs : list (Call Exception)) (w : World Exception) :
  IsDebuggerNotified (this w) = true ->
  debugger_calls (calls (run GetHR DomainBoundClone ext cs w))
  = debugger_calls (calls w) /\
  IsDebuggerNotified (this (run GetHR DomainBoundClone ext cs w)) = true.
Proof.
  intros Hn.
  apply (idle_run GetHR DomainBoundClone ext (debugger_calls (calls w)) cs w).
  split; [reflexivity | exact Hn].
Qed.

Lemma debugger_is_not_called_again_witness :
  IsDebuggerNotified (this a_notified_unit) = true /\
  debugger_calls (calls a_notified_unit) <> [] /\
  debugger_calls
    (calls (@run clr_headers full_build HRESULT hr_GetHR hr_DomainBoundClone
              obliging every_stage a_notified_unit))
  = debugger_calls (calls a_notified_unit).
Proof.
  assert (Hn : IsDebuggerNotified (this a_notified_unit) = true) by reflexivity.
  split; [exact Hn |]. split; [vm_compute; discriminate |].
  apply (debugger_is_not_called_again clr_headers full_build HRESULT hr_GetHR
           hr_DomainBoundClone obliging every_stage a_notified_unit Hn).
Defined.

(** X22: [NotifyDebuggerLoad] on a visible unit that is marked for the
    debugger, with the debugger interface and the module present and
    collaborators that return.  When [flags] has ATTACH_ASSEMBLY_LOAD, the
    debugger is told of the assembly, the first module notification is
    skipped because the result is already TRUE, and the module is notified
    once, with ATTACH_MODULE_LOAD; the call returns TRUE.  When [flags] lacks
    it, the module is notified twice, first with [flags] and then with
    ATTACH_MODULE_LOAD.  Either way the unit is marked as debugger-notified. *)
Theorem NotifyDebuggerLoad_notifications
        (H : Headers) (B : Build) (Exception : Type)
        (ext : list Event -> Event -> Answer Exception)
        (flags : Z) (attaching : bool) (w : World Exception) :
  IsVisibleToDebugger Exception (this w) = true ->
  g_pDebugInterface w = true ->
  ShouldNotifyDebugger (this w) = true ->
  m_pModule (this w) <> None ->
  never_raises ext ->
  let out := NotifyDebuggerLoad ext flags attaching w in
  IsDebuggerNotified (this (fst out)) = true /\
  (truthy (Z.land flags ATTACH_ASSEMBLY_LOAD) = true ->
   calls (fst out)
   = calls w ++ [DebugInterface_LoadAssembly;
                 Module_NotifyDebuggerLoad ATTACH_MODULE_LOAD attaching] /\
   snd out = Returns true) /\
  (truthy (Z.land flags ATTACH_ASSEMBLY_LOAD) = false ->
   calls (fst out)
   = calls w ++ [Module_NotifyDebuggerLoad flags attaching;
                 Module_NotifyDebuggerLoad ATTACH_MODULE_LOAD attaching] /\
   exists r, snd out = Returns r).
Proof.
  intros Hv Hg Hs Hm Hext out. unfold out, NotifyDebuggerLoad.
  rewrite bind_get, Hv. cbn [negb]. rewrite bind_globals, Hg. cbn [negb].
  destruct (m_pModule (this w)) as [m |] eqn:Mo; [clear Hm | contradiction].
  destruct (truthy (Z.land flags ATTACH_ASSEMBLY_LOAD)).
  - unfold call_void, GetModule, SetDebuggerNotified.
    unfold bind, get, call, modify, ret, record.
    repeat progress (cbn; rewrite ?Hs, ?Mo).
    destruct (Hext (calls w) DebugInterface_LoadAssembly) as [b1 E1]. rewrite E1.
    repeat progress (cbn; rewrite ?Hs, ?Mo).
    destruct (Hext (calls w ++ [DebugInterface_LoadAssembly])
                   (Module_NotifyDebuggerLoad ATTACH_MODULE_LOAD attaching))
      as [b2 E2].
    rewrite E2. cbn. rewrite <- app_assoc.
    split; [reflexivity |]. split; [| discriminate].
    intros _. split; reflexivity.
  - unfold call_void, GetModule, SetDebuggerNotified.
    unfold bind, get, call, modify, ret, record.
    repeat progress (cbn; rewrite ?Hs, ?Mo).
    destruct (Hext (calls w) (Module_NotifyDebuggerLoad flags attaching))
      as [b1 E1].
    rewrite E1.
    repeat progress (cbn; rewrite ?Hs, ?Mo).
    destruct (Hext (calls w ++ [Module_NotifyDebuggerLoad flags attaching])
                   (Module_NotifyDebuggerLoad ATTACH_MODULE_LOAD attaching))
      as [b2 E2].
    rewrite E2. cbn. rewrite <- app_assoc.
    split; [reflexivity |]. split; [discriminate |].
    intros _. split; [reflexivity | eauto].
Qed.

Lemma NotifyDebuggerLoad_notifications_witness :
  (IsVisibleToDebugger HRESULT (this a_marked_unit) = true /\
   g_pDebugInterface a_marked_unit = true /\
   ShouldNotifyDebugger (this a_marked_unit) = true /\
   m_pModule (this a_marked_unit) <> None /\
   never_raises obliging) /\
  snd (@NotifyDebuggerLoad clr_headers HRESULT obliging
         (@ATTACH_ASSEMBLY_LOAD clr_headers) false a_marked_unit)
  = Returns true.
Proof.
  assert (Hm : m_pModule (this a_marked_unit) <> None) by (vm_compute; discriminate).
  split.
  - split; [reflexivity |]. split; [reflexivity |]. split; [reflexivity |].
    split; [exact Hm | exact obliging_never_raises].
  - apply (NotifyDebuggerLoad_notifications clr_headers full_build HRESULT obliging
             (@ATTACH_ASSEMBLY_LOAD clr_headers) false a_marked_unit
             eq_refl eq_refl eq_refl Hm obliging_never_raises).
    reflexivity.
Defined.

(** X23: from a state in which the log holds a registration with the host
    assembly exactly when the unit is marked as published and its image has
    a host assembly (a freshly constructed unit is in it), every sequence of
    [DoIncrementalLoad] and [SetError] calls leads to a unit whose
    destructor clears the association with the host assembly if and only if
    [Begin] has registered the unit with it. *)
Theorem registration_is_undone_at_teardown
        (H : Headers) (B : Build) (Exception : Type)
        (GetHR : Exception -> HRESULT) (DomainBoundClone : Exception -> Exception)
        (ext : list Event -> Event -> Answer Exception)
        (cs : list (Call Exception)) (w : World Exception) :
  registration_recorded w ->
  let w' := run GetHR DomainBoundClone ext cs w in
  In HostAssembly_SetDomainAssembly_nullptr (DomainAssembly_destructor (this w'))
  <-> In HostAssembly_SetDomainAssembly (calls w').
Proof.
  intros Hr w'.
  pose proof (registered_run GetHR DomainBoundClone ext cs w Hr) as Hr'.
  fold w' in Hr'. unfold registration_recorded in Hr'.
  rewrite destructor_unregisters, <- Hr', existsb_exists. split.
  - intros [e [Hin He]]. destruct e; cbn in He; try discriminate He. exact Hin.
  - intros Hin. exists HostAssembly_SetDomainAssembly. split; [exact Hin | reflexivity].
Qed.

Lemma registration_is_undone_at_teardown_witness :
  registration_recorded a_unit /\
  (In HostAssembly_SetDomainAssembly_nullptr
      (DomainAssembly_destructor
         (this (@run clr_headers full_build HRESULT hr_GetHR hr_DomainBoundClone
                     obliging every_stage a_unit)))
   <-> In HostAssembly_SetDomainAssembly
          (calls (@run clr_headers full_build HRESULT hr_GetHR hr_DomainBoundClone
                       obliging every_stage a_unit))).
Proof.
  assert (Hr : registration_recorded a_unit) by reflexivity.
  split; [exact Hr |].
  exact (registration_is_undone_at_teardown clr_headers full_build HRESULT
           hr_GetHR hr_DomainBoundClone obliging every_stage a_unit Hr).
Defined.

Ltac answer_of ext e :=
  match goal with
  | |- context [ext ?l e] => destruct (ext l e) as [? | ?]
  end.

(** X24: the constructor, started from its member initialisers.
    [Assembly::Create] is called only after the debugging configuration has
    been computed without a throw, and the unit then holds those flags
    (DACF_NONE in a build without debugging support).  When the constructor
    returns, the unit holds the assembly and its module, is at
    FILE_LOAD_CREATE and loading, has no error and no notification mark, and
    is not published to the host assembly. *)
Theorem constructor_outcomes
        (H : Headers) (B : Build) (Exception : Type)
        (ext : list Event -> Event -> Answer Exception)
        (assembly : Assembly) (pPEAssembly : PEAssembly) (IsCollectible : bool)
        (debugInterface debuggerAttached expandModules : bool) :
  let out :=
    DomainAssembly_constructor ext assembly
      {| this := DomainAssembly_initializers Exception pPEAssembly IsCollectible;
         g_pDebugInterface := debugInterface;
         CORDebuggerAttached := debuggerAttached;
         ExpandModulesOnLoad := expandModules;
         calls := [] |} in
  (In Assembly_Create (calls (fst out)) ->
   exists dacfFlags,
     @ComputeDebuggingConfig H B Exception (PE_DebuggableAttribute pPEAssembly)
     = Returns dacfFlags /\
     m_debuggerFlags (this (fst out))
     = if DEBUGGING_SUPPORTED then dacfFlags else DACF_NONE) /\
  (snd out = Returns tt ->
   m_pAssembly (this (fst out)) = Some assembly /\
   m_pModule (this (fst out)) = Some (Assembly_GetModule assembly) /\
   GetLoadLevel (this (fst out)) = FILE_LOAD_CREATE /\
   IsLoading (this (fst out)) = true /\
   IsError (this (fst out)) = false /\
   m_notifyflags (this (fst out)) = NOT_NOTIFIED /\
   m_fHostAssemblyPublished (this (fst out)) = false).
Proof.
  intros out. unfold out, DomainAssembly_constructor, SetupDebuggingConfig,
    SetDebuggerInfoBits, call_void.
  unfold bind, call_nothrow, call, get, modify, throw, fault, ret, record.
  cbn.
  answer_of ext PEAssembly_ValidateForExecution; cbn.
  2: { split; [| discriminate].
       intros [E | [E | []]]; discriminate E. }
  unfold ComputeDebuggingConfig.
  destruct DEBUGGING_SUPPORTED eqn:Dbg; cbn.
  - destruct (GetDebuggingCustomAttributes (PE_DebuggableAttribute pPEAssembly)
                (to_DWORD DACF_ALLOW_JIT_OPTS)) as [hr f] eqn:G.
    unfold IfFailThrow. destruct (FAILED hr); cbn.
    { split; [| discriminate].
      intros [E | [E | []]]; discriminate E. }
    answer_of ext Assembly_Create; cbn.
    2: { split; [| discriminate]. intros _. eauto. }
    answer_of ext Assembly_SetDomainAssembly; cbn.
    2: { split; [| discriminate]. intros _. eauto. }
    split; [intros _; eauto |].
    intros _. repeat split; reflexivity.
  - answer_of ext Assembly_Create; cbn.
    2: { split; [| discriminate]. intros _. eauto. }
    answer_of ext Assembly_SetDomainAssembly; cbn.
    2: { split; [| discriminate]. intros _. eauto. }
    split; [intros _; eauto |].
    intros _. repeat split; reflexivity.
Qed.

(** X25: [Activate] on a unit whose module has no global method table
    leaves every field of the unit as it was, the activation check
    included, and calls no method table: the only collaborators it may call
    are the module's exception-plan query, [ExpandAll] and the ReadyToRun
    registration. *)
Theorem Activate_without_global_method_table
        (H : Headers) (B : Build) (Exception : Type)
        (ext : list Event -> Event -> Answer Exception)
        (w : World Exception) (m : Module) :
  m_pModule (this w) = Some m ->
  Module_GetGlobalMethodTable m = None ->
  let w' := fst (Activate ext w) in
  this w' = this w /\
  exists made,
    calls w' = calls w ++ made /\
    forall e, In e made ->
      e = Module_IsRuntimeWrapExceptions \/ e = Module_ExpandAll \/
      e = ReadyToRunInfo_RegisterUnrelatedR2RModule.
Proof.
  intros Mo Mt w'. unfold w', Activate, GetModule, call_void.
  unfold bind, call, globals, ret, record.
  cbn. rewrite Mo.
  answer_of ext Module_IsRuntimeWrapExceptions; cbn.
  2: { split; [reflexivity |]. eexists. split; [reflexivity |].
       intros e [E | []]. auto. }
  rewrite Mo. cbn. rewrite Mt. cbn.
  repeat (first
            [ rewrite Mo
            | match goal with
              | |- context [ext ?l ?e] => destruct (ext l e) as [? | ?]
              | |- context [if ?b then _ else _] => destruct b
              end ]; cbn);
    (split; [reflexivity |]);
    rewrite <- ?app_assoc; eexists; (split; [reflexivity |]);
    cbn; intros e He; intuition auto.
Qed.

Lemma Activate_without_global_method_table_witness :
  m_pModule (this a_bare_unit) = Some (Assembly_GetModule a_bare_assembly) /\
  Module_GetGlobalMethodTable (Assembly_GetModule a_bare_assembly) = None /\
  this (fst (@Activate full_build HRESULT obliging a_bare_unit)) = this a_bare_unit.
Proof.
  split; [reflexivity |]. split; [reflexivity |].
  apply (Activate_without_global_method_table clr_headers full_build HRESULT
           obliging a_bare_unit (Assembly_GetModule a_bare_assembly)
           eq_refl eq_refl).
Defined.

(** * The captured error and [EnsureLoadLevel] *)



